(** * fetch_list.py: resumable paginated fetch of GitHub discussions

    A shallow embedding of [src/fetch_list.py] and the properties its
    specification states about the retrying request executor, the checkpoint
    store, the pagination controller and the finalizer.

    Python values that travel through the program are JSON documents; they
    are modelled by the type [json] together with the handful of dynamic
    operations the script applies to them ([in], subscripting, [len], ...).
    A [string] holds the UTF-8 encoding of a Python [str], as the files and
    the wire do; [len], slices and iteration count code points, not bytes.
    Effects (the HTTP transport, the clock, [time.sleep], the three files,
    Ctrl-C) live in a [world]; code is written in a state-and-exception monad
    over it.  *)

From Stdlib Require Import ZArith List String Ascii Bool Lia.
Import ListNotations.
Local Open Scope string_scope.
Local Open Scope Z_scope.
Local Open Scope list_scope.
Set Warnings "-register-all".

(* ================================================================== *)
(** * Python values *)

Inductive json : Type :=
| JNull                                   (* None *)
| JBool (b : bool)
| JNum (n : Z)
| JStr (s : string)
| JArr (items : list json)
| JObj (fields : list (string * json)).   (* dict, in insertion order *)

(** Exceptions the script can see.  [FetchFailed] and [GraphQLFailed] are the
    two plain [Exception(...)] values built by the executor (lines 106 and
    95); they are kept apart by their message template.  [FuelExhausted] is
    not a Python exception: it marks a loop of the model that ran out of
    fuel, and is shown unreachable further down. *)
Inductive exn : Type :=
| KeyboardInterrupt
| RequestException (cause : string)
| FetchFailed (max_retries : Z) (cause : string)
| GraphQLFailed (error_msg : json)
| KeyError (key : string)
| TypeError
| IndexError
| AttributeError
| ValueError
| OSError
| FuelExhausted.

(** [except Exception] catches everything but [KeyboardInterrupt]. *)
Definition is_Exception (e : exn) : bool :=
  match e with
  | KeyboardInterrupt | FuelExhausted => false
  | _ => true
  end.

Definition is_RequestException (e : exn) : bool :=
  match e with RequestException _ => true | _ => false end.

Definition is_KeyboardInterrupt (e : exn) : bool :=
  match e with KeyboardInterrupt => true | _ => false end.

Inductive outcome (A : Type) : Type :=
| Return (a : A)
| Raise (e : exn).
Arguments Return {A} a.
Arguments Raise {A} e.

(** ** Dynamic operations on values *)

Module Py.

Fixpoint lookup (k : string) (fields : list (string * json)) : option json :=
  match fields with
  | [] => None
  | (k', v) :: rest => if String.eqb k k' then Some v else lookup k rest
  end.

(** [bool(v)] *)
Definition truthy (v : json) : bool :=
  match v with
  | JNull => false
  | JBool b => b
  | JNum n => negb (n =? 0)
  | JStr s => negb (String.eqb s "")
  | JArr l => match l with [] => false | _ => true end
  | JObj f => match f with [] => false | _ => true end
  end.

(** [v == False] *)
Definition eq_False (v : json) : bool :=
  match v with
  | JBool b => negb b
  | JNum n => n =? 0
  | _ => false
  end.

Definition lower_ascii (c : ascii) : ascii :=
  let n := nat_of_ascii c in
  if (andb (Nat.leb 65 n) (Nat.leb n 90)) then ascii_of_nat (n + 32) else c.

(** [s.lower()] on the ASCII letters.  Other letters are left as they are:
    what [lower] does to them neither brings about nor undoes an occurrence
    of the ASCII text the result is searched for (line 83), its only use. *)
Fixpoint lower (s : string) : string :=
  match s with
  | EmptyString => EmptyString
  | String c rest => String (lower_ascii c) (lower rest)
  end.

(** [needle in hay] for two strings. *)
Fixpoint substring_of (needle hay : string) : bool :=
  if String.prefix needle hay then true
  else match hay with
       | EmptyString => false
       | String _ rest => substring_of needle rest
       end.

(** A byte [10xxxxxx], which goes on with the code point begun before it. *)
Definition is_continuation (c : ascii) : bool :=
  let n := nat_of_ascii c in andb (Nat.leb 128 n) (Nat.ltb n 192).

(** [len(s)]: the number of code points, one for each byte that begins
    one. *)
Fixpoint code_points (s : string) : nat :=
  match s with
  | EmptyString => O
  | String c rest =>
      if is_continuation c then code_points rest else S (code_points rest)
  end.

(** [s[:n]]: the bytes of the first [n] code points. *)
Fixpoint take_points (n : nat) (s : string) : string :=
  match s with
  | EmptyString => EmptyString
  | String c rest =>
      if is_continuation c then String c (take_points n rest)
      else match n with
           | O => EmptyString
           | S n' => String c (take_points n' rest)
           end
  end.

Definition begins_with_continuation (s : string) : bool :=
  match s with
  | EmptyString => false
  | String c _ => is_continuation c
  end.

(** The code points of [s], each with its bytes. *)
Fixpoint split_points (s : string) : list string :=
  match s with
  | EmptyString => []
  | String c rest =>
      if begins_with_continuation rest then
        match split_points rest with
        | p :: ps => String c p :: ps
        | [] => [String c EmptyString]
        end
      else String c EmptyString :: split_points rest
  end.

Definition is_str (k : string) (v : json) : bool :=
  match v with JStr s => String.eqb k s | _ => false end.

(** [k in v] for a string [k]. *)
Definition contains (k : string) (v : json) : outcome bool :=
  match v with
  | JObj f => Return (match lookup k f with Some _ => true | None => false end)
  | JArr l => Return (existsb (is_str k) l)
  | JStr s => Return (substring_of k s)
  | _ => Raise TypeError
  end.

(** [v[k]] for a string [k]. *)
Definition getitem (v : json) (k : string) : outcome json :=
  match v with
  | JObj f => match lookup k f with
              | Some x => Return x
              | None => Raise (KeyError k)
              end
  | _ => Raise TypeError
  end.

(** [v[0]] *)
Definition getitem0 (v : json) : outcome json :=
  match v with
  | JArr (x :: _) => Return x
  | JArr [] => Raise IndexError
  | JStr s => match split_points s with
              | p :: _ => Return (JStr p)
              | [] => Raise IndexError
              end
  | JObj _ => Raise (KeyError "0")
  | _ => Raise TypeError
  end.

(** [v.get(k, default)] *)
Definition get (v : json) (k : string) (default : json) : outcome json :=
  match v with
  | JObj f => Return (match lookup k f with Some x => x | None => default end)
  | _ => Raise AttributeError
  end.

(** [v.lower()] *)
Definition str_lower (v : json) : outcome string :=
  match v with
  | JStr s => Return (lower s)
  | _ => Raise AttributeError
  end.

(** [len(v)] *)
Definition len (v : json) : outcome Z :=
  match v with
  | JArr l => Return (Z.of_nat (List.length l))
  | JStr s => Return (Z.of_nat (code_points s))
  | JObj f => Return (Z.of_nat (List.length f))
  | _ => Raise TypeError
  end.

(** [v.extend(items)] *)
Definition extend (v : json) (items : list json) : outcome json :=
  match v with
  | JArr l => Return (JArr (l ++ items))
  | _ => Raise AttributeError
  end.

Definition chars (s : string) : list json := map JStr (split_points s).

(** The elements [for x in v] walks through. *)
Definition iter (v : json) : outcome (list json) :=
  match v with
  | JArr l => Return l
  | JStr s => Return (chars s)
  | JObj f => Return (map (fun kv => JStr (fst kv)) f)
  | _ => Raise TypeError
  end.

End Py.

(* ================================================================== *)
(** * The environment *)

(** The [X-RateLimit-Reset] header as [int(headers.get(..., 0))] sees it:
    absent, an integer, or text [int] rejects. *)
Inductive header_val : Type :=
| HAbsent
| HInt (n : Z)
| HBad.

(** A response that passed [raise_for_status] and whose body parsed. *)
Record response : Type := mkResponse {
  body : json;
  rate_limit_reset : header_val
}.

(** What one [requests.post] ... [response.json()] sequence does: it raises a
    [RequestException] (timeout, connection error, non-2xx status, body that
    is not JSON) or yields a response. *)
Inductive reply : Type :=
| ReqFails (cause : string)
| Responds (r : response).

(** The query text is a fixed template with one hole, the [after] clause. *)
Inductive query : Type :=
| DiscussionsQuery (after : option json).

(** File contents, up to the layout the serializer chose: the text
    [json.dump(doc, indent=...)] writes, a gzip stream around some content,
    or bytes that are no JSON text. *)
Inductive content : Type :=
| Text (indent : option nat) (doc : json)
| Gzip (compresslevel : nat) (payload : content)
| Garbage.

(** What was done, as far as it was done to its end: a request answered, a
    pause taken, a file written and closed, a file removed, a progress line
    printed. *)
Inductive event : Type :=
| EvPost (q : query) (authorization : string) (r : reply)
| EvSleep (seconds : Z)
| EvWrite (path : string) (c : content)
| EvRemove (path : string)
| EvPage (new_count total : Z).           (* the progress line of line 217 *)

Record world : Type := mkWorld {
  script : list reply;          (* what the transport will answer, in order *)
  clock : Z;                    (* int(time.time()) *)
  datetime_now : string;        (* datetime.now().isoformat() *)
  github_token : option string; (* os.environ.get('GITHUB_TOKEN') *)
  files : string -> option content;
  write_faults : list bool;     (* true: the next open-for-writing fails *)
  interrupt_in : option nat;    (* effects left before Ctrl-C arrives *)
  trace : list event            (* effects performed so far, oldest first *)
}.

Definition set_script (x : list reply) (w : world) : world :=
  mkWorld x (clock w) (datetime_now w) (github_token w) (files w)
          (write_faults w) (interrupt_in w) (trace w).
Definition set_clock (x : Z) (w : world) : world :=
  mkWorld (script w) x (datetime_now w) (github_token w) (files w)
          (write_faults w) (interrupt_in w) (trace w).
Definition set_files (x : string -> option content) (w : world) : world :=
  mkWorld (script w) (clock w) (datetime_now w) (github_token w) x
          (write_faults w) (interrupt_in w) (trace w).
Definition set_write_faults (x : list bool) (w : world) : world :=
  mkWorld (script w) (clock w) (datetime_now w) (github_token w) (files w)
          x (interrupt_in w) (trace w).
Definition set_interrupt_in (x : option nat) (w : world) : world :=
  mkWorld (script w) (clock w) (datetime_now w) (github_token w) (files w)
          (write_faults w) x (trace w).
Definition log (ev : event) (w : world) : world :=
  mkWorld (script w) (clock w) (datetime_now w) (github_token w) (files w)
          (write_faults w) (interrupt_in w) (trace w ++ [ev]).

Definition update (p : string) (c : option content)
    (fs : string -> option content) : string -> option content :=
  fun q => if String.eqb q p then c else fs q.

(* ================================================================== *)
(** * State and exceptions *)

Definition M (S A : Type) : Type := S -> outcome A * S.

Definition ret {S A} (a : A) : M S A := fun s => (Return a, s).
Definition raise {S A} (e : exn) : M S A := fun s => (Raise e, s).
Definition lift {S A} (o : outcome A) : M S A := fun s => (o, s).

Definition bind {S A B} (m : M S A) (k : A -> M S B) : M S B :=
  fun s => match m s with
           | (Return a, s') => k a s'
           | (Raise e, s') => (Raise e, s')
           end.

Declare Scope py_scope.
Delimit Scope py_scope with py.
Notation "x <- m ;; k" := (bind m (fun x => k))
  (at level 61, m at next level, right associativity) : py_scope.
Notation "m ;; k" := (bind m (fun _ => k))
  (at level 61, right associativity) : py_scope.
Local Open Scope py_scope.

(** [try: body / except <catches> as e: handler e]. *)
Definition try_except {S A} (body : M S A) (catches : exn -> bool)
    (handler : exn -> M S A) : M S A :=
  fun s => match body s with
           | (Raise e, s') => if catches e then handler e s' else (Raise e, s')
           | r => r
           end.

(** A [try] with two [except] clauses, tried in order; a handler's own
    exception is not offered to the other clause. *)
Definition try_except2 {S A} (body : M S A)
    (catches1 : exn -> bool) (handler1 : exn -> M S A)
    (catches2 : exn -> bool) (handler2 : exn -> M S A) : M S A :=
  fun s => match body s with
           | (Raise e, s') =>
               if catches1 e then handler1 e s'
               else if catches2 e then handler2 e s'
               else (Raise e, s')
           | r => r
           end.

(** Pure code that may raise. *)
Definition obind {A B} (o : outcome A) (k : A -> outcome B) : outcome B :=
  match o with
  | Return a => k a
  | Raise e => Raise e
  end.

Fixpoint map_outcome {A B} (f : A -> outcome B) (l : list A) : outcome (list B) :=
  match l with
  | [] => Return []
  | x :: rest =>
      obind (f x) (fun y => obind (map_outcome f rest) (fun ys => Return (y :: ys)))
  end.

(** ** Primitive effects *)

(** Every blocking primitive is a point where Ctrl-C can arrive. *)
Definition tick : M world unit :=
  fun w => match interrupt_in w with
           | Some O => (Raise KeyboardInterrupt, set_interrupt_in None w)
           | Some (S n) => (Return tt, set_interrupt_in (Some n) w)
           | None => (Return tt, w)
           end.

(** When the script is used up the transport keeps failing. *)
Definition next_reply (w : world) : reply * list reply :=
  match script w with
  | [] => (ReqFails "connection error", [])
  | r :: rest => (r, rest)
  end.

(** [requests.post(...)], [raise_for_status()], [response.json()]. *)
Definition requests_post (q : query) (authorization : string) : M world response :=
  tick ;;
  fun w =>
    let (r, rest) := next_reply w in
    let w' := log (EvPost q authorization r) (set_script rest w) in
    match r with
    | ReqFails cause => (Raise (RequestException cause), w')
    | Responds resp => (Return resp, w')
    end.

(** [int(time.time())] *)
Definition time_time : M world Z := fun w => (Return (clock w), w).

(** The longest pause [time.sleep] takes, in seconds: above it the
    conversion to nanoseconds overflows and [time.sleep] raises
    [OverflowError]. *)
Definition SLEEP_MAX : Z := 9223372036.

(** [time.sleep(seconds)], for [seconds] up to [SLEEP_MAX].  The retry
    delays are multiples of the constant 5 the call site passes; the one
    pause whose length comes from a response is the rate-limit wait, and what
    is said about it is said for waits within [SLEEP_MAX]. *)
Definition sleep (seconds : Z) : M world unit :=
  if seconds <? 0 then raise ValueError
  else tick ;; fun w => (Return tt, log (EvSleep seconds) (set_clock (clock w + seconds) w)).

(** [os.path.exists(p)] *)
Definition path_exists (p : string) : M world bool :=
  fun w => (Return (match files w p with Some _ => true | None => false end), w).

(** [with open(p, 'r') as f: json.load(f)] *)
Definition read_json (p : string) : M world json :=
  tick ;;
  fun w => match files w p with
           | None => (Raise OSError, w)
           | Some (Text _ doc) => (Return doc, w)
           | Some _ => (Raise ValueError, w)
           end.

(** Opening [p] for writing and writing [c] to it.  The faults are those of
    [open] (no permission, no directory, ...), which leave the file as it
    was; so does Ctrl-C, which arrives before the call.  A write that breaks
    off after [open] truncated the file is outside the model: what is said
    about a write that fails is said about an [open] that fails. *)
Definition write_file (p : string) (c : content) : M world unit :=
  tick ;;
  fun w => match write_faults w with
           | true :: rest => (Raise OSError, set_write_faults rest w)
           | false :: rest =>
               (Return tt, log (EvWrite p c)
                             (set_files (update p (Some c) (files w))
                                (set_write_faults rest w)))
           | [] =>
               (Return tt, log (EvWrite p c)
                             (set_files (update p (Some c) (files w)) w))
           end.

(** [os.remove(p)] *)
Definition remove (p : string) : M world unit :=
  tick ;;
  fun w => match files w p with
           | None => (Raise OSError, w)
           | Some _ => (Return tt, log (EvRemove p) (set_files (update p None (files w)) w))
           end.

(** [os.path.getsize(p)]; only the fact that it can fail matters. *)
Definition getsize (p : string) : M world unit :=
  fun w => match files w p with
           | None => (Raise OSError, w)
           | Some _ => (Return tt, w)
           end.

Definition emit (ev : event) : M world unit := fun w => (Return tt, log ev w).

(* ================================================================== *)
(** * The program *)

(** ** Configuration (lines 9-15) *)

Definition REPO_OWNER : string := "helloamger".
Definition REPO_NAME : string := "JiNan-Company-Rating".
Definition CATEGORY_ID : string := "DIC_kwDORKDfUs4C19oY".
Definition OUTPUT_FILE : string := "discussions.json".
Definition CHECKPOINT_FILE : string := "discussions_checkpoint.json".
Definition OUTPUT_GZIP_FILE : string := "discussions.json.gz".

(** Lines 18-20. *)
Definition get_github_token : M world (option string) :=
  fun w => (Return (github_token w), w).

(** Lines 23-53: the [after] clause is there when [cursor] is truthy. *)
Definition get_discussions_query (cursor : json) : query :=
  DiscussionsQuery (if Py.truthy cursor then Some cursor else None).

(** ** Retrying request executor (lines 57-108) *)

(** How one pass through the body of a loop ends. *)
Inductive flow (A : Type) : Type :=
| Continue
| Break
| ReturnWith (a : A).
Arguments Continue {A}.
Arguments Break {A}.
Arguments ReturnWith {A} a.

(** [f'Bearer {token}'] *)
Definition bearer (token : option string) : string :=
  "Bearer " ++ match token with Some t => t | None => "None" end.

(** [int(response.headers.get('X-RateLimit-Reset', 0))] *)
Definition reset_time_of (h : header_val) : outcome Z :=
  match h with
  | HAbsent => Return 0
  | HInt n => Return n
  | HBad => Raise ValueError
  end.

(** Lines 91-95. *)
Definition retry_or_give_up (max_retries retry_delay attempt : Z)
    (error_msg : json) : M world (flow json) :=
  if attempt <? max_retries - 1 then
    sleep retry_delay ;; ret Continue
  else raise (GraphQLFailed error_msg).

(** Lines 64-106: one pass through the body of the [for] loop. *)
Definition attempt_body (q : query) (token : option string)
    (max_retries retry_delay attempt : Z) : M world (flow json) :=
  try_except
    (response <- requests_post q (bearer token) ;;
     let data := body response in
     has_errors <- lift (Py.contains "errors" data) ;;
     if has_errors then
       errors <- lift (Py.getitem data "errors") ;;
       first <- lift (Py.getitem0 errors) ;;
       error_msg <- lift (Py.get first "message" (JStr "Unknown GraphQL error")) ;;
       lowered <- lift (Py.str_lower error_msg) ;;
       if Py.substring_of "rate limit" lowered then
         reset_time <- lift (reset_time_of (rate_limit_reset response)) ;;
         if negb (reset_time =? 0) then
           now <- time_time ;;
           let wait_time := Z.max (reset_time - now) 0 + 5 in
           sleep wait_time ;;
           ret Continue
         else retry_or_give_up max_retries retry_delay attempt error_msg
       else retry_or_give_up max_retries retry_delay attempt error_msg
     else ret (ReturnWith data))
    is_RequestException
    (fun e =>
       if attempt <? max_retries - 1 then
         let wait_time := retry_delay * (attempt + 1) in
         sleep wait_time ;;
         ret Continue
       else
         raise (FetchFailed max_retries
                  match e with RequestException cause => cause | _ => "" end)).

(** [for attempt in attempts: ...] followed by [return None] (line 108). *)
Fixpoint attempts_loop (q : query) (token : option string)
    (max_retries retry_delay : Z) (attempts : list Z) : M world json :=
  match attempts with
  | [] => ret JNull
  | attempt :: rest =>
      f <- attempt_body q token max_retries retry_delay attempt ;;
      match f with
      | ReturnWith data => ret data
      | _ => attempts_loop q token max_retries retry_delay rest
      end
  end.

(** [range(n)] *)
Definition range (n : Z) : list Z := map Z.of_nat (seq 0 (Z.to_nat n)).

Definition execute_graphql_with_retry (q : query) (token : option string)
    (max_retries retry_delay : Z) : M world json :=
  attempts_loop q token max_retries retry_delay (range max_retries).

(** ** Checkpoint store (lines 112-133) *)

Definition default_checkpoint : json :=
  JObj [("discussions", JArr []); ("last_cursor", JNull);
        ("has_more", JBool true); ("total_count", JNum 0)].

Definition load_checkpoint : M world json :=
  present <- path_exists CHECKPOINT_FILE ;;
  if present then
    try_except (read_json CHECKPOINT_FILE) is_Exception
               (fun _ => ret default_checkpoint)
  else ret default_checkpoint.

Definition save_checkpoint (checkpoint_data : json) : M world unit :=
  try_except (write_file CHECKPOINT_FILE (Text (Some 2%nat) checkpoint_data))
             is_Exception (fun _ => ret tt).

(** ** Finalizer (lines 137-160) *)

Definition output_data_of (discussions : json) (total : Z) (fetched_at : string) : json :=
  JObj [("repository", JStr (REPO_OWNER ++ "/" ++ REPO_NAME));
        ("category_id", JStr CATEGORY_ID);
        ("total_count", JNum total);
        ("fetched_at", JStr fetched_at);
        ("discussions", discussions)].

Definition save_final_result (discussions : json) : M world unit :=
  total <- lift (Py.len discussions) ;;
  fetched_at <- (fun w => (Return (datetime_now w), w)) ;;
  let output_data := output_data_of discussions total fetched_at in
  write_file OUTPUT_FILE (Text (Some 2%nat) output_data) ;;
  let json_bytes := Text None output_data in
  write_file OUTPUT_GZIP_FILE (Gzip 9 json_bytes) ;;
  getsize OUTPUT_GZIP_FILE.

(** ** Pagination controller (lines 164-264) *)

(** The local variables of [fetch_discussions]. *)
Record frame : Type := mkFrame {
  token : option string;
  all_discussions : json;
  cursor : json;
  has_more : json;
  page_count : Z
}.

Definition ctl : Type := (frame * world)%type.

Definition io {A} (m : M world A) : M ctl A :=
  fun s => let (r, w') := m (snd s) in (r, (fst s, w')).

Definition local {A} (proj : frame -> A) : M ctl A :=
  fun s => (Return (proj (fst s)), s).

Definition assign (f : frame -> frame) : M ctl unit :=
  fun s => (Return tt, (f (fst s), snd s)).

Definition set_all_discussions (v : json) (f : frame) : frame :=
  mkFrame (token f) v (cursor f) (has_more f) (page_count f).
Definition set_cursor (v : json) (f : frame) : frame :=
  mkFrame (token f) (all_discussions f) v (has_more f) (page_count f).
Definition set_has_more (v : json) (f : frame) : frame :=
  mkFrame (token f) (all_discussions f) (cursor f) v (page_count f).
Definition set_page_count (v : Z) (f : frame) : frame :=
  mkFrame (token f) (all_discussions f) (cursor f) (has_more f) v.

(** Lines 201-208. *)
Definition discussion_of_edge (edge : json) : outcome json :=
  obind (Py.getitem edge "node") (fun node =>
  obind (Py.getitem node "number") (fun number =>
  obind (Py.getitem node "title") (fun title =>
  obind (Py.getitem node "createdAt") (fun created_at =>
  obind (Py.getitem node "url") (fun url =>
  obind (Py.getitem node "bodyHTML") (fun body_html =>
  Return (JObj [("number", number); ("title", title);
                ("created_at", created_at); ("url", url);
                ("bodyHTML", body_html)]))))))).

(** The dict literal of lines 220-225, 244-249 and 257-262. *)
Definition checkpoint_of (f : frame) : outcome json :=
  obind (Py.len (all_discussions f)) (fun total =>
  Return (JObj [("discussions", all_discussions f);
                ("last_cursor", cursor f);
                ("has_more", has_more f);
                ("total_count", JNum total)])).

(** Lines 184-230: one pass through the body of the [while] loop. *)
Definition loop_body : M ctl (flow unit) :=
  n <- local page_count ;;
  assign (set_page_count (n + 1)) ;;
  c <- local cursor ;;
  let query := get_discussions_query c in
  tok <- local token ;;
  data <- io (execute_graphql_with_retry query tok 3 5) ;;
  no_data <- (if negb (Py.truthy data) then ret true
              else has <- lift (Py.contains "data" data) ;; ret (negb has)) ;;
  if (no_data : bool) then ret Break
  else
    d <- lift (Py.getitem data "data") ;;
    r <- lift (Py.getitem d "repository") ;;
    discussions_data <- lift (Py.getitem r "discussions") ;;
    edges <- lift (Py.getitem discussions_data "edges") ;;
    page_info <- lift (Py.getitem discussions_data "pageInfo") ;;
    items <- lift (Py.iter edges) ;;
    new_discussions <- lift (map_outcome discussion_of_edge items) ;;
    acc <- local all_discussions ;;
    acc' <- lift (Py.extend acc new_discussions) ;;
    assign (set_all_discussions acc') ;;
    hm <- lift (Py.getitem page_info "hasNextPage") ;;
    assign (set_has_more hm) ;;
    cur <- (if Py.truthy hm then lift (Py.getitem page_info "endCursor")
            else ret JNull) ;;
    assign (set_cursor cur) ;;
    total <- lift (Py.len acc') ;;
    io (emit (EvPage (Z.of_nat (List.length new_discussions)) total)) ;;
    f <- local id ;;
    checkpoint <- lift (checkpoint_of f) ;;
    io (save_checkpoint checkpoint) ;;
    (if Py.truthy hm then io (sleep 25) else ret tt) ;;
    ret Continue.

(** [while has_more: ...] (line 183). *)
Fixpoint while_has_more (fuel : nat) : M ctl unit :=
  match fuel with
  | O => raise FuelExhausted
  | S fuel' =>
      hm <- local has_more ;;
      if Py.truthy hm then
        f <- loop_body ;;
        match f with
        | Break => ret tt
        | _ => while_has_more fuel'
        end
      else ret tt
  end.

(** Lines 183-240: the body of the [try]. *)
Definition try_body : M ctl json :=
  (fun s => while_has_more (S (List.length (script (snd s)))) s) ;;
  acc <- local all_discussions ;;
  io (save_final_result acc) ;;
  present <- io (path_exists CHECKPOINT_FILE) ;;
  (if (present : bool) then io (remove CHECKPOINT_FILE) else ret tt) ;;
  local all_discussions.

(** Lines 242-252.  [has_more] is bound before the [try], so the
    [locals()] test picks it. *)
Definition on_interrupt (_ : exn) : M ctl json :=
  f <- local id ;;
  checkpoint <- lift (checkpoint_of f) ;;
  io (save_checkpoint checkpoint) ;;
  local all_discussions.

(** Lines 254-264.  [cursor] and [has_more] are bound before the [try]. *)
Definition on_exception (e : exn) : M ctl json :=
  f <- local id ;;
  checkpoint <- lift (checkpoint_of f) ;;
  io (save_checkpoint checkpoint) ;;
  raise e.

Definition protected_fetch : M ctl json :=
  try_except2 try_body
              is_KeyboardInterrupt on_interrupt
              is_Exception on_exception.

Definition fetch_discussions : M world json :=
  tok <- get_github_token ;;
  checkpoint <- load_checkpoint ;;
  acc <- lift (Py.getitem checkpoint "discussions") ;;
  cur <- lift (Py.getitem checkpoint "last_cursor") ;;
  hm <- lift (Py.getitem checkpoint "has_more") ;;
  (if Py.truthy acc then lift (Py.len acc) ;; ret tt else ret tt) ;;  (* 177-178 *)
  fun w =>
    let (r, s) := protected_fetch (mkFrame tok acc cur hm 0, w) in
    (r, snd s).

(* ================================================================== *)
(** * Reading the trace *)

(** The replies the transport gave, in order. *)
Definition posts (tr : list event) : list reply :=
  flat_map (fun ev => match ev with EvPost _ _ r => [r] | _ => [] end) tr.

(** The lengths of the pauses taken, in order. *)
Definition sleeps (tr : list event) : list Z :=
  flat_map (fun ev => match ev with EvSleep d => [d] | _ => [] end) tr.

(** The documents written to the checkpoint file, in order. *)
Definition saved_checkpoints (tr : list event) : list json :=
  flat_map (fun ev => match ev with
                      | EvWrite p (Text _ doc) =>
                          if String.eqb p CHECKPOINT_FILE then [doc] else []
                      | _ => []
                      end) tr.

(** The item counts of the pages merged, in order. *)
Definition page_sizes (tr : list event) : list Z :=
  flat_map (fun ev => match ev with EvPage n _ => [n] | _ => [] end) tr.

(** The condition under which the executor takes the rate-limit branch
    (lines 78-85): the first error's message contains "rate limit" in any
    letter case and the reset header holds a non-zero integer. *)
Definition rate_limit_signal (r : response) : option Z :=
  match Py.contains "errors" (body r) with
  | Return true =>
      match obind (Py.getitem (body r) "errors") (fun errors =>
            obind (Py.getitem0 errors) (fun first =>
            obind (Py.get first "message" (JStr "Unknown GraphQL error"))
                  Py.str_lower)) with
      | Return lowered =>
          if Py.substring_of "rate limit" lowered then
            match rate_limit_reset r with
            | HInt n => if n =? 0 then None else Some n
            | _ => None
            end
          else None
      | Raise _ => None
      end
  | _ => None
  end.

(** The world once a rate-limited reply has been received and waited out. *)
Definition after_rate_limit_wait (q : query) (token : option string)
    (resp : response) (reset : Z) (w : world) : world :=
  let wait_time := Z.max (reset - clock w) 0 + 5 in
  let w1 := log (EvPost q (bearer token) (Responds resp)) (set_script (tl (script w)) w) in
  log (EvSleep wait_time) (set_clock (clock w1 + wait_time) w1).

(* ================================================================== *)
(** * Specification vocabulary *)

(** [wp m Q s]: running [m] from [s] ends in an outcome and a state that
    satisfy [Q]. *)
Definition wp {S A} (m : M S A) (Q : outcome A -> S -> Prop) (s : S) : Prop :=
  Q (fst (m s)) (snd (m s)).
Arguments wp : simpl never.

(** [r] is the exception [e]. *)
Definition raises {A} (e : exn) (r : outcome A) : Prop :=
  match r with
  | Raise e' => e' = e
  | Return _ => False
  end.

(** Exceptions raised by the dynamic operations themselves. *)
Definition py_error (e : exn) : Prop :=
  match e with
  | KeyError _ | TypeError | IndexError | AttributeError | ValueError => True
  | _ => False
  end.

(** The two exceptions the executor builds itself. *)
Definition fetch_failure (e : exn) : Prop :=
  match e with
  | FetchFailed _ _ | GraphQLFailed _ => True
  | _ => False
  end.

(** What the executor does to the outside: requests and pauses. *)
Definition net_event (ev : event) : Prop :=
  match ev with
  | EvPost _ _ _ | EvSleep _ => True
  | _ => False
  end.

Definition sum (l : list Z) : Z := fold_right Z.add 0 l.

(** The trace a run of [k] failed attempts leaves, starting at attempt
    number [attempt]: a request, then a pause before the next one. *)
Fixpoint failed_attempts (q : query) (authorization : string)
    (retry_delay attempt : Z) (causes : list string) : list event :=
  match causes with
  | [] => []
  | c :: rest =>
      EvPost q authorization (ReqFails c) ::
      match rest with
      | [] => []
      | _ => EvSleep (retry_delay * (attempt + 1)) ::
             failed_attempts q authorization retry_delay (attempt + 1) rest
      end
  end.

(** ** Checkpoints and artifacts as documents *)

(** [total_count == len(discussions)] *)
Definition count_ok (doc : json) : Prop :=
  exists d n,
    Py.getitem doc "discussions" = Return d /\
    Py.getitem doc "total_count" = Return (JNum n) /\
    Py.len d = Return n.

(** [has_more == False] implies [last_cursor is None] *)
Definition cursor_ok (doc : json) : Prop :=
  exists hm cur,
    Py.getitem doc "has_more" = Return hm /\
    Py.getitem doc "last_cursor" = Return cur /\
    (Py.eq_False hm = true -> cur = JNull).

(** The same implication on the controller's variables. *)
Definition cursor_inv (f : frame) : Prop :=
  Py.eq_False (has_more f) = true -> cursor f = JNull.

(** The documents written as final artifact, from either encoding. *)
Definition final_artifacts (tr : list event) : list json :=
  flat_map (fun ev => match ev with
                      | EvWrite p (Text _ doc) =>
                          if String.eqb p OUTPUT_FILE then [doc] else []
                      | EvWrite p (Gzip _ (Text _ doc)) =>
                          if String.eqb p OUTPUT_GZIP_FILE then [doc] else []
                      | _ => []
                      end) tr.

Definition option_bind {A B} (o : option A) (k : A -> option B) : option B :=
  match o with
  | Some a => k a
  | None => None
  end.

(** Reading a file back: [json.loads] of a text, [gzip.decompress] of a
    stream. *)
Definition json_loads (c : content) : option json :=
  match c with
  | Text _ doc => Some doc
  | _ => None
  end.

Definition gunzip (c : content) : option content :=
  match c with
  | Gzip _ payload => Some payload
  | _ => None
  end.

(** The events a run of the controller can leave.  Checkpoint writes carry a
    document that satisfies [good], artifact writes one that satisfies
    [final]. *)
Definition fetch_event (good final : json -> Prop) (ev : event) : Prop :=
  match ev with
  | EvPost _ _ _ | EvSleep _ | EvPage _ _ => True
  | EvWrite p c =>
      (p = CHECKPOINT_FILE /\ exists doc, c = Text (Some 2%nat) doc /\ good doc)
      \/ (p = OUTPUT_FILE /\ exists doc, c = Text (Some 2%nat) doc /\ final doc)
      \/ (p = OUTPUT_GZIP_FILE /\ exists doc, c = Gzip 9 (Text None doc) /\ final doc)
  | EvRemove p => p = CHECKPOINT_FILE
  end.

Definition good_checkpoint (doc : json) : Prop := count_ok doc /\ cursor_ok doc.

Definition no_artifact (_ : json) : Prop := False.

(** A checkpoint written by a handler: its cursor implication rests on the
    one of the state the run started from. *)
Definition sound_checkpoint (started_well : Prop) (doc : json) : Prop :=
  count_ok doc /\ (started_well -> cursor_ok doc).

(** The events of the finalizer and of the clean-up after it. *)
Definition finalizer_event (final : json -> Prop) (ev : event) : Prop :=
  match ev with
  | EvWrite p c =>
      (p = OUTPUT_FILE /\ exists doc, c = Text (Some 2%nat) doc /\ final doc)
      \/ (p = OUTPUT_GZIP_FILE /\ exists doc, c = Gzip 9 (Text None doc) /\ final doc)
  | EvRemove p => p = CHECKPOINT_FILE
  | _ => False
  end.

(** An artifact for [discussions] whose count is [n]. *)
Definition artifact_of (discussions : json) (n : Z) (doc : json) : Prop :=
  Py.getitem doc "discussions" = Return discussions /\
  Py.getitem doc "total_count" = Return (JNum n) /\
  Py.len discussions = Return n.

(** The checkpoint a run resumes from has the cursor implication. *)
Definition resumes_well (w : world) : Prop :=
  forall ck, fst (load_checkpoint w) = Return ck -> cursor_ok ck.

(** An artifact whose count is that of the checkpoint the run resumed from
    plus [added]. *)
Definition counts_from (w : world) (added : Z) (doc : json) : Prop :=
  exists ck acc n0 d,
    fst (load_checkpoint w) = Return ck /\
    Py.getitem ck "discussions" = Return acc /\
    Py.len acc = Return n0 /\
    artifact_of d (n0 + added) doc.

(** ** Where the loop stands *)

(** [passes s s']: started at the head of the [while] loop in state [s], the
    controller is at its head again in state [s'], each pass in between
    having merged a page. *)
Inductive passes : ctl -> ctl -> Prop :=
| passes_none (s : ctl) : passes s s
| passes_more (s s1 s' : ctl) :
    Py.truthy (has_more (fst s)) = true ->
    loop_body s = (Return Continue, s1) ->
    passes s1 s' ->
    passes s s'.

(** ** The claims of the specification that the code does not meet, as
       stated *)

(** The executor hands back an error-free payload it received, or raises. *)
Definition returns_payload_or_raises (q : query) (token : option string)
    (max_retries retry_delay : Z) (w : world) : Prop :=
  match fst (execute_graphql_with_retry q token max_retries retry_delay w) with
  | Return data =>
      exists resp, In (Responds resp) (script w) /\ body resp = data /\
                   Py.contains "errors" data = Return false
  | Raise _ => True
  end.

(** A rate-limit wait leaves the retry budget untouched: after it the
    executor goes on as a fresh call would. *)
Definition rate_limit_keeps_budget (q : query) (token : option string)
    (max_retries retry_delay : Z) (w : world) : Prop :=
  forall resp reset rest,
    script w = Responds resp :: rest ->
    rate_limit_signal resp = Some reset ->
    fst (execute_graphql_with_retry q token max_retries retry_delay w) =
    fst (execute_graphql_with_retry q token max_retries retry_delay
           (after_rate_limit_wait q token resp reset w)).

(** The controller keeps a fetch failure of the executor to itself. *)
Definition fetch_failure_not_propagated (w : world) : Prop :=
  forall e, fetch_failure e -> fst (fetch_discussions w) <> Raise e.

(** Ctrl-C reaches the caller of the controller. *)
Definition interruption_reaches_caller (w : world) : Prop :=
  fst (fetch_discussions w) = Raise KeyboardInterrupt.

(** ** Sample data *)

Module Sample.

Definition edge (number : Z) (title : string) : json :=
  JObj [("node", JObj [("number", JNum number);
                       ("bodyHTML", JStr "<p>text</p>");
                       ("title", JStr title);
                       ("createdAt", JStr "2024-05-01T08:00:00Z");
                       ("url", JStr "https://example.org/d")])].

Definition discussion (number : Z) (title : string) : json :=
  JObj [("number", JNum number); ("title", JStr title);
        ("created_at", JStr "2024-05-01T08:00:00Z");
        ("url", JStr "https://example.org/d");
        ("bodyHTML", JStr "<p>text</p>")].

Definition page (edges : list json) (has_next : bool) (end_cursor : json) : reply :=
  Responds (mkResponse
    (JObj [("data", JObj [("repository", JObj [("discussions",
       JObj [("pageInfo", JObj [("hasNextPage", JBool has_next);
                                ("endCursor", end_cursor)]);
             ("edges", JArr edges)])])])])
    HAbsent).

(** A body without the [data] section. *)
Definition no_data : reply := Responds (mkResponse (JObj [("message", JStr "?")]) HAbsent).

Definition rate_limited_response (reset : Z) : response :=
  mkResponse
    (JObj [("errors", JArr [JObj [("message", JStr "API Rate Limit exceeded")]])])
    (HInt reset).

Definition rate_limited (reset : Z) : reply := Responds (rate_limited_response reset).

(** A first run: no files, no Ctrl-C, the clock at 1000. *)
Definition fresh (sc : list reply) : world :=
  mkWorld sc 1000 "2024-05-02T10:00:00" (Some "s3cret") (fun _ => None) [] None [].

Definition first_query : query := DiscussionsQuery None.

Definition rate_limited_then_page : world :=
  fresh [rate_limited 1010; page [] false JNull].

Definition three_rate_limits : world :=
  fresh [rate_limited 1010; rate_limited 1010; rate_limited 1010].

Definition three_failures : world :=
  fresh [ReqFails "timeout"; ReqFails "503"; ReqFails "reset"].

(** Page 1 has one item and a next page; page 2 has no [data] section. *)
Definition malformed_second_page : world :=
  fresh [page [edge 1 "first"] true (JStr "C1"); no_data].

(** Two items, then one, then the end. *)
Definition two_pages : world :=
  fresh [page [edge 1 "first"; edge 2 "second"] true (JStr "C1");
         page [edge 3 "third"] false JNull].

(** One page, then three failures on the way to the second. *)
Definition fails_on_second_page : world :=
  fresh [page [edge 1 "first"] true (JStr "C1");
         ReqFails "timeout"; ReqFails "503"; ReqFails "reset"].

(** Ctrl-C arrives during the first request. *)
Definition interrupted_first_request : world :=
  mkWorld [page [edge 1 "first"] true (JStr "C1")] 1000 "2024-05-02T10:00:00"
          (Some "s3cret") (fun _ => None) [] (Some 0%nat) [].

(** The variables of the controller after loading the default
    checkpoint. *)
Definition start : frame := mkFrame (Some "s3cret") (JArr []) JNull (JBool true) 0.

(** A checkpoint file that lacks [has_more]. *)
Definition incomplete_fields : list (string * json) :=
  [("discussions", JArr []); ("last_cursor", JNull); ("total_count", JNum 0)].

Definition incomplete_checkpoint : world :=
  mkWorld [page [edge 1 "first"] false JNull] 1000 "2024-05-02T10:00:00"
          (Some "s3cret")
          (update CHECKPOINT_FILE (Some (Text (Some 2%nat) (JObj incomplete_fields)))
                  (fun _ => None))
          [] None [].

End Sample.

(* ================================================================== *)
(** * More of the executor: errors retried on the budget *)

(** The message of an error the executor retries on its budget (lines
    78-95): the body has an [errors] entry, and its first message either
    does not mention a rate limit or comes without a usable reset time. *)
Definition budgeted_error (r : response) : option json :=
  match Py.contains "errors" (body r) with
  | Return true =>
      match obind (Py.getitem (body r) "errors") (fun errors =>
            obind (Py.getitem0 errors) (fun first =>
            Py.get first "message" (JStr "Unknown GraphQL error"))) with
      | Return error_msg =>
          match Py.str_lower error_msg with
          | Return lowered =>
              if Py.substring_of "rate limit" lowered then
                match rate_limit_reset r with
                | HAbsent => Some error_msg
                | HInt n => if n =? 0 then Some error_msg else None
                | HBad => None
                end
              else Some error_msg
          | Raise _ => None
          end
      | Raise _ => None
      end
  | _ => None
  end.

(** A reply that is answered by a retry while attempts are left. *)
Definition retryable (r : reply) : bool :=
  match r with
  | ReqFails _ => true
  | Responds resp => match budgeted_error resp with Some _ => true | None => false end
  end.

(** The pause before the next attempt (lines 92 and 102). *)
Definition backoff (retry_delay attempt : Z) (r : reply) : Z :=
  match r with
  | ReqFails _ => retry_delay * (attempt + 1)
  | Responds _ => retry_delay
  end.

(** The exception of the last attempt (lines 95 and 106). *)
Definition final_error (max_retries : Z) (r : reply) : exn :=
  match r with
  | ReqFails cause => FetchFailed max_retries cause
  | Responds resp =>
      GraphQLFailed match budgeted_error resp with
                    | Some error_msg => error_msg
                    | None => JNull
                    end
  end.

(** The trace of attempts that were each followed by a retry. *)
Fixpoint retried_attempts (q : query) (authorization : string)
    (retry_delay attempt : Z) (replies : list reply) : list event :=
  match replies with
  | [] => []
  | r :: rest =>
      EvPost q authorization r :: EvSleep (backoff retry_delay attempt r) ::
      retried_attempts q authorization retry_delay (attempt + 1) rest
  end.

(** The events of a call of the executor for [q] with [authorization]. *)
Definition request_event (q : query) (authorization : string) (ev : event) : Prop :=
  match ev with
  | EvPost q' a' _ => q' = q /\ a' = authorization
  | EvSleep _ => True
  | _ => False
  end.

(** Lines 79 and 83: the lower-cased message of the first error. *)
Definition inspect_errors (data : json) : outcome string :=
  obind (Py.getitem data "errors") (fun errors =>
  obind (Py.getitem0 errors) (fun first =>
  obind (Py.get first "message" (JStr "Unknown GraphQL error")) Py.str_lower)).

Module MoreSamples.

(** An application error that is no rate-limit signal. *)
Definition forbidden : reply :=
  Responds (mkResponse
    (JObj [("errors", JArr [JObj [("message", JStr "Resource not accessible")]])])
    HAbsent).

(** A rate-limit message that comes without the reset header. *)
Definition rate_limit_without_reset : reply :=
  Responds (mkResponse
    (JObj [("errors", JArr [JObj [("message", JStr "API rate limit exceeded")]])])
    HAbsent).

(** A body whose [errors] list is empty. *)
Definition empty_errors : response := mkResponse (JObj [("errors", JArr [])]) HAbsent.

Definition good_page : response :=
  match Sample.page [Sample.edge 7 "seventh"] false JNull with
  | Responds r => r
  | ReqFails _ => empty_errors
  end.

End MoreSamples.

(* ================================================================== *)
(** * More of the controller *)

(** Lines 194-209: the discussions of a page, and its [pageInfo]. *)
Definition parse_page (data : json) : outcome (list json * json) :=
  obind (Py.getitem data "data") (fun d =>
  obind (Py.getitem d "repository") (fun r =>
  obind (Py.getitem r "discussions") (fun discussions_data =>
  obind (Py.getitem discussions_data "edges") (fun edges =>
  obind (Py.getitem discussions_data "pageInfo") (fun page_info =>
  obind (Py.iter edges) (fun items =>
  obind (map_outcome discussion_of_edge items) (fun new_discussions =>
  Return (new_discussions, page_info)))))))).

(** Lines 214-215: the new [has_more] and [cursor]. *)
Definition next_position (page_info : json) : outcome (json * json) :=
  obind (Py.getitem page_info "hasNextPage") (fun hm =>
  obind (if Py.truthy hm then Py.getitem page_info "endCursor" else Return JNull)
        (fun cur => Return (hm, cur))).

(** [after] is [before], or [before] with items appended. *)
Definition grows (before after : json) : Prop :=
  after = before \/
  exists old new, before = JArr old /\ after = JArr (old ++ new).

(** A checkpoint document whose discussions extend [base]. *)
Definition extends_from (base : json) (doc : json) : Prop :=
  exists d, Py.getitem doc "discussions" = Return d /\ grows base d.

(** The events of the loop: requests, pauses, progress lines and writes of
    the checkpoint file; no artifact, no removal. *)
Definition loop_event (P : json -> Prop) (ev : event) : Prop :=
  match ev with
  | EvPost _ _ _ | EvSleep _ | EvPage _ _ => True
  | EvWrite p c => p = CHECKPOINT_FILE /\ exists doc, c = Text (Some 2%nat) doc /\ P doc
  | EvRemove _ => False
  end.

(** The removals of files in a trace. *)
Definition removals (tr : list event) : list string :=
  flat_map (fun ev => match ev with EvRemove p => [p] | _ => [] end) tr.

(** The two writes of the finalizer for [doc]. *)
Definition artifact_writes (doc : json) : list event :=
  [EvWrite OUTPUT_FILE (Text (Some 2%nat) doc);
   EvWrite OUTPUT_GZIP_FILE (Gzip 9 (Text None doc))].

(* ================================================================== *)
(** * A complete listing *)

(** The discussions a listing of [pages] collects: those of every page, in
    order, when each page parses and each but the last announces a next
    page. *)
Fixpoint collect (pages : list response) : option (list json) :=
  match pages with
  | [] => None
  | p :: rest =>
      match parse_page (body p) with
      | Return (items, page_info) =>
          match next_position page_info with
          | Return (hm, _) =>
              if Py.truthy hm then
                match collect rest with
                | Some more => Some (items ++ more)
                | None => None
                end
              else match rest with
                   | [] => Some items
                   | _ :: _ => None
                   end
          | Raise _ => None
          end
      | Raise _ => None
      end
  end.

(** A body the executor hands back at once. *)
Definition no_errors (p : response) : Prop :=
  Py.contains "errors" (body p) = Return false.

(* ================================================================== *)
(** * The entry point (lines 267-280) *)

(** [v[:n]].  On a dict the slice is an unhashable key (a [TypeError]) up to
    Python 3.11 and a missing key from 3.12 on; both are [Exception]s and
    nothing below tells them apart. *)
Definition slice_to (n : nat) (v : json) : outcome json :=
  match v with
  | JArr l => Return (JArr (firstn n l))
  | JStr s => Return (JStr (Py.take_points n s))
  | _ => Raise TypeError
  end.

(** The holes of the preview line of line 276. *)
Record preview_line : Type := mkLine {
  line_index : Z;
  line_number : json;
  line_title : json;
  line_ellipsis : bool
}.

(** What the script prints. *)
Inductive out_line : Type :=
| OutDone (count : Z)               (* line 270 *)
| OutPreviewHeader                  (* line 274 *)
| OutPreview (l : preview_line)     (* line 276 *)
| OutFailure (e : exn).             (* line 279 *)

(** The f-string of line 276, its holes filled from left to right. *)
Definition preview_line_of (i : Z) (d : json) : outcome preview_line :=
  obind (Py.getitem d "number") (fun number =>
  obind (Py.getitem d "title") (fun title =>
  obind (slice_to 50 title) (fun shown =>
  obind (Py.getitem d "title") (fun title' =>
  obind (Py.len title') (fun n =>
  Return (mkLine i number shown (50 <? n))))))).

(** [for i, d in enumerate(ds, i): print(...)]: the lines printed, and the
    exception that ended the loop, if one did. *)
Fixpoint print_preview (i : Z) (ds : list json) : list preview_line * option exn :=
  match ds with
  | [] => ([], None)
  | d :: rest =>
      match preview_line_of i d with
      | Return l => let (ls, e) := print_preview (i + 1) rest in (l :: ls, e)
      | Raise e => ([], Some e)
      end
  end.

(** Lines 270-276: what is printed once the discussions are there. *)
Definition report (discussions : json) : list out_line * option exn :=
  match Py.len discussions with
  | Raise e => ([], Some e)
  | Return n =>
      if Py.truthy discussions then
        match obind (slice_to 5 discussions) Py.iter with
        | Raise e => ([OutDone n; OutPreviewHeader], Some e)
        | Return first =>
            let (ls, e) := print_preview 1 first in
            (OutDone n :: OutPreviewHeader :: map OutPreview ls, e)
        end
      else ([OutDone n], None)
  end.

(** How the process ends: it runs off the end of the script, [exit(n)] is
    called, or an exception is left uncaught. *)
Inductive termination : Type :=
| Finished
| Exited (status : Z)
| Uncaught (e : exn).

(** Lines 278-280. *)
Definition on_failure (printed : list out_line) (e : exn) : termination * list out_line :=
  if is_Exception e then (Exited 1, printed ++ [OutFailure e])
  else (Uncaught e, printed).

(** Lines 267-280. *)
Definition main (w : world) : termination * list out_line * world :=
  let (r, w') := fetch_discussions w in
  match r with
  | Return discussions =>
      match report discussions with
      | (printed, None) => (Finished, printed, w')
      | (printed, Some e) => (on_failure printed e, w')
      end
  | Raise e => (on_failure [] e, w')
  end.

Module EntrySamples.

(** The response inside a reply that is one. *)
Definition response_of (r : reply) : response :=
  match r with
  | Responds resp => resp
  | ReqFails _ => MoreSamples.empty_errors
  end.

(** The two pages of [Sample.two_pages]. *)
Definition first_page : response :=
  response_of (Sample.page [Sample.edge 1 "first"; Sample.edge 2 "second"] true (JStr "C1")).
Definition last_page : response :=
  response_of (Sample.page [Sample.edge 3 "third"] false JNull).

(** A checkpoint written after the last page, and a run that finds it. *)
Definition finished_document : json :=
  JObj [("discussions", JArr [Sample.discussion 1 "first"]);
        ("last_cursor", JNull);
        ("has_more", JBool false);
        ("total_count", JNum 1)].

Definition finished_run : world :=
  mkWorld [Responds last_page] 1000 "2024-05-02T10:00:00" (Some "s3cret")
          (update CHECKPOINT_FILE (Some (Text (Some 2%nat) finished_document))
                  (fun _ => None))
          [] None [].

(** The checkpoint a run leaves that was stopped after the first of the
    two pages, and the run that finds it. *)
Definition interrupted_document : json :=
  JObj [("discussions", JArr [Sample.discussion 1 "first"; Sample.discussion 2 "second"]);
        ("last_cursor", JStr "C1");
        ("has_more", JBool true);
        ("total_count", JNum 2)].

Definition interrupted_run : world :=
  mkWorld [Responds last_page] 1000 "2024-05-02T10:00:00" (Some "s3cret")
          (update CHECKPOINT_FILE (Some (Text (Some 2%nat) interrupted_document))
                  (fun _ => None))
          [] None [].

(** A title of 20 characters in 60 bytes. *)
Definition wide_title : string := "济南某某科技有限公司的工作体验与评价讨论".

(** A title of 60 characters. *)
Definition long_title : string :=
  "123456789 123456789 123456789 123456789 123456789 123456789 ".

Definition six_discussions : list json :=
  [Sample.discussion 1 "first"; Sample.discussion 2 "second";
   Sample.discussion 3 long_title; Sample.discussion 4 "fourth";
   Sample.discussion 5 "fifth"; Sample.discussion 6 "sixth"].

End EntrySamples.
(* ================================================================== *)
(** * Basic facts about the primitives *)

Lemma tick_quiet (w : world) :
  interrupt_in w = None -> tick w = (Return tt, w).
Proof. intros H. unfold tick. now rewrite H. Qed.

Lemma requests_post_quiet (q : query) (a : string) (w : world) (r : reply)
    (rest : list reply) :
  interrupt_in w = None ->
  script w = r :: rest ->
  requests_post q a w =
    (match r with
     | ReqFails cause => Raise (RequestException cause)
     | Responds resp => Return resp
     end, log (EvPost q a r) (set_script rest w)).
Proof.
  intros Hi Hs. unfold requests_post, bind. rewrite (tick_quiet w Hi).
  unfold next_reply. rewrite Hs. now destruct r.
Qed.

Lemma sleep_quiet (d : Z) (w : world) :
  0 <= d -> interrupt_in w = None ->
  sleep d w = (Return tt, log (EvSleep d) (set_clock (clock w + d) w)).
Proof.
  intros Hd Hi. unfold sleep.
  destruct (d <? 0) eqn:E; [apply Z.ltb_lt in E; lia|].
  unfold bind. now rewrite (tick_quiet w Hi).
Qed.

Lemma posts_app (a b : list event) : posts (a ++ b) = posts a ++ posts b.
Proof. unfold posts. now rewrite flat_map_app. Qed.

Lemma sleeps_app (a b : list event) : sleeps (a ++ b) = sleeps a ++ sleeps b.
Proof. unfold sleeps. now rewrite flat_map_app. Qed.

Lemma saved_checkpoints_app (a b : list event) :
  saved_checkpoints (a ++ b) = saved_checkpoints a ++ saved_checkpoints b.
Proof. unfold saved_checkpoints. now rewrite flat_map_app. Qed.

Lemma page_sizes_app (a b : list event) :
  page_sizes (a ++ b) = page_sizes a ++ page_sizes b.
Proof. unfold page_sizes. now rewrite flat_map_app. Qed.

Lemma sum_app (a b : list Z) : sum (a ++ b) = sum a + sum b.
Proof. unfold sum. induction a as [|x a IH]; simpl; lia. Qed.

(* ================================================================== *)
(** * Rules for [wp] *)

Section WpRules.
Context {S A : Type}.
Implicit Types (Q : outcome A -> S -> Prop) (s : S).

Lemma wp_ret (a : A) Q s : Q (Return a) s -> wp (ret a) Q s.
Proof. auto. Qed.

Lemma wp_raise e Q s : Q (Raise e) s -> wp (raise e) Q s.
Proof. auto. Qed.

Lemma wp_lift (o : outcome A) Q s : Q o s -> wp (lift o) Q s.
Proof. auto. Qed.

Lemma wp_fun (m : M S A) Q s : Q (fst (m s)) (snd (m s)) -> wp m Q s.
Proof. auto. Qed.

Lemma wp_mono (m : M S A) Q Q' s :
  wp m Q s -> (forall r s', Q r s' -> Q' r s') -> wp m Q' s.
Proof. unfold wp. auto. Qed.

Lemma wp_bind {B} (m : M S B) (k : B -> M S A) Q s :
  wp m (fun r s' => match r with
                    | Return b => wp (k b) Q s'
                    | Raise e => Q (Raise e) s'
                    end) s ->
  wp (bind m k) Q s.
Proof. unfold wp, bind. destruct (m s) as [[b|e] s']; auto. Qed.

Lemma wp_try_except (body : M S A) (catches : exn -> bool)
    (handler : exn -> M S A) Q s :
  wp body (fun r s' => match r with
                       | Raise e =>
                           if catches e then wp (handler e) Q s'
                           else Q (Raise e) s'
                       | Return a => Q (Return a) s'
                       end) s ->
  wp (try_except body catches handler) Q s.
Proof.
  unfold wp, try_except. destruct (body s) as [[a|e] s']; simpl; auto.
  destruct (catches e); auto.
Qed.

Lemma wp_try_except2 (body : M S A) (c1 c2 : exn -> bool)
    (h1 h2 : exn -> M S A) Q s :
  wp body (fun r s' => match r with
                       | Raise e =>
                           if c1 e then wp (h1 e) Q s'
                           else if c2 e then wp (h2 e) Q s'
                           else Q (Raise e) s'
                       | Return a => Q (Return a) s'
                       end) s ->
  wp (try_except2 body c1 h1 c2 h2) Q s.
Proof.
  unfold wp, try_except2. destruct (body s) as [[a|e] s']; simpl; auto.
  destruct (c1 e); auto. destruct (c2 e); auto.
Qed.
End WpRules.

Lemma wp_tick (Q : outcome unit -> world -> Prop) w :
  (forall i, Q (Return tt) (set_interrupt_in i w)) ->
  Q (Raise KeyboardInterrupt) (set_interrupt_in None w) ->
  wp tick Q w.
Proof.
  intros H1 H2. unfold wp, tick. destruct w as [sc ck dt tk fs wf i tr]; simpl.
  destruct i as [[|n]|]; simpl.
  - exact H2.
  - exact (H1 (Some n)).
  - exact (H1 None).
Qed.

Lemma wp_requests_post (Q : outcome response -> world -> Prop) q a w :
  (forall i,
     Q (match fst (next_reply w) with
        | ReqFails c => Raise (RequestException c)
        | Responds resp => Return resp
        end)
       (log (EvPost q a (fst (next_reply w)))
            (set_script (snd (next_reply w)) (set_interrupt_in i w)))) ->
  Q (Raise KeyboardInterrupt) (set_interrupt_in None w) ->
  wp (requests_post q a) Q w.
Proof.
  intros H1 H2. unfold requests_post. apply wp_bind, wp_tick; [intros i|exact H2].
  apply wp_fun. specialize (H1 i). unfold next_reply in *. simpl.
  destruct (script w) as [|[c|resp] rest]; exact H1.
Qed.

Lemma wp_sleep (Q : outcome unit -> world -> Prop) d w :
  (d < 0 -> Q (Raise ValueError) w) ->
  (0 <= d -> forall i,
     Q (Return tt) (log (EvSleep d) (set_clock (clock w + d) (set_interrupt_in i w)))) ->
  (0 <= d -> Q (Raise KeyboardInterrupt) (set_interrupt_in None w)) ->
  wp (sleep d) Q w.
Proof.
  intros H1 H2 H3. unfold sleep. destruct (d <? 0) eqn:E.
  - apply wp_raise, H1. now apply Z.ltb_lt.
  - apply Z.ltb_ge in E. apply wp_bind, wp_tick; [intros i|auto].
    apply wp_fun. simpl. auto.
Qed.

Lemma wp_time_time (Q : outcome Z -> world -> Prop) w :
  Q (Return (clock w)) w -> wp time_time Q w.
Proof. auto. Qed.

Lemma wp_write_file (Q : outcome unit -> world -> Prop) p c w :
  (forall i wf,
     Q (Return tt) (log (EvWrite p c)
                      (set_files (update p (Some c) (files w))
                         (set_write_faults wf (set_interrupt_in i w))))) ->
  (forall i wf, Q (Raise OSError) (set_write_faults wf (set_interrupt_in i w))) ->
  Q (Raise KeyboardInterrupt) (set_interrupt_in None w) ->
  wp (write_file p c) Q w.
Proof.
  intros H1 H2 H3. unfold write_file. apply wp_bind, wp_tick; [intros i|exact H3].
  apply wp_fun. destruct w as [sc ck dt tk fs wf i0 tr]. simpl.
  destruct wf as [|[|] wf]; simpl.
  - exact (H1 i []).
  - exact (H2 i wf).
  - exact (H1 i wf).
Qed.

Lemma wp_remove (Q : outcome unit -> world -> Prop) p w :
  (forall i, Q (Return tt)
               (log (EvRemove p) (set_files (update p None (files w))
                                    (set_interrupt_in i w)))) ->
  (forall i, Q (Raise OSError) (set_interrupt_in i w)) ->
  Q (Raise KeyboardInterrupt) (set_interrupt_in None w) ->
  wp (remove p) Q w.
Proof.
  intros H1 H2 H3. unfold remove. apply wp_bind, wp_tick; [intros i|exact H3].
  apply wp_fun. simpl. destruct (files w p); simpl; auto.
Qed.

Lemma wp_io {A} (m : M world A) (Q : outcome A -> ctl -> Prop) (s : ctl) :
  wp m (fun r w' => Q r (fst s, w')) (snd s) -> wp (io m) Q s.
Proof. unfold wp, io. destruct (m (snd s)); auto. Qed.

Lemma wp_local {A} (proj : frame -> A) (Q : outcome A -> ctl -> Prop) (s : ctl) :
  Q (Return (proj (fst s))) s -> wp (local proj) Q s.
Proof. auto. Qed.

Lemma wp_assign (g : frame -> frame) (Q : outcome unit -> ctl -> Prop) (s : ctl) :
  Q (Return tt) (g (fst s), snd s) -> wp (assign g) Q s.
Proof. auto. Qed.

Lemma wp_emit (Q : outcome unit -> world -> Prop) ev w :
  Q (Return tt) (log ev w) -> wp (emit ev) Q w.
Proof. auto. Qed.

Lemma wp_path_exists (Q : outcome bool -> world -> Prop) p w :
  Q (Return (match files w p with Some _ => true | None => false end)) w ->
  wp (path_exists p) Q w.
Proof. auto. Qed.

(** ** Which exceptions the dynamic operations raise *)

Lemma contains_raises k v e : Py.contains k v = Raise e -> py_error e.
Proof. destruct v; simpl; intros H; inversion H; exact I. Qed.

Lemma getitem_raises v k e : Py.getitem v k = Raise e -> py_error e.
Proof.
  destruct v; simpl; intros H; try (inversion H; exact I).
  destruct (Py.lookup k fields); inversion H; exact I.
Qed.

Lemma getitem0_raises v e : Py.getitem0 v = Raise e -> py_error e.
Proof.
  destruct v as [| | |s|l|f]; cbn [Py.getitem0]; intros H; try (inversion H; exact I).
  - destruct (Py.split_points s); inversion H; exact I.
  - destruct l; inversion H; exact I.
Qed.

Lemma get_raises v k d e : Py.get v k d = Raise e -> py_error e.
Proof. destruct v; simpl; intros H; inversion H; exact I. Qed.

Lemma str_lower_raises v e : Py.str_lower v = Raise e -> py_error e.
Proof. destruct v; simpl; intros H; inversion H; exact I. Qed.

Lemma len_raises v e : Py.len v = Raise e -> py_error e.
Proof. destruct v; simpl; intros H; inversion H; exact I. Qed.

Lemma extend_raises v l e : Py.extend v l = Raise e -> py_error e.
Proof. destruct v; simpl; intros H; inversion H; exact I. Qed.

Lemma iter_raises v e : Py.iter v = Raise e -> py_error e.
Proof. destruct v; simpl; intros H; inversion H; exact I. Qed.

Lemma reset_time_of_raises h e : reset_time_of h = Raise e -> py_error e.
Proof. destruct h; simpl; intros H; inversion H; exact I. Qed.

Lemma obind_raises {A B} (o : outcome A) (k : A -> outcome B) e :
  obind o k = Raise e ->
  (forall e', o = Raise e' -> py_error e') ->
  (forall a e', k a = Raise e' -> py_error e') ->
  py_error e.
Proof. destruct o; simpl; intros H H1 H2; [eauto|]. inversion H; subst. eauto. Qed.

Lemma discussion_of_edge_raises edge e :
  discussion_of_edge edge = Raise e -> py_error e.
Proof.
  unfold discussion_of_edge. intros H.
  repeat (eapply obind_raises in H; [exact H | apply getitem_raises |]; clear H; intros ? ? H).
  discriminate H.
Qed.

Lemma map_outcome_raises {A B} (g : A -> outcome B) l e :
  (forall a e', g a = Raise e' -> py_error e') ->
  map_outcome g l = Raise e -> py_error e.
Proof.
  intros Hg. induction l as [|x l IH]; simpl; [discriminate|].
  destruct (g x) eqn:E; simpl; [|intros H; inversion H; subst; eauto].
  destruct (map_outcome g l); simpl; [discriminate|].
  intros H; inversion H; subst. auto.
Qed.

Lemma checkpoint_of_raises f e : checkpoint_of f = Raise e -> py_error e.
Proof.
  unfold checkpoint_of. destruct (Py.len (all_discussions f)) eqn:E; simpl.
  - discriminate.
  - intros H; inversion H; subst. eapply len_raises; eauto.
Qed.

Create HintDb py_raises.
#[local] Hint Resolve contains_raises getitem_raises getitem0_raises get_raises
  str_lower_raises len_raises extend_raises iter_raises reset_time_of_raises
  discussion_of_edge_raises checkpoint_of_raises : py_raises.
#[local] Hint Extern 2 (py_error _) =>
  eapply map_outcome_raises; [apply discussion_of_edge_raises | eassumption]
  : py_raises.

Lemma py_error_not_request e : py_error e -> is_RequestException e = false.
Proof. destruct e; simpl; intros []; reflexivity. Qed.

Lemma py_error_is_Exception e : py_error e -> is_Exception e = true.
Proof. destruct e; simpl; intros []; reflexivity. Qed.

Lemma py_error_not_interrupt e : py_error e -> is_KeyboardInterrupt e = false.
Proof. destruct e; simpl; intros []; reflexivity. Qed.

(** ** Stepping through code *)

Ltac note_py_error H :=
  match type of H with
  | _ = Raise ?e =>
      let P := fresh "Hpy" in
      assert (P : py_error e) by eauto with py_raises;
      try rewrite (py_error_not_request e P);
      try rewrite (py_error_is_Exception e P);
      try rewrite (py_error_not_interrupt e P)
  end.

Ltac wp_step :=
  lazymatch goal with
  | |- wp (bind _ _) _ _ => apply wp_bind
  | |- wp (ret _) _ _ => apply wp_ret
  | |- wp (raise _) _ _ => apply wp_raise
  | |- wp (lift ?o) _ _ =>
      let H := fresh "Hop" in
      apply wp_lift; destruct o eqn:H; cbn beta iota; [|note_py_error H]
  | |- wp (try_except _ _ _) _ _ => apply wp_try_except
  | |- wp tick _ _ => apply wp_tick; [intros ?i|]
  | |- wp (sleep _) _ _ =>
      apply wp_sleep; [intros ?Hneg|intros ?Hpos ?i|intros ?Hpos]
  | |- wp (requests_post _ _) _ _ => apply wp_requests_post; [intros ?i|]
  | |- wp (write_file _ _) _ _ =>
      apply wp_write_file; [intros ?i ?wf|intros ?i ?wf|]
  | |- wp (remove _) _ _ => apply wp_remove; [intros ?i|intros ?i|]
  | |- wp time_time _ _ => apply wp_time_time
  | |- wp (emit _) _ _ => apply wp_emit
  | |- wp (path_exists _) _ _ => apply wp_path_exists
  | |- wp (io _) _ _ => apply wp_io
  | |- wp (local _) _ _ => apply wp_local
  | |- wp (assign _) _ _ => apply wp_assign
  | |- wp (if ?b then _ else _) _ _ => destruct b eqn:?
  | |- wp (match ?x with _ => _ end) _ _ => destruct x eqn:?
  end;
  cbn [fst snd id is_Exception is_RequestException is_KeyboardInterrupt].

Ltac zify_bools :=
  repeat match goal with
         | H : (_ <? _) = true |- _ => apply Z.ltb_lt in H
         | H : (_ <? _) = false |- _ => apply Z.ltb_ge in H
         | H : negb _ = true |- _ => apply negb_true_iff in H
         | H : negb _ = false |- _ => apply negb_false_iff in H
         | H : (_ =? _) = true |- _ => apply Z.eqb_eq in H
         | H : (_ =? _) = false |- _ => apply Z.eqb_neq in H
         end.

Ltac trace_eq :=
  simpl; rewrite <- ?app_assoc; simpl;
  first [reflexivity | symmetry; apply app_nil_r].

Ltac split_py_error :=
  repeat match goal with
         | H : py_error ?e |- _ => destruct e; try contradiction; clear H
         end.

(* ================================================================== *)
(** * The executor, one attempt at a time *)

Ltac net_leaf :=
  simpl;
  try (eexists; split; [trace_eq|]; split; [repeat constructor|];
       split; [simpl; lia|]; split; [simpl; intros ?; try discriminate; try contradiction; reflexivity|]);
  simpl; try exact I; try (repeat split; solve [eauto | lia]).

Lemma attempt_body_cases q tok m d attempt w :
  wp (attempt_body q tok m d attempt) (fun r w' =>
    exists evs, trace w' = trace w ++ evs /\ Forall net_event evs /\
      (List.length (script w') <= List.length (script w))%nat /\
      (raises KeyboardInterrupt r -> interrupt_in w' = None) /\
    match r with
    | Return (ReturnWith data) =>
        exists resp, evs = [EvPost q (bearer tok) (Responds resp)]
          /\ script w = Responds resp :: script w'
          /\ data = body resp /\ Py.contains "errors" data = Return false
    | Return Continue =>
        exists r wait, evs = [EvPost q (bearer tok) r; EvSleep wait]
          /\ ((exists resp reset, r = Responds resp
                 /\ rate_limit_signal resp = Some reset
                 /\ wait = Z.max (reset - clock w) 0 + 5)
              \/ (attempt < m - 1 /\
                  wait = match r with
                         | ReqFails _ => d * (attempt + 1)
                         | Responds _ => d
                         end))
    | Return Break => False
    | Raise (FetchFailed m' c) =>
        m' = m /\ m - 1 <= attempt /\ evs = [EvPost q (bearer tok) (ReqFails c)]
    | Raise (GraphQLFailed _) =>
        m - 1 <= attempt /\ exists resp, evs = [EvPost q (bearer tok) (Responds resp)]
    | Raise FuelExhausted => False
    | Raise _ => True
    end) w.
Proof.
  unfold attempt_body, retry_or_give_up.
  apply wp_try_except, wp_bind, wp_requests_post; [intros i|].
  2:{ simpl. exists []. rewrite app_nil_r. auto. }
  unfold next_reply.
  destruct (script w) as [|[c|resp] rest] eqn:Hs; cbn [fst snd is_RequestException].
  1,2: repeat wp_step; zify_bools; net_leaf; eauto 8.
  repeat wp_step; zify_bools; split_py_error; net_leaf.
  all: do 2 eexists; (split; [reflexivity|]).
  all: try (right; split; [lia|reflexivity]).
  left. exists resp, a4. split; [reflexivity|]. split; [|reflexivity].
  unfold rate_limit_signal, obind. rewrite Hop, Hop0, Hop1, Hop2, Hop3, Heqb0.
  destruct (rate_limit_reset resp); simpl in Hop4; inversion Hop4; subst.
  - contradiction.
  - apply Z.eqb_neq in Heqb1. now rewrite Heqb1.
Qed.

Lemma attempts_loop_cases q tok m d n : forall a w,
  (a + n = Z.to_nat m)%nat ->
  wp (attempts_loop q tok m d (map Z.of_nat (seq a n))) (fun r w' =>
    exists evs, trace w' = trace w ++ evs /\ Forall net_event evs /\
      (List.length (script w') <= List.length (script w))%nat /\
      (raises KeyboardInterrupt r -> interrupt_in w' = None) /\
    match r with
    | Return data =>
        (exists pre resp, posts evs = pre ++ [Responds resp] /\ data = body resp
           /\ Py.contains "errors" data = Return false
           /\ (List.length (script w') < List.length (script w))%nat)
        \/ (data = JNull /\ List.length (posts evs) = n /\
            (n = 0%nat \/
             exists pre resp reset, posts evs = pre ++ [Responds resp]
               /\ rate_limit_signal resp = Some reset))
    | Raise (FetchFailed m' c) =>
        m' = m /\ List.length (posts evs) = n
        /\ exists pre, posts evs = pre ++ [ReqFails c]
    | Raise (GraphQLFailed _) => List.length (posts evs) = n
    | Raise FuelExhausted => False
    | Raise _ => True
    end) w.
Proof.
  induction n as [|n IH]; intros a w Han; simpl.
  - apply wp_ret. exists []. rewrite app_nil_r. repeat split; auto; try contradiction.
  - apply wp_bind. eapply wp_mono; [apply attempt_body_cases|].
    intros r w1 (evs1 & Htr1 & Hnet1 & Hlen1 & Hki1 & Hr).
    destruct r as [[| |data]|e].
    + (* the attempt ends with [continue] *)
      destruct Hr as (r1 & wait & -> & Hwhy).
      eapply wp_mono; [apply (IH (S a) w1); lia|].
      intros r w2 (evs2 & Htr2 & Hnet2 & Hlen2 & Hki2 & Hr2).
      eexists. split; [rewrite Htr2, Htr1, <- app_assoc; reflexivity|].
      split; [apply Forall_app; auto|]. split; [lia|]. split; [exact Hki2|].
      rewrite posts_app.
      change (posts [EvPost q (bearer tok) r1; EvSleep wait]) with [r1].
      cbn [app List.length].
      destruct r as [data|e].
      * destruct Hr2 as [(pre & resp & Hp & Hd & Hc & Hlt)|(Hd & Hl & Hlast)].
        -- left. exists (r1 :: pre), resp. rewrite Hp. repeat split; auto. lia.
        -- right. split; [exact Hd|]. split; [lia|]. right.
           destruct Hlast as [->|(pre & resp & reset & Hp & Hrl)].
           ++ destruct (posts evs2); [|discriminate].
              destruct Hwhy as [(resp & reset & -> & Hrl & _)|[Hlt _]]; [|lia].
              exists [], resp, reset. auto.
           ++ exists (r1 :: pre), resp, reset. rewrite Hp. auto.
      * destruct e; auto; try lia.
        destruct Hr2 as (-> & Hl & pre & Hp). repeat split; [lia|].
        exists (r1 :: pre). now rewrite Hp.
    + destruct Hr.
    + (* the attempt returns the payload *)
      destruct Hr as (resp & -> & Hs & -> & Hc).
      apply wp_ret. eexists. split; [exact Htr1|]. split; [exact Hnet1|].
      split; [exact Hlen1|]. split; [intros []|].
      left. exists [], resp. repeat split; auto. rewrite Hs. simpl. lia.
    + (* the attempt raises *)
      exists evs1. split; [exact Htr1|]. split; [exact Hnet1|].
      split; [exact Hlen1|]. split; [exact Hki1|].
      destruct e; auto.
      * destruct Hr as (-> & Hge & ->). simpl. repeat split; [lia|].
        now exists [].
      * destruct Hr as (Hge & resp & ->). simpl. lia.
Qed.

Lemma range_seq (m : Z) : range m = map Z.of_nat (seq 0 (Z.to_nat m)).
Proof. reflexivity. Qed.

Lemma execute_spec q tok m d w :
  wp (execute_graphql_with_retry q tok m d) (fun r w' =>
    exists evs, trace w' = trace w ++ evs /\ Forall net_event evs /\
      (List.length (script w') <= List.length (script w))%nat /\
      (raises KeyboardInterrupt r -> interrupt_in w' = None) /\
      ~ raises FuelExhausted r /\
      (forall data, r = Return data -> Py.truthy data = true ->
                    (List.length (script w') < List.length (script w))%nat)) w.
Proof.
  unfold execute_graphql_with_retry. rewrite range_seq.
  eapply wp_mono; [apply (attempts_loop_cases q tok m d (Z.to_nat m) 0 w); lia|].
  intros r w' (evs & Htr & Hnet & Hlen & Hki & Hr).
  exists evs. repeat (split; [assumption|]). split.
  - destruct r as [|e]; simpl; [tauto|]. intros ->. exact Hr.
  - intros data -> Ht.
    destruct Hr as [(pre & resp & _ & _ & _ & Hlt)|(-> & _)]; [exact Hlt|discriminate].
Qed.

(* ================================================================== *)
(** * The executor on particular replies *)

Lemma attempt_body_transport_failure q tok m d attempt w c rest :
  interrupt_in w = None ->
  script w = ReqFails c :: rest ->
  0 <= d * (attempt + 1) ->
  attempt_body q tok m d attempt w =
    let w1 := log (EvPost q (bearer tok) (ReqFails c)) (set_script rest w) in
    if attempt <? m - 1 then
      (Return Continue,
       log (EvSleep (d * (attempt + 1))) (set_clock (clock w1 + d * (attempt + 1)) w1))
    else (Raise (FetchFailed m c), w1).
Proof.
  intros Hi Hs Hd. unfold attempt_body, try_except, bind.
  rewrite (requests_post_quiet q (bearer tok) w _ rest Hi Hs). simpl.
  destruct (attempt <? m - 1); [|reflexivity].
  rewrite sleep_quiet; auto.
Qed.

Lemma attempt_body_rate_limited q tok m d attempt w resp reset rest :
  interrupt_in w = None ->
  script w = Responds resp :: rest ->
  rate_limit_signal resp = Some reset ->
  attempt_body q tok m d attempt w =
    (Return Continue, after_rate_limit_wait q tok resp reset w).
Proof.
  intros Hi Hs Hrl. unfold attempt_body, try_except, bind.
  rewrite (requests_post_quiet q (bearer tok) w _ rest Hi Hs).
  unfold rate_limit_signal, obind in Hrl. unfold lift at 1.
  destruct (Py.contains "errors" (body resp)) as [[|]|]; try discriminate.
  unfold lift at 1.
  destruct (Py.getitem (body resp) "errors") as [errors|]; try discriminate.
  unfold lift at 1.
  destruct (Py.getitem0 errors) as [first|]; try discriminate.
  unfold lift at 1.
  destruct (Py.get first "message" (JStr "Unknown GraphQL error")) as [msg|];
    try discriminate.
  unfold lift at 1.
  destruct (Py.str_lower msg) as [lowered|]; try discriminate.
  destruct (Py.substring_of "rate limit" lowered); try discriminate.
  unfold lift at 1.
  destruct (rate_limit_reset resp) as [|n|]; try discriminate. simpl reset_time_of.
  cbv iota beta.
  destruct (n =? 0) eqn:En; try discriminate. inversion Hrl; subst n.
  change (negb false) with true. cbv beta iota.
  unfold time_time. cbv beta iota.
  rewrite sleep_quiet; [|simpl; lia|exact Hi].
  unfold after_rate_limit_wait. rewrite Hs. reflexivity.
Qed.

Lemma posts_failed_attempts q au d causes : forall attempt,
  posts (failed_attempts q au d attempt causes) = map ReqFails causes.
Proof.
  induction causes as [|c causes IH]; intros attempt; [reflexivity|].
  destruct causes as [|c' causes]; [reflexivity|].
  change (posts (failed_attempts q au d attempt (c :: c' :: causes)))
    with (ReqFails c :: posts (failed_attempts q au d (attempt + 1) (c' :: causes))).
  now rewrite IH.
Qed.

Lemma sleeps_failed_attempts q au d causes : forall a,
  sleeps (failed_attempts q au d (Z.of_nat a) causes) =
  map (fun k => d * Z.of_nat k) (seq (S a) (List.length causes - 1)).
Proof.
  induction causes as [|c causes IH]; intros a; [reflexivity|].
  destruct causes as [|c' causes]; [reflexivity|].
  change (sleeps (failed_attempts q au d (Z.of_nat a) (c :: c' :: causes)))
    with (d * (Z.of_nat a + 1)
          :: sleeps (failed_attempts q au d (Z.of_nat a + 1) (c' :: causes))).
  replace (Z.of_nat a + 1) with (Z.of_nat (S a)) by lia.
  rewrite IH. simpl. rewrite Nat.sub_0_r. reflexivity.
Qed.

Lemma attempts_all_fail q tok m d causes : forall a w rest,
  causes <> [] ->
  0 <= d ->
  interrupt_in w = None ->
  script w = map ReqFails causes ++ rest ->
  Z.of_nat (a + List.length causes) = m ->
  exists w',
    attempts_loop q tok m d (map Z.of_nat (seq a (List.length causes))) w =
      (Raise (FetchFailed m (last causes "")), w')
    /\ script w' = rest
    /\ trace w' = trace w ++ failed_attempts q (bearer tok) d (Z.of_nat a) causes.
Proof.
  induction causes as [|c causes IH]; intros a w rest Hne Hd Hi Hs Hm; [congruence|].
  assert (Hd' : 0 <= d * (Z.of_nat a + 1)) by nia.
  cbn [List.length seq map attempts_loop]. unfold bind at 1.
  rewrite (attempt_body_transport_failure q tok m d (Z.of_nat a) w c
             (map ReqFails causes ++ rest) Hi Hs Hd').
  cbv zeta. destruct causes as [|c' causes].
  - replace (Z.of_nat a <? m - 1) with false
      by (symmetry; apply Z.ltb_ge; simpl in Hm; lia).
    eexists. split; [reflexivity|]. split; reflexivity.
  - replace (Z.of_nat a <? m - 1) with true
      by (symmetry; apply Z.ltb_lt; simpl in Hm; lia).
    cbv iota.
    edestruct (IH (S a)) as (w' & Hrun & Hsc & Htr);
      [discriminate | exact Hd | | | | ].
    4:{ exists w'. split; [exact Hrun|]. split; [exact Hsc|].
        rewrite Htr. cbn [trace log set_clock set_script].
        replace (Z.of_nat (S a)) with (Z.of_nat a + 1) by lia.
        rewrite <- !app_assoc. reflexivity. }
    + exact Hi.
    + reflexivity.
    + simpl List.length in *. lia.
Qed.

(* ================================================================== *)
(** * The executor: outcomes, rate limits, retry exhaustion *)

(** C2, as the code has it.  The executor ends in one of three ways: it hands
    back, unchanged, the body of the last reply, which has no [errors]
    entry; it raises (its own failure only on the attempt numbered
    [max_retries - 1], after [max_retries] requests); or it returns [None],
    which happens after [max_retries] requests when the last of them was
    answered by a rate-limit error with a reset time, and at once when
    [max_retries <= 0]. *)
Theorem executor_outcomes q tok m d w :
  wp (execute_graphql_with_retry q tok m d) (fun r w' =>
    exists evs, trace w' = trace w ++ evs /\
    match r with
    | Return data =>
        (exists pre resp, posts evs = pre ++ [Responds resp] /\ data = body resp
           /\ Py.contains "errors" data = Return false)
        \/ (data = JNull /\ List.length (posts evs) = Z.to_nat m /\
            (m <= 0 \/
             exists pre resp reset, posts evs = pre ++ [Responds resp]
               /\ rate_limit_signal resp = Some reset))
    | Raise (FetchFailed m' c) =>
        m' = m /\ List.length (posts evs) = Z.to_nat m
        /\ exists pre, posts evs = pre ++ [ReqFails c]
    | Raise (GraphQLFailed _) => List.length (posts evs) = Z.to_nat m
    | Raise _ => True
    end) w.
Proof.
  unfold execute_graphql_with_retry. rewrite range_seq.
  eapply wp_mono; [apply (attempts_loop_cases q tok m d (Z.to_nat m) 0 w); lia|].
  intros r w' (evs & Htr & _ & _ & _ & Hr).
  exists evs. split; [exact Htr|].
  destruct r as [data|e].
  - destruct Hr as [(pre & resp & Hp & Hd & Hc & _)|(Hd & Hl & Hlast)].
    + left. eauto.
    + right. split; [exact Hd|]. split; [exact Hl|].
      destruct Hlast as [H0|H]; [left; lia|right; exact H].
  - destruct e; auto.
Qed.

(** C2, as stated, fails: three rate-limited replies in a row make the
    executor return [None]. *)
Lemma executor_returns_none :
  ~ returns_payload_or_raises Sample.first_query None 3 5
      Sample.three_rate_limits.
Proof.
  unfold returns_payload_or_raises. vm_compute.
  intros (resp & _ & Hd & Hc). destruct resp as [b h]. simpl in *.
  subst b. discriminate Hc.
Qed.

(** C3, as the code has it.  On a rate-limit error with a reset time, and
    a wait of [max(reset_time - now, 0) + 5] that [time.sleep] takes (one of
    at most [SLEEP_MAX]), the executor sleeps that long and goes on with the
    attempts that are left: the wait uses up the attempt it happened in. *)
Theorem rate_limit_wait_uses_attempt q tok m d attempt more w resp reset rest :
  interrupt_in w = None ->
  script w = Responds resp :: rest ->
  rate_limit_signal resp = Some reset ->
  Z.max (reset - clock w) 0 + 5 <= SLEEP_MAX ->
  attempts_loop q tok m d (attempt :: more) w =
  attempts_loop q tok m d more (after_rate_limit_wait q tok resp reset w)
  /\ sleeps (trace (after_rate_limit_wait q tok resp reset w)) =
     sleeps (trace w) ++ [Z.max (reset - clock w) 0 + 5].
Proof.
  intros Hi Hs Hrl _. split.
  - cbn [attempts_loop]. unfold bind at 1.
    now rewrite (attempt_body_rate_limited q tok m d attempt w resp reset rest Hi Hs Hrl).
  - unfold after_rate_limit_wait. cbn [trace log set_clock set_script].
    rewrite !sleeps_app. simpl. now rewrite app_nil_r.
Qed.

Lemma rate_limit_wait_uses_attempt_witness :
  attempts_loop Sample.first_query None 3 5 [0; 1; 2]
    Sample.rate_limited_then_page =
  attempts_loop Sample.first_query None 3 5 [1; 2]
    (after_rate_limit_wait Sample.first_query None
       (Sample.rate_limited_response 1010) 1010 Sample.rate_limited_then_page)
  /\ sleeps (trace (after_rate_limit_wait Sample.first_query None
                      (Sample.rate_limited_response 1010) 1010
                      Sample.rate_limited_then_page)) =
     sleeps (trace Sample.rate_limited_then_page)
     ++ [Z.max (1010 - clock Sample.rate_limited_then_page) 0 + 5].
Proof.
  apply (rate_limit_wait_uses_attempt Sample.first_query None 3 5 0 [1; 2]
           Sample.rate_limited_then_page
           (Sample.rate_limited_response 1010) 1010
           [Sample.page [] false JNull]);
    first [reflexivity | vm_compute; discriminate].
Defined.

(** C3, as stated, fails: with a budget of one attempt, a rate-limited reply
    followed by a good page yields [None], whereas a fresh call after the
    wait yields the page. *)
Lemma rate_limit_wait_is_counted :
  ~ rate_limit_keeps_budget Sample.first_query None 1 5
      Sample.rate_limited_then_page.
Proof.
  intros H.
  specialize (H (Sample.rate_limited_response 1010) 1010
                [Sample.page [] false JNull] eq_refl eq_refl).
  vm_compute in H. discriminate H.
Qed.

(** C8.  When each of the [max_retries] attempts meets a transport failure,
    the executor sends exactly [max_retries] requests, pauses
    [retry_delay * k] after the [k]-th of them (none after the last) and
    raises its failure with the last cause. *)
Theorem retry_exhaustion q tok m d w causes rest :
  interrupt_in w = None ->
  0 <= d ->
  1 <= m ->
  Z.of_nat (List.length causes) = m ->
  script w = map ReqFails causes ++ rest ->
  exists w',
    execute_graphql_with_retry q tok m d w =
      (Raise (FetchFailed m (last causes "")), w')
    /\ script w' = rest
    /\ trace w' = trace w ++ failed_attempts q (bearer tok) d 0 causes
    /\ posts (failed_attempts q (bearer tok) d 0 causes) = map ReqFails causes
    /\ List.length (posts (failed_attempts q (bearer tok) d 0 causes)) = Z.to_nat m
    /\ sleeps (failed_attempts q (bearer tok) d 0 causes) =
       map (fun k => d * Z.of_nat k) (seq 1 (Z.to_nat m - 1)).
Proof.
  intros Hi Hd Hm Hlen Hs.
  assert (Hne : causes <> []) by (destruct causes; [simpl in Hlen; lia|discriminate]).
  destruct (attempts_all_fail q tok m d causes 0%nat w rest Hne Hd Hi Hs Hlen)
    as (w' & Hrun & Hsc & Htr).
  exists w'. unfold execute_graphql_with_retry. rewrite range_seq.
  replace (Z.to_nat m) with (List.length causes) by lia.
  split; [exact Hrun|]. split; [exact Hsc|]. split; [exact Htr|].
  rewrite posts_failed_attempts. split; [reflexivity|].
  split; [now rewrite length_map|].
  apply (sleeps_failed_attempts q (bearer tok) d causes 0%nat).
Qed.

Lemma retry_exhaustion_witness :
  exists w',
    execute_graphql_with_retry Sample.first_query None 3 5
      Sample.three_failures =
      (Raise (FetchFailed 3 "reset"), w')
    /\ sleeps (trace w') = [5; 10].
Proof.
  destruct (retry_exhaustion Sample.first_query None 3 5
              Sample.three_failures
              ["timeout"; "503"; "reset"] [])
    as (w' & Hrun & _ & Htr & _); [reflexivity|lia|lia|reflexivity|reflexivity|].
  exists w'. split; [exact Hrun|]. rewrite Htr. reflexivity.
Defined.

(* ================================================================== *)
(** * The controller: one page *)

Lemma eq_False_not_truthy v : Py.eq_False v = true -> Py.truthy v = false.
Proof.
  destruct v as [|b|n| | |]; simpl; try discriminate.
  - now destruct b.
  - intros H. now rewrite H.
Qed.

Lemma net_event_fetch_event good final ev :
  net_event ev -> fetch_event good final ev.
Proof. destruct ev; simpl; tauto. Qed.

Lemma Forall_net_fetch good final evs :
  Forall net_event evs -> Forall (fetch_event good final) evs.
Proof. apply Forall_impl, net_event_fetch_event. Qed.

Lemma fetch_event_mono (good good' final final' : json -> Prop) ev :
  (forall doc, good doc -> good' doc) ->
  (forall doc, final doc -> final' doc) ->
  fetch_event good final ev -> fetch_event good' final' ev.
Proof.
  intros Hg Hf. destruct ev; simpl; auto.
  intros [(-> & doc & -> & H)|[(-> & doc & -> & H)|(-> & doc & -> & H)]];
    [left|right; left|right; right]; split; eauto.
Qed.

Lemma checkpoint_of_count f ck : checkpoint_of f = Return ck -> count_ok ck.
Proof.
  unfold checkpoint_of. destruct (Py.len (all_discussions f)) as [n|] eqn:E;
    simpl; intros H; inversion H; subst.
  exists (all_discussions f), n. repeat split; auto.
Qed.

Lemma checkpoint_of_cursor f ck :
  checkpoint_of f = Return ck -> cursor_inv f -> cursor_ok ck.
Proof.
  unfold checkpoint_of. destruct (Py.len (all_discussions f)) as [n|] eqn:E;
    simpl; intros H Hinv; inversion H; subst.
  exists (has_more f), (cursor f). repeat split; auto.
Qed.

Lemma checkpoint_of_good f ck :
  checkpoint_of f = Return ck -> cursor_inv f -> good_checkpoint ck.
Proof. split; eauto using checkpoint_of_count, checkpoint_of_cursor. Qed.

Lemma page_sizes_net evs : Forall net_event evs -> page_sizes evs = [].
Proof.
  induction 1 as [|ev evs Hev _ IH]; [reflexivity|].
  destruct ev; simpl in *; try contradiction; exact IH.
Qed.

Lemma extend_inv v l v' :
  Py.extend v l = Return v' -> exists old, v = JArr old /\ v' = JArr (old ++ l).
Proof. destruct v; simpl; intros H; inversion H; eauto. Qed.

Ltac trace_from H :=
  cbn [fst snd]; simpl trace; rewrite ?H; rewrite <- ?app_assoc;
  first [reflexivity | symmetry; apply app_nil_r].

Ltac fetch_events Hnet :=
  simpl app;
  repeat (apply Forall_app; split);
  try (apply Forall_net_fetch; exact Hnet);
  repeat (apply Forall_cons); try apply Forall_nil; simpl fetch_event; auto.

Ltac not_raised :=
  let H := fresh in
  intros H; simpl in H;
  first [ exact (match H with end)
        | discriminate H
        | subst; match goal with Hp : py_error _ |- _ => exact (match Hp with end) end
        | reflexivity ].

Ltac keeps_cursor_inv :=
  let Hinv := fresh in
  let Hf := fresh in
  unfold cursor_inv; simpl; intros Hinv Hf;
  first [ exact (Hinv Hf) | reflexivity
        | apply eq_False_not_truthy in Hf; congruence ].

Ltac good_write :=
  left; split; [reflexivity|]; eexists; split; [reflexivity|];
  match goal with
  | H : checkpoint_of _ = Return _ |- _ => apply (checkpoint_of_good _ _ H)
  end;
  unfold cursor_inv; simpl;
  let Hf := fresh in
  intros Hf; first [reflexivity | apply eq_False_not_truthy in Hf; congruence].

Lemma loop_body_spec f w :
  wp loop_body (fun r s' =>
    exists evs, trace (snd s') = trace w ++ evs
      /\ Forall (fetch_event good_checkpoint no_artifact) evs
      /\ (List.length (script (snd s')) <= List.length (script w))%nat
      /\ (raises KeyboardInterrupt r -> interrupt_in (snd s') = None)
      /\ ~ raises FuelExhausted r
      /\ (cursor_inv f -> cursor_inv (fst s'))
      /\ token (fst s') = token f
      /\ match r with
         | Return Continue =>
             (List.length (script (snd s')) < List.length (script w))%nat
             /\ exists old new,
                 all_discussions f = JArr old
                 /\ all_discussions (fst s') = JArr (old ++ new)
                 /\ page_sizes evs = [Z.of_nat (List.length new)]
         | Return Break =>
             all_discussions (fst s') = all_discussions f
             /\ cursor (fst s') = cursor f
             /\ has_more (fst s') = has_more f
             /\ page_sizes evs = []
         | Return (ReturnWith _) => False
         | Raise e => True
         end) (f, w).
Proof.
  unfold loop_body, save_checkpoint.
  do 8 wp_step.
  apply wp_bind, wp_io. cbn [fst snd].
  eapply wp_mono; [apply execute_spec|].
  intros r w1 (evs1 & Htr1 & Hnet1 & Hlen1 & Hki1 & Hfuel1 & Hdec1).
  destruct r as [data|e]; cbn [fst snd].
  2:{ exists evs1. repeat split; auto using Forall_net_fetch. }
  specialize (Hdec1 data eq_refl). clear Hki1 Hfuel1.
  destruct (Py.truthy data) eqn:Ht; cbn [negb].
  2:{ do 3 wp_step. exists evs1.
      repeat split; auto using Forall_net_fetch, page_sizes_net; try (intros []). }
  specialize (Hdec1 eq_refl).
  repeat wp_step.
  all: try lia.
  all: eexists; split; [trace_from Htr1|].
  all: split; [fetch_events Hnet1; try good_write|].
  all: split; [simpl; lia|].
  all: split; [not_raised|].
  all: split; [not_raised|].
  all: split; [keeps_cursor_inv|].
  all: split; [reflexivity|].
  all: try exact I.
  1: { repeat split; auto using page_sizes_net. }
  all: split; [simpl; lia|].
  all: match goal with
       | H : Py.extend _ _ = Return _ |- _ =>
           destruct (extend_inv _ _ _ H) as (old & Hold & ->)
       end.
  all: exists old; eexists; split; [exact Hold|]; split; [reflexivity|].
  all: rewrite page_sizes_app, (page_sizes_net _ Hnet1); reflexivity.
Qed.

(* ================================================================== *)
(** * The controller: the loop, the finalizer, the handlers *)

Lemma while_spec fuel : forall f w,
  (List.length (script w) < fuel)%nat ->
  wp (while_has_more fuel) (fun r s' =>
    exists evs, trace (snd s') = trace w ++ evs
      /\ Forall (fetch_event good_checkpoint no_artifact) evs
      /\ (raises KeyboardInterrupt r -> interrupt_in (snd s') = None)
      /\ ~ raises FuelExhausted r
      /\ (cursor_inv f -> cursor_inv (fst s'))
      /\ match r with
         | Return _ =>
             (all_discussions (fst s') = all_discussions f /\ page_sizes evs = [])
             \/ (exists old new,
                   all_discussions f = JArr old
                   /\ all_discussions (fst s') = JArr (old ++ new)
                   /\ sum (page_sizes evs) = Z.of_nat (List.length new))
         | Raise _ => True
         end) (f, w).
Proof.
  induction fuel as [|fuel IH]; intros f w Hfuel; [lia|].
  cbn [while_has_more]. do 2 wp_step.
  destruct (Py.truthy (has_more f)) eqn:Hhm.
  2:{ wp_step. exists []. rewrite app_nil_r.
      repeat split; auto; try not_raised. }
  apply wp_bind. eapply wp_mono; [apply loop_body_spec|].
  intros r [f1 w1] (evs1 & Htr1 & Hev1 & Hlen1 & Hki1 & Hfu1 & Hinv1 & _ & Hr).
  cbn [fst snd] in *.
  destruct r as [[| |x]|e].
  - (* another page was merged *)
    destruct Hr as (Hlt & old & new1 & Hold & Hnew & Hps1).
    eapply wp_mono; [apply (IH f1 w1); lia|].
    intros r [f2 w2] (evs2 & Htr2 & Hev2 & Hki2 & Hfu2 & Hinv2 & Hr2).
    cbn [fst snd] in *. exists (evs1 ++ evs2).
    split; [now rewrite Htr2, Htr1, app_assoc|].
    split; [apply Forall_app; auto|]. split; [exact Hki2|]. split; [exact Hfu2|].
    split; [auto|]. destruct r as [[]|e]; [|exact I].
    right. exists old. rewrite page_sizes_app, sum_app, Hps1. cbn [sum fold_right].
    destruct Hr2 as [(Hsame & Hps2)|(old2 & new2 & Hold2 & Hnew2 & Hps2)].
    + exists new1. rewrite Hsame, Hps2. cbn [sum fold_right].
      repeat split; auto. lia.
    + exists (new1 ++ new2). rewrite Hnew in Hold2. inversion Hold2; subst old2.
      rewrite Hnew2, Hps2, app_assoc, length_app. repeat split; auto. lia.
  - (* the loop was left by [break] *)
    destruct Hr as (Hall & _ & _ & Hps).
    wp_step. exists evs1. repeat split; auto; try not_raised.
  - destruct Hr.
  - exists evs1. repeat split; auto.
Qed.

Lemma wp_getsize (Q : outcome unit -> world -> Prop) p w :
  Q (Return tt) w -> Q (Raise OSError) w -> wp (getsize p) Q w.
Proof. intros H1 H2. unfold wp, getsize. destruct (files w p); assumption. Qed.

Lemma wp_datetime_now (Q : outcome string -> world -> Prop) w :
  Q (Return (datetime_now w)) w ->
  wp (fun w0 => (Return (datetime_now w0), w0)) Q w.
Proof. auto. Qed.

Lemma py_error_not_fetch_failure e : py_error e -> ~ fetch_failure e.
Proof. destruct e; simpl; tauto. Qed.

Lemma finalizer_fetch_event good final ev :
  finalizer_event final ev -> fetch_event good final ev.
Proof. destruct ev; simpl; tauto. Qed.

Lemma page_sizes_finalizer final evs :
  Forall (finalizer_event final) evs -> page_sizes evs = [].
Proof.
  induction 1 as [|ev evs Hev _ IH]; [reflexivity|].
  destruct ev; simpl in *; try contradiction; exact IH.
Qed.

Ltac no_fetch_failure :=
  let e := fresh in
  let Hr := fresh in
  let Hf := fresh in
  intros e Hr Hf; simpl in Hr;
  first [ exact (match Hr with end)
        | subst e; first [ exact Hf
                         | eapply py_error_not_fetch_failure; eassumption ] ].

Ltac artifact_event :=
  simpl;
  first [ left; split; [reflexivity|] | right; split; [reflexivity|] ];
  eexists; split; [reflexivity|]; eexists; repeat split; eassumption.

Lemma save_final_result_spec d w :
  wp (save_final_result d) (fun r w' =>
    exists evs, trace w' = trace w ++ evs
      /\ Forall (finalizer_event (fun doc => exists n, artifact_of d n doc)) evs
      /\ (raises KeyboardInterrupt r -> interrupt_in w' = None)
      /\ ~ raises FuelExhausted r
      /\ (forall e, raises e r -> ~ fetch_failure e)) w.
Proof.
  unfold save_final_result.
  repeat first [wp_step | apply wp_getsize | apply wp_datetime_now; cbn beta iota].
  all: eexists; split; [trace_eq|].
  all: split; [repeat (apply Forall_cons; [artifact_event|]); apply Forall_nil|].
  all: split; [not_raised|].
  all: split; [not_raised|].
  all: no_fetch_failure.
Qed.

(** What the [try] block leaves behind, whichever way it ends. *)
Lemma try_body_spec f w :
  wp try_body (fun r s' =>
    exists evs, trace (snd s') = trace w ++ evs
      /\ (raises KeyboardInterrupt r -> interrupt_in (snd s') = None)
      /\ ~ raises FuelExhausted r
      /\ (cursor_inv f -> cursor_inv (fst s'))
      /\ Forall (fetch_event good_checkpoint
                   (fun doc => exists n0,
                      Py.len (all_discussions f) = Return n0 /\
                      artifact_of (all_discussions (fst s'))
                                  (n0 + sum (page_sizes evs)) doc)) evs
      /\ (forall e, raises e r -> fetch_failure e ->
                    Forall (fetch_event good_checkpoint no_artifact) evs)
      /\ (forall v, r = Return v -> v = all_discussions (fst s'))) (f, w).
Proof.
  unfold try_body. apply wp_bind.
  change (wp (while_has_more (S (List.length (script w))))
            (fun r s' =>
               match r with
               | Return b =>
                   wp ((fun _ : unit =>
                          acc <- local all_discussions ;;
                          io (save_final_result acc) ;;
                          present <- io (path_exists CHECKPOINT_FILE) ;;
                          (if (present : bool) then io (remove CHECKPOINT_FILE)
                           else ret tt) ;;
                          local all_discussions) b)
                      (fun r0 s'0 =>
                         exists evs, trace (snd s'0) = trace w ++ evs
                           /\ (raises KeyboardInterrupt r0 -> interrupt_in (snd s'0) = None)
                           /\ ~ raises FuelExhausted r0
                           /\ (cursor_inv f -> cursor_inv (fst s'0))
                           /\ Forall (fetch_event good_checkpoint
                                        (fun doc => exists n0,
                                           Py.len (all_discussions f) = Return n0 /\
                                           artifact_of (all_discussions (fst s'0))
                                             (n0 + sum (page_sizes evs)) doc)) evs
                           /\ (forall e, raises e r0 -> fetch_failure e ->
                                 Forall (fetch_event good_checkpoint no_artifact) evs)
                           /\ (forall v, r0 = Return v -> v = all_discussions (fst s'0)))
                      s'
               | Raise e =>
                   exists evs, trace (snd s') = trace w ++ evs
                     /\ (raises KeyboardInterrupt (@Raise json e) -> interrupt_in (snd s') = None)
                     /\ ~ raises FuelExhausted (@Raise json e)
                     /\ (cursor_inv f -> cursor_inv (fst s'))
                     /\ Forall (fetch_event good_checkpoint
                                  (fun doc => exists n0,
                                     Py.len (all_discussions f) = Return n0 /\
                                     artifact_of (all_discussions (fst s'))
                                       (n0 + sum (page_sizes evs)) doc)) evs
                     /\ (forall e0, raises e0 (@Raise json e) -> fetch_failure e0 ->
                           Forall (fetch_event good_checkpoint no_artifact) evs)
                     /\ (forall v, @Raise json e = Return v -> v = all_discussions (fst s'))
               end) (f, w)).
  eapply wp_mono; [apply while_spec; lia|].
  intros r [f1 w1] (evs1 & Htr1 & Hev1 & Hki1 & Hfu1 & Hinv1 & Hr).
  cbn [fst snd] in *.
  assert (Hweak : forall final,
            Forall (fetch_event good_checkpoint final) evs1).
  { intros final. eapply Forall_impl; [|exact Hev1].
    intros ev. apply fetch_event_mono; [auto|intros doc []]. }
  destruct r as [[]|e].
  2:{ exists evs1. repeat split; auto. discriminate. }
  cbn beta. do 2 wp_step. apply wp_bind, wp_io. cbn [fst snd].
  eapply wp_mono; [apply save_final_result_spec|].
  intros r w2 (evs2 & Htr2 & Hev2 & Hki2 & Hfu2 & Hff2).
  assert (Hps2 : page_sizes evs2 = []) by (eapply page_sizes_finalizer; eauto).
  assert (Hfin : forall evs3, page_sizes evs3 = [] ->
            Forall (fetch_event good_checkpoint
                      (fun doc => exists n0,
                         Py.len (all_discussions f) = Return n0 /\
                         artifact_of (all_discussions f1)
                           (n0 + sum (page_sizes (evs1 ++ evs2 ++ evs3))) doc)) evs2).
  { intros evs3 Hps3. eapply Forall_impl; [|exact Hev2].
    intros ev Hev. apply finalizer_fetch_event.
    destruct ev; simpl in *; auto.
    assert (Hdoc : forall doc, (exists n, artifact_of (all_discussions f1) n doc) ->
              exists n0, Py.len (all_discussions f) = Return n0 /\
                artifact_of (all_discussions f1)
                  (n0 + sum (page_sizes (evs1 ++ evs2 ++ evs3))) doc).
    { intros doc (n & Hd & Hn & Hlen).
      rewrite !page_sizes_app, Hps2, Hps3, app_nil_r.
      destruct Hr as [(Hsame & Hps)|(old & new & Hold & Hnew & Hps)].
      - exists n. rewrite <- Hsame, Hps. cbn [sum fold_right].
        rewrite Z.add_0_r. repeat split; auto.
      - exists (Z.of_nat (List.length old)). rewrite Hold. split; [reflexivity|].
        rewrite Hps. pose proof Hlen as Hlen'.
        rewrite Hnew in Hlen'. simpl in Hlen'. rewrite length_app in Hlen'.
        inversion Hlen'; subst n. rewrite <- Nat2Z.inj_add.
        repeat split; auto. }
    destruct Hev as [(-> & doc & -> & H)|(-> & doc & -> & H)]; [left|right];
      (split; [reflexivity|]); exists doc; (split; [reflexivity|]); auto. }
  destruct r as [[]|e]; cbn [fst snd].
  2:{ exists (evs1 ++ evs2 ++ []). split; [now rewrite Htr2, Htr1, app_nil_r, app_assoc|].
      split; [exact Hki2|]. split; [exact Hfu2|]. split; [exact Hinv1|].
      split; [apply Forall_app; split; [apply Hweak|apply Forall_app; split; [now apply Hfin|constructor]]|].
      split; [|discriminate].
      intros e0 He0 Hf. exfalso. exact (Hff2 e0 He0 Hf). }
  do 3 wp_step.
  destruct (files w2 CHECKPOINT_FILE) eqn:Hck.
  - repeat wp_step.
    + exists (evs1 ++ evs2 ++ [EvRemove CHECKPOINT_FILE]).
      split; [simpl; now rewrite Htr2, Htr1, <- !app_assoc|].
      split; [not_raised|]. split; [not_raised|]. split; [exact Hinv1|].
      split; [|split; [intros e0 []|intros v Hv; now inversion Hv]].
      apply Forall_app; split; [apply Hweak|].
      apply Forall_app; split; [now apply Hfin|].
      repeat constructor.
    + exists (evs1 ++ evs2 ++ []). split; [simpl; now rewrite Htr2, Htr1, app_nil_r, app_assoc|].
      split; [not_raised|]. split; [not_raised|]. split; [exact Hinv1|].
      split; [apply Forall_app; split; [apply Hweak|apply Forall_app; split; [now apply Hfin|constructor]]|].
      split; [|discriminate].
      intros e0 He0 Hf. simpl in He0. subst e0. exfalso. exact Hf.
    + exists (evs1 ++ evs2 ++ []). split; [simpl; now rewrite Htr2, Htr1, app_nil_r, app_assoc|].
      split; [not_raised|]. split; [not_raised|]. split; [exact Hinv1|].
      split; [apply Forall_app; split; [apply Hweak|apply Forall_app; split; [now apply Hfin|constructor]]|].
      split; [|discriminate].
      intros e0 He0 Hf. simpl in He0. subst e0. exfalso. exact Hf.
  - repeat wp_step.
    exists (evs1 ++ evs2 ++ []). split; [simpl; now rewrite Htr2, Htr1, app_nil_r, app_assoc|].
    split; [not_raised|]. split; [not_raised|]. split; [exact Hinv1|].
    split; [apply Forall_app; split; [apply Hweak|apply Forall_app; split; [now apply Hfin|constructor]]|].
    split; [intros e0 []|intros v Hv; now inversion Hv].
Qed.

Lemma checkpoint_of_sound f ck :
  checkpoint_of f = Return ck -> sound_checkpoint (cursor_inv f) ck.
Proof. split; eauto using checkpoint_of_count, checkpoint_of_cursor. Qed.

Ltac sound_write :=
  simpl; left; split; [reflexivity|]; eexists; split; [reflexivity|];
  match goal with
  | H : checkpoint_of _ = Return _ |- _ => exact (checkpoint_of_sound _ _ H)
  end.

Lemma on_interrupt_spec e f1 w1 :
  wp (on_interrupt e) (fun r s' =>
    fst s' = f1 /\
    exists evs, trace (snd s') = trace w1 ++ evs
      /\ Forall (fetch_event (sound_checkpoint (cursor_inv f1)) no_artifact) evs
      /\ page_sizes evs = []
      /\ ~ raises FuelExhausted r) (f1, w1).
Proof.
  unfold on_interrupt, save_checkpoint. repeat wp_step.
  all: split; [reflexivity|].
  all: eexists; split; [trace_eq|].
  all: split; [repeat (apply Forall_cons; [sound_write|]); apply Forall_nil|].
  all: split; [reflexivity|not_raised].
Qed.

Lemma on_exception_spec e f1 w1 :
  is_Exception e = true ->
  wp (on_exception e) (fun r s' =>
    fst s' = f1 /\
    exists evs, trace (snd s') = trace w1 ++ evs
      /\ Forall (fetch_event (sound_checkpoint (cursor_inv f1)) no_artifact) evs
      /\ page_sizes evs = []
      /\ ~ raises FuelExhausted r) (f1, w1).
Proof.
  intros He. unfold on_exception, save_checkpoint. repeat wp_step.
  all: split; [reflexivity|].
  all: eexists; split; [trace_eq|].
  all: split; [repeat (apply Forall_cons; [sound_write|]); apply Forall_nil|].
  all: split; [reflexivity|].
  all: try not_raised.
  all: simpl; intros ->; discriminate He.
Qed.

(** The whole [try] statement: every checkpoint written has matching count
    and, when the run started from a state with the cursor implication, the
    cursor implication; every artifact written counts the discussions the
    run started with plus those of the pages merged. *)
Lemma protected_fetch_spec f w :
  wp protected_fetch (fun r s' =>
    exists evs, trace (snd s') = trace w ++ evs
      /\ ~ raises FuelExhausted r
      /\ (cursor_inv f -> cursor_inv (fst s'))
      /\ Forall (fetch_event (sound_checkpoint (cursor_inv f))
                   (fun doc => exists n0,
                      Py.len (all_discussions f) = Return n0 /\
                      artifact_of (all_discussions (fst s'))
                                  (n0 + sum (page_sizes evs)) doc)) evs) (f, w).
Proof.
  unfold protected_fetch. apply wp_try_except2.
  eapply wp_mono; [apply try_body_spec|].
  intros r [f1 w1] (evs1 & Htr1 & Hki1 & Hfu1 & Hinv1 & Hev1 & _).
  cbn [fst snd] in *.
  assert (Hev1' : Forall (fetch_event (sound_checkpoint (cursor_inv f))
                   (fun doc => exists n0,
                      Py.len (all_discussions f) = Return n0 /\
                      artifact_of (all_discussions f1)
                                  (n0 + sum (page_sizes evs1)) doc)) evs1).
  { eapply Forall_impl; [|exact Hev1]. intros ev.
    apply fetch_event_mono; [|auto]. intros doc [Hc Hk]. split; auto. }
  destruct r as [v|e].
  { exists evs1. repeat split; auto. }
  assert (Hhandler : forall (h : M ctl json),
    wp h (fun r s' =>
      fst s' = f1 /\
      exists evs, trace (snd s') = trace w1 ++ evs
        /\ Forall (fetch_event (sound_checkpoint (cursor_inv f1)) no_artifact) evs
        /\ page_sizes evs = []
        /\ ~ raises FuelExhausted r) (f1, w1) ->
    wp h (fun r s' =>
      exists evs, trace (snd s') = trace w ++ evs
        /\ ~ raises FuelExhausted r
        /\ (cursor_inv f -> cursor_inv (fst s'))
        /\ Forall (fetch_event (sound_checkpoint (cursor_inv f))
                     (fun doc => exists n0,
                        Py.len (all_discussions f) = Return n0 /\
                        artifact_of (all_discussions (fst s'))
                                    (n0 + sum (page_sizes evs)) doc)) evs) (f1, w1)).
  { intros h Hh. eapply wp_mono; [exact Hh|].
    intros r [f2 w2] (Hf & evs2 & Htr2 & Hev2 & Hps2 & Hfu2).
    cbn [fst snd] in *. subst f2.
    exists (evs1 ++ evs2). split; [now rewrite Htr2, Htr1, app_assoc|].
    split; [exact Hfu2|]. split; [exact Hinv1|].
    rewrite page_sizes_app, Hps2, app_nil_r.
    apply Forall_app; split; [exact Hev1'|].
    eapply Forall_impl; [|exact Hev2]. intros ev.
    apply fetch_event_mono; [|intros doc []].
    intros doc [Hc Hk]. split; auto. }
  destruct (is_KeyboardInterrupt e) eqn:Eki.
  { apply Hhandler, on_interrupt_spec. }
  destruct (is_Exception e) eqn:Eex.
  { apply Hhandler, on_exception_spec, Eex. }
  exists evs1. repeat split; auto.
Qed.

(* ================================================================== *)
(** * The controller from start to end *)

Lemma wp_read_json (Q : outcome json -> world -> Prop) p w :
  (forall i,
     Q (match files w p with
        | None => Raise OSError
        | Some (Text _ doc) => Return doc
        | Some _ => Raise ValueError
        end) (set_interrupt_in i w)) ->
  Q (Raise KeyboardInterrupt) (set_interrupt_in None w) ->
  wp (read_json p) Q w.
Proof.
  intros H1 H2. unfold read_json. apply wp_bind, wp_tick; [intros i|exact H2].
  apply wp_fun. specialize (H1 i). simpl.
  destruct (files w p) as [[| |]|]; exact H1.
Qed.

Lemma load_checkpoint_spec w :
  wp load_checkpoint (fun r w' =>
    trace w' = trace w /\ script w' = script w /\ files w' = files w
    /\ ~ raises FuelExhausted r) w.
Proof.
  unfold load_checkpoint. do 2 wp_step.
  destruct (files w CHECKPOINT_FILE) as [c|] eqn:Hc.
  - apply wp_try_except, wp_read_json; [intros i|].
    + rewrite Hc. destruct c; cbn [is_Exception]; try apply wp_ret;
        simpl; repeat split; first [not_raised | auto].
    + simpl. repeat split; first [not_raised | auto].
  - wp_step. repeat split; auto.
Qed.

Lemma wp_get_github_token (Q : outcome (option string) -> world -> Prop) w :
  Q (Return (github_token w)) w -> wp get_github_token Q w.
Proof. auto. Qed.

Lemma wp_with_frame (f0 : frame) (Q : outcome json -> world -> Prop) w :
  wp protected_fetch (fun r s' => Q r (snd s')) (f0, w) ->
  wp (fun w0 => let (r, s) := protected_fetch (f0, w0) in (r, snd s)) Q w.
Proof. unfold wp. destruct (protected_fetch (f0, w)) as [r s]. auto. Qed.

Lemma final_artifacts_app (a b : list event) :
  final_artifacts (a ++ b) = final_artifacts a ++ final_artifacts b.
Proof. unfold final_artifacts. now rewrite flat_map_app. Qed.

Lemma saved_checkpoints_fetch good final evs :
  Forall (fetch_event good final) evs -> Forall good (saved_checkpoints evs).
Proof.
  induction 1 as [|ev evs Hev _ IH]; [constructor|].
  change (ev :: evs) with ([ev] ++ evs). rewrite saved_checkpoints_app.
  apply Forall_app; split; [|exact IH].
  destruct ev as [| |p c| |]; try constructor.
  destruct Hev as [(-> & doc & -> & H)|[(-> & doc & -> & H)|(-> & doc & -> & H)]];
    repeat constructor; exact H.
Qed.

Lemma final_artifacts_fetch good final evs :
  Forall (fetch_event good final) evs -> Forall final (final_artifacts evs).
Proof.
  induction 1 as [|ev evs Hev _ IH]; [constructor|].
  change (ev :: evs) with ([ev] ++ evs). rewrite final_artifacts_app.
  apply Forall_app; split; [|exact IH].
  destruct ev as [| |p c| |]; try constructor.
  destruct Hev as [(-> & doc & -> & H)|[(-> & doc & -> & H)|(-> & doc & -> & H)]];
    repeat constructor; exact H.
Qed.

Lemma fetch_discussions_spec w :
  wp fetch_discussions (fun r w' =>
    exists evs, trace w' = trace w ++ evs
      /\ ~ raises FuelExhausted r
      /\ Forall (fetch_event (sound_checkpoint (resumes_well w))
                             (counts_from w (sum (page_sizes evs)))) evs) w.
Proof.
  unfold fetch_discussions. apply wp_bind, wp_get_github_token. cbn beta iota.
  apply wp_bind. pose proof (load_checkpoint_spec w) as Hload. unfold wp in Hload |- *.
  destruct (load_checkpoint w) as [r w0] eqn:Eload. cbn [fst snd] in *.
  destruct Hload as (Htr0 & _ & _ & Hfu0).
  destruct r as [ck|e].
  2:{ exists []. rewrite app_nil_r. repeat split; auto. }
  fold (wp (acc <- lift (Py.getitem ck "discussions") ;;
            cur <- lift (Py.getitem ck "last_cursor") ;;
            hm <- lift (Py.getitem ck "has_more") ;;
            (if Py.truthy acc then lift (Py.len acc) ;; ret tt else ret tt) ;;
            (fun w1 => let (r, s) := protected_fetch
                         (mkFrame (github_token w) acc cur hm 0, w1) in (r, snd s)))
           (fun r w' =>
              exists evs, trace w' = trace w ++ evs
                /\ ~ raises FuelExhausted r
                /\ Forall (fetch_event (sound_checkpoint (resumes_well w))
                             (counts_from w (sum (page_sizes evs)))) evs) w0).
  assert (Hgo : forall acc cur hm,
    Py.getitem ck "discussions" = Return acc ->
    Py.getitem ck "last_cursor" = Return cur ->
    Py.getitem ck "has_more" = Return hm ->
    wp (fun w1 => let (r, s) := protected_fetch
                    (mkFrame (github_token w) acc cur hm 0, w1) in (r, snd s))
       (fun r w' =>
          exists evs, trace w' = trace w ++ evs
            /\ ~ raises FuelExhausted r
            /\ Forall (fetch_event (sound_checkpoint (resumes_well w))
                         (counts_from w (sum (page_sizes evs)))) evs) w0).
  { intros a a0 a1 Hop Hop0 Hop1.
    apply wp_with_frame. eapply wp_mono; [apply protected_fetch_spec|].
    intros r [f1 w1] (evs & Htr & Hfu & _ & Hev). cbn [fst snd] in *.
    exists evs. split; [now rewrite Htr, Htr0|]. split; [exact Hfu|].
    eapply Forall_impl; [|exact Hev]. intros ev. apply fetch_event_mono.
    - intros doc [Hc Hk]. split; [exact Hc|]. intros Hwell. apply Hk.
      unfold cursor_inv. cbn [has_more cursor].
      specialize (Hwell ck). rewrite Eload in Hwell. specialize (Hwell eq_refl).
      destruct Hwell as (hm & cur & Hhm & Hcur & Himp).
      rewrite Hop1 in Hhm. rewrite Hop0 in Hcur.
      inversion Hhm; inversion Hcur; subst. exact Himp.
    - intros doc (n0 & Hn0 & Hart). cbn [all_discussions] in Hn0.
      exists ck, a, n0, (all_discussions f1). rewrite Eload. auto. }
  do 3 (wp_step; wp_step;
        [|exists []; rewrite app_nil_r; repeat split; first [not_raised | auto]]).
  apply wp_bind.
  destruct (Py.truthy a).
  - apply wp_bind. wp_step.
    + apply wp_ret. apply Hgo; first [assumption | reflexivity].
    + exists []. rewrite app_nil_r. repeat split; first [not_raised | auto].
  - apply wp_ret. apply Hgo; first [assumption | reflexivity].
Qed.

(** The loop of the model never runs out of fuel. *)
Theorem fetch_discussions_total w :
  ~ raises FuelExhausted (fst (fetch_discussions w)).
Proof.
  destruct (fetch_discussions_spec w) as (evs & _ & H & _). exact H.
Qed.

(* ================================================================== *)
(** * Invariants of the checkpoints and of the artifact *)

(** C6.  Every checkpoint a run writes, after a page, on Ctrl-C or on an
    error, stores a [total_count] equal to the length of its [discussions];
    so does every final artifact, and there the count is the length of the
    discussions the run resumed from plus the sizes of the pages merged. *)
Theorem count_invariant w :
  wp fetch_discussions (fun r w' =>
    exists evs, trace w' = trace w ++ evs
      /\ Forall count_ok (saved_checkpoints evs)
      /\ Forall (fun doc => count_ok doc /\
                            counts_from w (sum (page_sizes evs)) doc)
                (final_artifacts evs)) w.
Proof.
  eapply wp_mono; [apply fetch_discussions_spec|].
  intros r w' (evs & Htr & _ & Hev). exists evs. split; [exact Htr|]. split.
  - eapply Forall_impl; [|eapply saved_checkpoints_fetch; exact Hev].
    intros doc [Hc _]. exact Hc.
  - eapply Forall_impl; [|eapply final_artifacts_fetch; exact Hev].
    intros doc Hdoc. split; [|exact Hdoc].
    destruct Hdoc as (ck & acc & n0 & d & _ & _ & _ & Hd & Hn & Hl).
    exists d, (n0 + sum (page_sizes evs)). auto.
Qed.

(** C7.  When the state the controller starts from has the implication
    [has_more == False => cursor is None], so have the state the loop ends
    in and every checkpoint written, after a page, on Ctrl-C or on an
    error. *)
Theorem cursor_invariant f w :
  cursor_inv f ->
  wp protected_fetch (fun r s' =>
    cursor_inv (fst s') /\
    exists evs, trace (snd s') = trace w ++ evs
      /\ Forall cursor_ok (saved_checkpoints evs)) (f, w).
Proof.
  intros Hinv. eapply wp_mono; [apply protected_fetch_spec|].
  intros r s' (evs & Htr & _ & Hinv' & Hev). split; [auto|].
  exists evs. split; [exact Htr|].
  eapply Forall_impl; [|eapply saved_checkpoints_fetch; exact Hev].
  intros doc [_ Hk]. auto.
Qed.

Lemma cursor_invariant_witness :
  wp protected_fetch (fun r s' =>
    cursor_inv (fst s') /\
    exists evs, trace (snd s') = trace Sample.two_pages ++ evs
      /\ Forall cursor_ok (saved_checkpoints evs))
    (Sample.start, Sample.two_pages).
Proof.
  apply (cursor_invariant Sample.start Sample.two_pages).
  unfold cursor_inv. simpl. discriminate.
Defined.

(* ================================================================== *)
(** * What the handlers do *)

Lemma save_checkpoint_run ck w :
  interrupt_in w <> Some 0%nat ->
  exists w',
    save_checkpoint ck w = (Return tt, w')
    /\ trace w' = trace w ++ (if hd false (write_faults w) then []
                              else [EvWrite CHECKPOINT_FILE (Text (Some 2%nat) ck)])
    /\ files w' = (if hd false (write_faults w) then files w
                   else update CHECKPOINT_FILE (Some (Text (Some 2%nat) ck)) (files w)).
Proof.
  intros Hi. unfold save_checkpoint, try_except, write_file, bind, tick.
  destruct (interrupt_in w) as [[|n]|] eqn:Ei; [congruence| |];
    cbn [write_faults set_interrupt_in];
    destruct (write_faults w) as [|[|] wf] eqn:Ew; cbn [hd is_Exception];
    eexists; (split; [reflexivity|]); cbn [trace files log set_files set_write_faults
                                              set_interrupt_in ret snd];
    rewrite ?app_nil_r; split; reflexivity.
Qed.

Lemma no_artifact_events good evs :
  Forall (fetch_event good no_artifact) evs -> final_artifacts evs = [].
Proof.
  intros H. apply final_artifacts_fetch in H.
  destruct (final_artifacts evs) as [|doc l]; [reflexivity|].
  inversion H as [|? ? Hd _]. destruct Hd.
Qed.

Lemma loop_body_executor_raises f w e w1 :
  execute_graphql_with_retry (get_discussions_query (cursor f)) (token f) 3 5 w =
    (Raise e, w1) ->
  loop_body (f, w) = (Raise e, (set_page_count (page_count f + 1) f, w1)).
Proof.
  intros Hrun. unfold loop_body, bind, local, assign, io. cbn [fst snd].
  cbn [cursor token set_page_count]. rewrite Hrun. reflexivity.
Qed.

Lemma loop_body_uses_reply f w s1 :
  loop_body (f, w) = (Return Continue, s1) ->
  (List.length (script (snd s1)) < List.length (script w))%nat.
Proof.
  intros Hrun. pose proof (loop_body_spec f w) as Hspec. unfold wp in Hspec.
  rewrite Hrun in Hspec. cbn [fst snd] in Hspec.
  destruct Hspec as (evs & _ & _ & _ & _ & _ & _ & _ & Hlt & _). exact Hlt.
Qed.

(** The loop gets where [passes] says it gets. *)
Lemma while_passes s s' :
  passes s s' ->
  forall fuel, (List.length (script (snd s)) < fuel)%nat ->
  exists fuel', (List.length (script (snd s')) < fuel')%nat
                /\ while_has_more fuel s = while_has_more fuel' s'.
Proof.
  induction 1 as [s|s s1 s' Hhm Hbody _ IH]; intros fuel Hfuel.
  - exists fuel. split; [exact Hfuel|reflexivity].
  - destruct fuel as [|fuel]; [lia|].
    destruct s as [f w]. cbn [fst snd] in *.
    pose proof (loop_body_uses_reply f w s1 Hbody) as Hlt.
    destruct (IH fuel ltac:(lia)) as (fuel' & Hfuel' & Hrun).
    exists fuel'. split; [exact Hfuel'|].
    cbn [while_has_more]. unfold bind at 1. unfold local at 1. cbn [fst snd].
    rewrite Hhm. unfold bind at 1. rewrite Hbody. exact Hrun.
Qed.

(** A failure of the executor in some pass of the loop ends the [try]
    block. *)
Lemma try_body_executor_raises f w fk wk e w1 :
  passes (f, w) (fk, wk) ->
  Py.truthy (has_more fk) = true ->
  execute_graphql_with_retry (get_discussions_query (cursor fk)) (token fk) 3 5 wk =
    (Raise e, w1) ->
  try_body (f, w) = (Raise e, (set_page_count (page_count fk + 1) fk, w1)).
Proof.
  intros Hpasses Hhm Hrun.
  destruct (while_passes _ _ Hpasses (S (List.length (script w))))
    as (fuel' & Hfuel' & Hloop); [cbn [snd]; lia|].
  unfold try_body. unfold bind at 1. cbn [snd]. rewrite Hloop.
  destruct fuel' as [|fuel']; [lia|].
  cbn [while_has_more]. unfold bind at 1. unfold local at 1. cbn [fst snd].
  rewrite Hhm. unfold bind at 1.
  rewrite (loop_body_executor_raises fk wk e w1 Hrun). reflexivity.
Qed.

(** C4, as the code has it.  When, in whichever pass of the loop, the
    executor raises its failure, the controller does not absorb it: the
    failure ends the [try] block, the handler writes a checkpoint of the
    discussions, the cursor and [has_more] as they stood at the head of that
    pass (when the file can be written), no final artifact is written, and
    the same failure is raised again to the caller. *)
Theorem fetch_failure_checkpointed_and_reraised f w fk wk e w1 ck :
  passes (f, w) (fk, wk) ->
  Py.truthy (has_more fk) = true ->
  execute_graphql_with_retry (get_discussions_query (cursor fk)) (token fk) 3 5 wk =
    (Raise e, w1) ->
  fetch_failure e ->
  checkpoint_of fk = Return ck ->
  interrupt_in w1 <> Some 0%nat ->
  exists w2,
    protected_fetch (f, w) =
      (Raise e, (set_page_count (page_count fk + 1) fk, w2))
    /\ trace w2 = trace w1 ++ (if hd false (write_faults w1) then []
                               else [EvWrite CHECKPOINT_FILE (Text (Some 2%nat) ck)])
    /\ files w2 = (if hd false (write_faults w1) then files w1
                   else update CHECKPOINT_FILE (Some (Text (Some 2%nat) ck)) (files w1))
    /\ exists evs, trace w1 = trace w ++ evs /\ final_artifacts evs = [].
Proof.
  intros Hpasses Hhm Hrun Hff Hck Hi.
  pose proof (try_body_executor_raises f w fk wk e w1 Hpasses Hhm Hrun) as Htry.
  destruct (save_checkpoint_run ck w1 Hi) as (w2 & Hsave & Htr & Hfiles).
  exists w2. split; [|split; [exact Htr|split; [exact Hfiles|]]].
  - unfold protected_fetch, try_except2. rewrite Htry.
    replace (is_KeyboardInterrupt e) with false by (destruct e; simpl in *; tauto).
    replace (is_Exception e) with true by (destruct e; simpl in *; tauto).
    unfold on_exception, bind, local, lift, io, raise. cbn [fst snd id].
    change (checkpoint_of (set_page_count (page_count fk + 1) fk))
      with (checkpoint_of fk).
    rewrite Hck, Hsave. reflexivity.
  - pose proof (try_body_spec f w) as Hspec. unfold wp in Hspec.
    rewrite Htry in Hspec. cbn [fst snd] in Hspec.
    destruct Hspec as (evs & Htr0 & _ & _ & _ & _ & Hno & _).
    exists evs. split; [exact Htr0|].
    eapply no_artifact_events, (Hno e); [reflexivity|exact Hff].
Qed.

Lemma fetch_failure_checkpointed_and_reraised_witness :
  fst (protected_fetch (Sample.start, Sample.fails_on_second_page)) =
    Raise (FetchFailed 3 "reset")
  /\ saved_checkpoints
       (trace (snd (snd (protected_fetch (Sample.start, Sample.fails_on_second_page))))) =
     [JObj [("discussions", JArr [Sample.discussion 1 "first"]);
            ("last_cursor", JStr "C1"); ("has_more", JBool true);
            ("total_count", JNum 1)];
      JObj [("discussions", JArr [Sample.discussion 1 "first"]);
            ("last_cursor", JStr "C1"); ("has_more", JBool true);
            ("total_count", JNum 1)]].
Proof.
  destruct (fetch_failure_checkpointed_and_reraised
              Sample.start Sample.fails_on_second_page
              (fst (snd (loop_body (Sample.start, Sample.fails_on_second_page))))
              (snd (snd (loop_body (Sample.start, Sample.fails_on_second_page))))
              (FetchFailed 3 "reset")
              (snd (execute_graphql_with_retry
                      (DiscussionsQuery (Some (JStr "C1"))) (Some "s3cret") 3 5
                      (snd (snd (loop_body (Sample.start, Sample.fails_on_second_page))))))
              (JObj [("discussions", JArr [Sample.discussion 1 "first"]);
                     ("last_cursor", JStr "C1"); ("has_more", JBool true);
                     ("total_count", JNum 1)]))
    as (w2 & Hrun & Htr & _ & _).
  - apply (passes_more _ (snd (loop_body (Sample.start, Sample.fails_on_second_page))));
      [reflexivity|vm_compute; reflexivity|].
    vm_compute. apply passes_none.
  - vm_compute. reflexivity.
  - vm_compute. reflexivity.
  - exact I.
  - vm_compute. reflexivity.
  - vm_compute. discriminate.
  - rewrite Hrun. cbn [fst snd]. split; [reflexivity|].
    rewrite Htr. vm_compute. reflexivity.
Defined.

(** C4, as stated, fails: when all three attempts of the first page fail,
    the executor's failure comes out of the controller. *)
Lemma fetch_failure_is_propagated :
  ~ fetch_failure_not_propagated Sample.three_failures.
Proof.
  intros H. apply (H (FetchFailed 3 "reset")); [exact I|].
  vm_compute. reflexivity.
Qed.

(** C5, as the code has it.  When Ctrl-C ends the [try] block, the
    controller writes a checkpoint of its variables as they are (when the
    file can be written) and returns the accumulated discussions to its
    caller: the interruption goes no further. *)
Theorem interrupt_checkpointed_and_absorbed f w f' w' ck :
  try_body (f, w) = (Raise KeyboardInterrupt, (f', w')) ->
  checkpoint_of f' = Return ck ->
  exists w'',
    protected_fetch (f, w) = (Return (all_discussions f'), (f', w''))
    /\ trace w'' = trace w' ++ (if hd false (write_faults w') then []
                                else [EvWrite CHECKPOINT_FILE (Text (Some 2%nat) ck)])
    /\ files w'' = (if hd false (write_faults w') then files w'
                    else update CHECKPOINT_FILE (Some (Text (Some 2%nat) ck)) (files w')).
Proof.
  intros Htry Hck.
  assert (Hi : interrupt_in w' <> Some 0%nat).
  { pose proof (try_body_spec f w) as Hspec. unfold wp in Hspec.
    rewrite Htry in Hspec. cbn [fst snd] in Hspec.
    destruct Hspec as (evs & _ & Hki & _). rewrite (Hki eq_refl). discriminate. }
  destruct (save_checkpoint_run ck w' Hi) as (w'' & Hsave & Htr & Hfiles).
  exists w''. split; [|split; assumption].
  unfold protected_fetch, try_except2. rewrite Htry. cbn [is_KeyboardInterrupt].
  unfold on_interrupt, bind, local, lift, io. cbn [fst snd id].
  rewrite Hck, Hsave. reflexivity.
Qed.

Lemma interrupt_checkpointed_and_absorbed_witness :
  fst (protected_fetch (Sample.start, Sample.interrupted_first_request)) =
  Return (JArr []).
Proof.
  destruct (interrupt_checkpointed_and_absorbed
              Sample.start Sample.interrupted_first_request
              (fst (snd (try_body (Sample.start, Sample.interrupted_first_request))))
              (snd (snd (try_body (Sample.start, Sample.interrupted_first_request))))
              (JObj [("discussions", JArr []); ("last_cursor", JNull);
                     ("has_more", JBool true); ("total_count", JNum 0)]))
    as (w'' & Hrun & _).
  - vm_compute. reflexivity.
  - vm_compute. reflexivity.
  - rewrite Hrun. vm_compute. reflexivity.
Defined.

(** C5, as stated, fails: Ctrl-C during the first request does not reach the
    caller, who gets the (empty) list of discussions instead. *)
Lemma interruption_is_absorbed :
  fst (try_body (Sample.start, Sample.interrupted_first_request)) =
    Raise KeyboardInterrupt
  /\ ~ interruption_reaches_caller Sample.interrupted_first_request.
Proof.
  split; [vm_compute; reflexivity|].
  unfold interruption_reaches_caller. vm_compute. discriminate.
Qed.

(* ================================================================== *)
(** * Loading an incomplete checkpoint *)

Lemma load_checkpoint_parsed w indent doc :
  files w CHECKPOINT_FILE = Some (Text indent doc) ->
  interrupt_in w <> Some 0%nat ->
  exists i, load_checkpoint w = (Return doc, set_interrupt_in i w).
Proof.
  intros Hf Hi. destruct w as [sc ck dt tk fs wf i tr].
  cbn [files interrupt_in] in Hf, Hi.
  unfold load_checkpoint, path_exists, try_except, read_json, tick, bind.
  cbn [files interrupt_in set_interrupt_in]. rewrite Hf.
  destruct i as [[|n]|]; [congruence| |];
    cbn [files interrupt_in set_interrupt_in]; rewrite Hf.
  - exists (Some n). reflexivity.
  - exists None. reflexivity.
Qed.

(** C10.  A checkpoint file that parses as a JSON object but lacks one of
    [discussions], [last_cursor], [has_more] is handed on as it is by
    [load_checkpoint]; the run then ends with a [KeyError] for a missing key,
    before any request is sent and without anything being written. *)
Theorem incomplete_checkpoint_is_fatal w indent fields missing :
  files w CHECKPOINT_FILE = Some (Text indent (JObj fields)) ->
  interrupt_in w <> Some 0%nat ->
  In missing ["discussions"; "last_cursor"; "has_more"] ->
  Py.lookup missing fields = None ->
  fst (load_checkpoint w) = Return (JObj fields)
  /\ exists k,
       In k ["discussions"; "last_cursor"; "has_more"]
       /\ Py.lookup k fields = None
       /\ fst (fetch_discussions w) = Raise (KeyError k)
       /\ trace (snd (fetch_discussions w)) = trace w
       /\ script (snd (fetch_discussions w)) = script w
       /\ files (snd (fetch_discussions w)) = files w.
Proof.
  intros Hf Hi Hin Hmiss.
  destruct (load_checkpoint_parsed w indent (JObj fields) Hf Hi) as (i & Hload).
  split; [now rewrite Hload|].
  unfold fetch_discussions, bind, get_github_token, lift. rewrite Hload.
  cbn [Py.getitem].
  destruct (Py.lookup "discussions" fields) as [acc|] eqn:E1.
  2:{ exists "discussions". simpl. auto 10. }
  destruct (Py.lookup "last_cursor" fields) as [cur|] eqn:E2.
  2:{ exists "last_cursor". simpl. auto 10. }
  destruct (Py.lookup "has_more" fields) as [hm|] eqn:E3.
  2:{ exists "has_more". simpl. auto 10. }
  exfalso. simpl in Hin.
  destruct Hin as [<-|[<-|[<-|[]]]]; congruence.
Qed.

Lemma incomplete_checkpoint_is_fatal_witness :
  fst (fetch_discussions Sample.incomplete_checkpoint) = Raise (KeyError "has_more")
  /\ trace (snd (fetch_discussions Sample.incomplete_checkpoint)) = [].
Proof.
  destruct (incomplete_checkpoint_is_fatal Sample.incomplete_checkpoint
              (Some 2%nat) Sample.incomplete_fields "has_more")
    as (_ & k & _ & _ & Hr & Htr & _).
  - reflexivity.
  - discriminate.
  - simpl. auto.
  - reflexivity.
  - split; [vm_compute; reflexivity|exact Htr].
Defined.

(* ================================================================== *)
(** * The two encodings of the artifact *)

Lemma write_file_quiet p c w :
  interrupt_in w = None ->
  write_faults w = [] ->
  write_file p c w =
    (Return tt, log (EvWrite p c) (set_files (update p (Some c) (files w)) w)).
Proof.
  intros Hi Hw. unfold write_file, bind. rewrite (tick_quiet w Hi), Hw. reflexivity.
Qed.

(** C9.  When the two writes succeed, the finalizer leaves two files that
    hold one and the same document: the plain file parses to it, the
    compressed file decompresses to a text that parses to it, and that
    document has the five entries [repository], [category_id],
    [total_count], [fetched_at], [discussions]; the plain text and the
    compressed payload differ in layout only. *)
Theorem finalizer_encodings_agree discussions total w :
  Py.len discussions = Return total ->
  interrupt_in w = None ->
  write_faults w = [] ->
  exists w' plain gz doc,
    save_final_result discussions w = (Return tt, w')
    /\ files w' OUTPUT_FILE = Some plain
    /\ files w' OUTPUT_GZIP_FILE = Some gz
    /\ json_loads plain = Some doc
    /\ option_bind (gunzip gz) json_loads = Some doc
    /\ gunzip gz <> Some plain
    /\ doc = JObj [("repository", JStr "helloamger/JiNan-Company-Rating");
                   ("category_id", JStr CATEGORY_ID);
                   ("total_count", JNum total);
                   ("fetched_at", JStr (datetime_now w));
                   ("discussions", discussions)].
Proof.
  intros Hlen Hi Hw.
  unfold save_final_result, bind, lift. rewrite Hlen.
  rewrite (write_file_quiet _ _ w Hi Hw).
  rewrite write_file_quiet; [|exact Hi|exact Hw].
  unfold getsize. cbn [files log set_files]. unfold update at 1.
  rewrite String.eqb_refl.
  do 4 eexists. split; [reflexivity|].
  cbn [files log set_files]. unfold update.
  repeat split; try reflexivity. discriminate.
Qed.

Lemma finalizer_encodings_agree_witness :
  exists w' plain gz doc,
    save_final_result (JArr [Sample.discussion 1 "first"]) (Sample.fresh []) =
      (Return tt, w')
    /\ files w' OUTPUT_FILE = Some plain
    /\ files w' OUTPUT_GZIP_FILE = Some gz
    /\ json_loads plain = Some doc
    /\ option_bind (gunzip gz) json_loads = Some doc.
Proof.
  destruct (finalizer_encodings_agree (JArr [Sample.discussion 1 "first"]) 1
              (Sample.fresh []))
    as (w' & plain & gz & doc & H1 & H2 & H3 & H4 & H5 & _);
    [reflexivity|reflexivity|reflexivity|].
  exists w', plain, gz, doc. auto.
Defined.

(* ================================================================== *)
(** * A page without its data section *)

(** C1 at its scenario.  Page 1 brings one item and announces a next page;
    page 2 has no [data] section.  The loop stops, and then the finalizer
    runs all the same: both artifact files are written with one discussion
    and the checkpoint of page 1 is removed. *)
Theorem malformed_page_is_finalized :
  fst (fetch_discussions Sample.malformed_second_page) =
    Return (JArr [Sample.discussion 1 "first"])
  /\ saved_checkpoints (trace (snd (fetch_discussions Sample.malformed_second_page))) =
       [JObj [("discussions", JArr [Sample.discussion 1 "first"]);
              ("last_cursor", JStr "C1");
              ("has_more", JBool true);
              ("total_count", JNum 1)]]
  /\ final_artifacts (trace (snd (fetch_discussions Sample.malformed_second_page))) =
       [output_data_of (JArr [Sample.discussion 1 "first"]) 1 "2024-05-02T10:00:00";
        output_data_of (JArr [Sample.discussion 1 "first"]) 1 "2024-05-02T10:00:00"]
  /\ files (snd (fetch_discussions Sample.malformed_second_page)) OUTPUT_FILE =
       Some (Text (Some 2%nat)
               (output_data_of (JArr [Sample.discussion 1 "first"]) 1
                               "2024-05-02T10:00:00"))
  /\ files (snd (fetch_discussions Sample.malformed_second_page)) CHECKPOINT_FILE = None
  /\ last (trace (snd (fetch_discussions Sample.malformed_second_page))) (EvSleep 0) =
       EvRemove CHECKPOINT_FILE.
Proof. vm_compute. repeat split. Qed.

(** The scenario of the specification with two good pages, for
    comparison. *)
Example two_page_fetch :
  fst (fetch_discussions Sample.two_pages) =
    Return (JArr [Sample.discussion 1 "first"; Sample.discussion 2 "second";
                  Sample.discussion 3 "third"])
  /\ page_sizes (trace (snd (fetch_discussions Sample.two_pages))) = [2; 1]
  /\ sleeps (trace (snd (fetch_discussions Sample.two_pages))) = [25]
  /\ files (snd (fetch_discussions Sample.two_pages)) CHECKPOINT_FILE = None.
Proof. vm_compute. repeat split. Qed.

(* ================================================================== *)
(** * More of the executor *)

Lemma attempt_body_budgeted q tok m d attempt w resp error_msg rest :
  interrupt_in w = None ->
  script w = Responds resp :: rest ->
  budgeted_error resp = Some error_msg ->
  0 <= d ->
  attempt_body q tok m d attempt w =
    let w1 := log (EvPost q (bearer tok) (Responds resp)) (set_script rest w) in
    if attempt <? m - 1 then
      (Return Continue, log (EvSleep d) (set_clock (clock w1 + d) w1))
    else (Raise (GraphQLFailed error_msg), w1).
Proof.
  intros Hi Hs Hb Hd. unfold attempt_body, try_except, bind.
  rewrite (requests_post_quiet q (bearer tok) w _ rest Hi Hs).
  unfold budgeted_error, obind in Hb. unfold lift at 1.
  destruct (Py.contains "errors" (body resp)) as [[|]|]; try discriminate.
  unfold lift at 1.
  destruct (Py.getitem (body resp) "errors") as [errors|]; try discriminate.
  unfold lift at 1.
  destruct (Py.getitem0 errors) as [first|]; try discriminate.
  unfold lift at 1.
  destruct (Py.get first "message" (JStr "Unknown GraphQL error")) as [msg|];
    try discriminate.
  unfold lift at 1.
  destruct (Py.str_lower msg) as [lowered|]; try discriminate.
  assert (Hbudget :
    retry_or_give_up m d attempt msg
      (log (EvPost q (bearer tok) (Responds resp)) (set_script rest w)) =
    if attempt <? m - 1 then
      (Return Continue,
       log (EvSleep d)
         (set_clock (clock (log (EvPost q (bearer tok) (Responds resp))
                              (set_script rest w)) + d)
            (log (EvPost q (bearer tok) (Responds resp)) (set_script rest w))))
    else (Raise (GraphQLFailed msg),
          log (EvPost q (bearer tok) (Responds resp)) (set_script rest w))).
  { unfold retry_or_give_up. destruct (attempt <? m - 1); [|reflexivity].
    unfold bind. rewrite sleep_quiet; [reflexivity|exact Hd|exact Hi]. }
  destruct (Py.substring_of "rate limit" lowered).
  - unfold lift at 1.
    destruct (rate_limit_reset resp) as [|n|]; try discriminate; simpl reset_time_of;
      cbv beta iota.
    + inversion Hb; subst. change (negb (0 =? 0)) with false. cbv iota.
      rewrite Hbudget. cbv zeta. now destruct (attempt <? m - 1).
    + destruct (n =? 0) eqn:En; try discriminate. inversion Hb; subst.
      change (negb true) with false. cbv iota.
      rewrite Hbudget. cbv zeta. now destruct (attempt <? m - 1).
  - inversion Hb; subst. rewrite Hbudget. cbv zeta. now destruct (attempt <? m - 1).
Qed.

(** One attempt that meets a retryable reply. *)
Lemma attempt_body_retryable q tok m d attempt w r rest :
  interrupt_in w = None ->
  script w = r :: rest ->
  retryable r = true ->
  0 <= d -> 0 <= attempt ->
  attempt_body q tok m d attempt w =
    let w1 := log (EvPost q (bearer tok) r) (set_script rest w) in
    if attempt <? m - 1 then
      (Return Continue,
       log (EvSleep (backoff d attempt r))
           (set_clock (clock w1 + backoff d attempt r) w1))
    else (Raise (final_error m r), w1).
Proof.
  intros Hi Hs Hr Hd Ha. destruct r as [c|resp].
  - apply attempt_body_transport_failure; auto. nia.
  - simpl in Hr. destruct (budgeted_error resp) as [msg|] eqn:Hb; [|discriminate].
    unfold final_error. rewrite Hb. simpl backoff.
    now apply attempt_body_budgeted.
Qed.

Lemma attempts_retry q tok m d fails : forall a n w rest,
  interrupt_in w = None ->
  0 <= d ->
  forallb retryable fails = true ->
  script w = fails ++ rest ->
  Z.of_nat (a + List.length fails) < m ->
  exists w',
    attempts_loop q tok m d (map Z.of_nat (seq a (List.length fails + n))) w =
    attempts_loop q tok m d (map Z.of_nat (seq (a + List.length fails) n)) w'
    /\ interrupt_in w' = None
    /\ script w' = rest
    /\ files w' = files w
    /\ trace w' = trace w ++ retried_attempts q (bearer tok) d (Z.of_nat a) fails.
Proof.
  induction fails as [|r fails IH]; intros a n w rest Hi Hd Hall Hs Hm.
  - exists w. simpl. rewrite Nat.add_0_r, app_nil_r. auto.
  - simpl in Hall. apply andb_prop in Hall. destruct Hall as [Hr Hall].
    cbn [List.length Nat.add seq map attempts_loop]. unfold bind at 1.
    rewrite (attempt_body_retryable q tok m d (Z.of_nat a) w r (fails ++ rest)
               Hi Hs Hr Hd ltac:(lia)).
    cbv zeta.
    replace (Z.of_nat a <? m - 1) with true
      by (symmetry; apply Z.ltb_lt; simpl in Hm; lia).
    cbv iota.
    edestruct (IH (S a) n) as (w' & Hrun & Hi' & Hsc & Hfl & Htr);
      [ | exact Hd | exact Hall | | | ].
    4:{ exists w'. split; [rewrite Hrun; f_equal; f_equal; f_equal; lia|].
        split; [exact Hi'|]. split; [exact Hsc|]. split; [exact Hfl|].
        rewrite Htr. cbn [trace log set_clock set_script retried_attempts].
        replace (Z.of_nat (S a)) with (Z.of_nat a + 1) by lia.
        rewrite <- !app_assoc. reflexivity. }
    + exact Hi.
    + reflexivity.
    + simpl List.length in Hm. lia.
Qed.

Lemma attempt_body_success q tok m d attempt w resp rest :
  interrupt_in w = None ->
  script w = Responds resp :: rest ->
  Py.contains "errors" (body resp) = Return false ->
  attempt_body q tok m d attempt w =
    (Return (ReturnWith (body resp)),
     log (EvPost q (bearer tok) (Responds resp)) (set_script rest w)).
Proof.
  intros Hi Hs Hc. unfold attempt_body, try_except, bind.
  rewrite (requests_post_quiet q (bearer tok) w _ rest Hi Hs).
  unfold lift at 1. rewrite Hc. reflexivity.
Qed.

(** After fewer than [max_retries] retryable replies (transport failures, or
    GraphQL errors that are no rate-limit wait) a reply without [errors] is
    handed back unchanged; before it the executor paused [retry_delay * k]
    after the [k]-th attempt when that one met a transport failure and
    [retry_delay] when it met a GraphQL error. *)
Theorem retries_then_success q tok m d w fails resp rest :
  interrupt_in w = None ->
  0 <= d ->
  forallb retryable fails = true ->
  Z.of_nat (List.length fails) < m ->
  script w = fails ++ Responds resp :: rest ->
  Py.contains "errors" (body resp) = Return false ->
  exists w',
    execute_graphql_with_retry q tok m d w = (Return (body resp), w')
    /\ script w' = rest
    /\ trace w' = trace w ++ retried_attempts q (bearer tok) d 0 fails
                          ++ [EvPost q (bearer tok) (Responds resp)].
Proof.
  intros Hi Hd Hall Hlt Hs Hc.
  remember (Z.to_nat m - List.length fails)%nat as n eqn:En.
  destruct (attempts_retry q tok m d fails 0%nat n w (Responds resp :: rest)
              Hi Hd Hall Hs ltac:(simpl; lia))
    as (w1 & Hrun & Hi1 & Hs1 & _ & Htr1).
  unfold execute_graphql_with_retry. rewrite range_seq.
  replace (Z.to_nat m) with (List.length fails + n)%nat by lia.
  rewrite Hrun.
  destruct n as [|n]; [lia|].
  cbn [seq map attempts_loop]. unfold bind at 1.
  rewrite (attempt_body_success q tok m d _ w1 resp rest Hi1 Hs1 Hc).
  eexists. split; [reflexivity|]. split; [reflexivity|].
  cbn [trace log set_script]. rewrite Htr1, <- app_assoc. reflexivity.
Qed.

Lemma retries_then_success_witness :
  exists w',
    execute_graphql_with_retry Sample.first_query None 3 5
      (Sample.fresh [ReqFails "timeout"; MoreSamples.forbidden;
                     Responds MoreSamples.good_page]) =
      (Return (body MoreSamples.good_page), w')
    /\ sleeps (trace w') = [5; 5].
Proof.
  destruct (retries_then_success Sample.first_query None 3 5
              (Sample.fresh [ReqFails "timeout"; MoreSamples.forbidden;
                             Responds MoreSamples.good_page])
              [ReqFails "timeout"; MoreSamples.forbidden]
              MoreSamples.good_page [])
    as (w' & Hrun & _ & Htr);
    [reflexivity|lia|reflexivity|simpl; lia|reflexivity|reflexivity|].
  exists w'. split; [exact Hrun|]. rewrite Htr. reflexivity.
Defined.

(** When every one of the [max_retries] attempts meets a retryable reply,
    the executor pauses after each attempt but the last ([retry_delay] after
    a GraphQL error, [retry_delay * k] after a transport failure in attempt
    [k]) and then raises for the last reply: the GraphQL failure with the
    first error's message, or the request failure with its cause. *)
Theorem retries_exhausted q tok m d w init last_reply rest :
  interrupt_in w = None ->
  0 <= d ->
  forallb retryable (init ++ [last_reply]) = true ->
  Z.of_nat (List.length init) + 1 = m ->
  script w = init ++ last_reply :: rest ->
  exists w',
    execute_graphql_with_retry q tok m d w = (Raise (final_error m last_reply), w')
    /\ script w' = rest
    /\ trace w' = trace w ++ retried_attempts q (bearer tok) d 0 init
                          ++ [EvPost q (bearer tok) last_reply].
Proof.
  intros Hi Hd Hall Hm Hs.
  rewrite forallb_app in Hall. apply andb_prop in Hall. destruct Hall as [Hinit Hlast].
  simpl in Hlast. rewrite andb_true_r in Hlast.
  destruct (attempts_retry q tok m d init 0%nat 1%nat w (last_reply :: rest)
              Hi Hd Hinit Hs ltac:(simpl; lia))
    as (w1 & Hrun & Hi1 & Hs1 & _ & Htr1).
  unfold execute_graphql_with_retry. rewrite range_seq.
  replace (Z.to_nat m) with (List.length init + 1)%nat by lia.
  rewrite Hrun. cbn [seq map attempts_loop]. unfold bind at 1.
  rewrite (attempt_body_retryable q tok m d (Z.of_nat (0 + List.length init)) w1
             last_reply rest Hi1 Hs1 Hlast Hd ltac:(lia)).
  cbv zeta.
  replace (Z.of_nat (0 + List.length init) <? m - 1) with false
    by (symmetry; apply Z.ltb_ge; lia).
  eexists. split; [reflexivity|]. split; [reflexivity|].
  cbn [trace log set_script]. rewrite Htr1, <- app_assoc. reflexivity.
Qed.

Lemma retries_exhausted_witness :
  exists w',
    execute_graphql_with_retry Sample.first_query None 3 5
      (Sample.fresh [MoreSamples.forbidden; MoreSamples.rate_limit_without_reset;
                     MoreSamples.forbidden]) =
      (Raise (GraphQLFailed (JStr "Resource not accessible")), w')
    /\ sleeps (trace w') = [5; 5].
Proof.
  destruct (retries_exhausted Sample.first_query None 3 5
              (Sample.fresh [MoreSamples.forbidden;
                             MoreSamples.rate_limit_without_reset;
                             MoreSamples.forbidden])
              [MoreSamples.forbidden; MoreSamples.rate_limit_without_reset]
              MoreSamples.forbidden [])
    as (w' & Hrun & _ & Htr);
    [reflexivity|lia|reflexivity|reflexivity|reflexivity|].
  exists w'. split; [exact Hrun|]. rewrite Htr. reflexivity.
Defined.

(** When looking into the [errors] entry raises (an empty list, a message
    that is no string, ...), the exception leaves the executor at once:
    one request, no pause, no further attempt. *)
Theorem malformed_errors_not_retried q tok m d w resp rest e :
  interrupt_in w = None ->
  1 <= m ->
  script w = Responds resp :: rest ->
  Py.contains "errors" (body resp) = Return true ->
  inspect_errors (body resp) = Raise e ->
  execute_graphql_with_retry q tok m d w =
    (Raise e, log (EvPost q (bearer tok) (Responds resp)) (set_script rest w)).
Proof.
  intros Hi Hm Hs Hc He.
  assert (Hpy : py_error e).
  { unfold inspect_errors in He.
    repeat (eapply obind_raises in He;
            [exact He | eauto with py_raises | clear He; intros ? ? He]).
    eauto with py_raises. }
  unfold execute_graphql_with_retry. rewrite range_seq.
  destruct (Z.to_nat m) as [|n] eqn:En; [lia|].
  cbn [seq map attempts_loop]. unfold bind at 1.
  unfold attempt_body, try_except, bind.
  rewrite (requests_post_quiet q (bearer tok) w _ rest Hi Hs).
  unfold lift at 1. rewrite Hc.
  unfold inspect_errors, obind in He. unfold lift at 1.
  destruct (Py.getitem (body resp) "errors") as [errors|e1].
  2:{ inversion He; subst. now rewrite (py_error_not_request e Hpy). }
  unfold lift at 1.
  destruct (Py.getitem0 errors) as [first|e1].
  2:{ inversion He; subst. now rewrite (py_error_not_request e Hpy). }
  unfold lift at 1.
  destruct (Py.get first "message" (JStr "Unknown GraphQL error")) as [msg|e1].
  2:{ inversion He; subst. now rewrite (py_error_not_request e Hpy). }
  unfold lift at 1. rewrite He. now rewrite (py_error_not_request e Hpy).
Qed.

Lemma malformed_errors_not_retried_witness :
  fst (execute_graphql_with_retry Sample.first_query None 3 5
         (Sample.fresh [Responds MoreSamples.empty_errors;
                        Responds MoreSamples.good_page])) = Raise IndexError.
Proof.
  rewrite (malformed_errors_not_retried Sample.first_query None 3 5
             (Sample.fresh [Responds MoreSamples.empty_errors;
                            Responds MoreSamples.good_page])
             MoreSamples.empty_errors [Responds MoreSamples.good_page] IndexError);
    [reflexivity|reflexivity|lia|reflexivity|reflexivity|reflexivity].
Defined.

Lemma attempt_body_footprint q tok m d attempt w :
  wp (attempt_body q tok m d attempt) (fun r w' =>
    exists evs, trace w' = trace w ++ evs
      /\ Forall (request_event q (bearer tok)) evs
      /\ (List.length (posts evs) <= 1)%nat
      /\ files w' = files w
      /\ write_faults w' = write_faults w) w.
Proof.
  unfold attempt_body, retry_or_give_up.
  apply wp_try_except, wp_bind, wp_requests_post; [intros i|].
  2:{ simpl. exists []. rewrite app_nil_r. repeat split; auto. }
  unfold next_reply.
  destruct (script w) as [|[c|resp] rest] eqn:Hs; cbn [fst snd is_RequestException].
  all: repeat wp_step.
  all: eexists; split; [trace_eq|].
  all: split; [repeat (apply Forall_cons; [simpl; auto|]); apply Forall_nil|].
  all: split; [simpl; lia|]. all: split; reflexivity.
Qed.

Lemma attempts_loop_footprint q tok m d attempts : forall w,
  wp (attempts_loop q tok m d attempts) (fun r w' =>
    exists evs, trace w' = trace w ++ evs
      /\ Forall (request_event q (bearer tok)) evs
      /\ (List.length (posts evs) <= List.length attempts)%nat
      /\ files w' = files w
      /\ write_faults w' = write_faults w) w.
Proof.
  induction attempts as [|attempt attempts IH]; intros w; cbn [attempts_loop].
  - apply wp_ret. exists []. rewrite app_nil_r. repeat split; auto.
  - apply wp_bind. eapply wp_mono; [apply attempt_body_footprint|].
    intros r w1 (evs1 & Htr1 & Hev1 & Hn1 & Hf1 & Hw1).
    assert (Hstop : exists evs, trace w1 = trace w ++ evs
      /\ Forall (request_event q (bearer tok)) evs
      /\ (List.length (posts evs) <= List.length (attempt :: attempts))%nat
      /\ files w1 = files w /\ write_faults w1 = write_faults w).
    { exists evs1. repeat split; auto. simpl. lia. }
    assert (Hgo : wp (attempts_loop q tok m d attempts) (fun r w' =>
      exists evs, trace w' = trace w ++ evs
        /\ Forall (request_event q (bearer tok)) evs
        /\ (List.length (posts evs) <= List.length (attempt :: attempts))%nat
        /\ files w' = files w /\ write_faults w' = write_faults w) w1).
    { eapply wp_mono; [apply IH|].
      intros r2 w2 (evs2 & Htr2 & Hev2 & Hn2 & Hf2 & Hw2).
      exists (evs1 ++ evs2). split; [now rewrite Htr2, Htr1, app_assoc|].
      split; [apply Forall_app; auto|].
      rewrite posts_app, length_app. simpl. split; [lia|]. split; congruence. }
    destruct r as [[| |data]|e]; first [exact Hgo | exact Hstop].
Qed.

(** For every input the executor sends at most [max_retries] requests, all
    of them for the query and credential it was given; apart from requests
    and pauses it does nothing: no file is touched. *)
Theorem executor_footprint q tok m d w :
  wp (execute_graphql_with_retry q tok m d) (fun r w' =>
    exists evs, trace w' = trace w ++ evs
      /\ Forall (request_event q (bearer tok)) evs
      /\ (List.length (posts evs) <= Z.to_nat m)%nat
      /\ files w' = files w) w.
Proof.
  unfold execute_graphql_with_retry.
  eapply wp_mono; [apply attempts_loop_footprint|].
  intros r w' (evs & Htr & Hev & Hn & Hf & _).
  exists evs. repeat split; auto.
  unfold range in Hn. now rewrite length_map, length_seq in Hn.
Qed.

(* ================================================================== *)
(** * More of the checkpoint store *)

Lemma update_other p q c fs : p <> q -> update q c fs p = fs p.
Proof.
  intros H. unfold update. destruct (String.eqb p q) eqn:E; [|reflexivity].
  apply String.eqb_eq in E. contradiction.
Qed.

Lemma update_same p c fs : update p c fs p = c.
Proof. unfold update. now rewrite String.eqb_refl. Qed.

(** Loading never fails on the file's content: it yields the parsed
    document when the file holds JSON text and the default checkpoint when
    the file is absent or does not parse; only Ctrl-C while reading can leave
    it.  It changes no file and sends nothing. *)
Theorem load_checkpoint_is_safe w :
  wp load_checkpoint (fun r w' =>
    trace w' = trace w /\ files w' = files w /\ script w' = script w /\
    match r with
    | Return ck =>
        match files w CHECKPOINT_FILE with
        | Some (Text _ doc) => ck = doc
        | _ => ck = default_checkpoint
        end
    | Raise e => e = KeyboardInterrupt /\ files w CHECKPOINT_FILE <> None
    end) w.
Proof.
  unfold load_checkpoint. do 2 wp_step.
  destruct (files w CHECKPOINT_FILE) as [c|] eqn:Hc.
  - apply wp_try_except, wp_read_json; [intros i|].
    + rewrite Hc. destruct c; cbn [is_Exception]; try apply wp_ret;
        simpl; rewrite ?Hc; repeat split; auto.
    + simpl. repeat split; auto. discriminate.
  - wp_step. repeat split; auto.
Qed.



(** A checkpoint that was saved is the checkpoint that is loaded. *)
Theorem save_then_load ck w :
  interrupt_in w = None ->
  hd false (write_faults w) = false ->
  exists w1 w2,
    save_checkpoint ck w = (Return tt, w1)
    /\ load_checkpoint w1 = (Return ck, w2)
    /\ trace w2 = trace w ++ [EvWrite CHECKPOINT_FILE (Text (Some 2%nat) ck)].
Proof.
  intros Hi Hw. destruct w as [sc ck0 dt tk fs wf i tr].
  cbn [interrupt_in write_faults] in Hi, Hw. subst i.
  unfold save_checkpoint, try_except, write_file, bind, tick.
  cbn [interrupt_in write_faults].
  destruct wf as [|[|] wf]; [|discriminate|];
    do 2 eexists; (split; [reflexivity|]);
    unfold load_checkpoint, path_exists, try_except, read_json, tick, bind;
    cbn [files interrupt_in log set_files set_write_faults];
    rewrite update_same; cbn [files interrupt_in log set_files set_write_faults];
    rewrite update_same; split; reflexivity.
Qed.

Lemma save_then_load_witness :
  exists w1 w2,
    save_checkpoint default_checkpoint (Sample.fresh []) = (Return tt, w1)
    /\ load_checkpoint w1 = (Return default_checkpoint, w2)
    /\ trace w2 = trace (Sample.fresh [])
                  ++ [EvWrite CHECKPOINT_FILE (Text (Some 2%nat) default_checkpoint)].
Proof.
  apply (save_then_load default_checkpoint (Sample.fresh [])); reflexivity.
Defined.

(* ================================================================== *)
(** * More of the finalizer *)

Lemma save_final_result_order d w :
  wp (save_final_result d) (fun r w' =>
    exists evs, trace w' = trace w ++ evs
      /\ (forall p, p <> OUTPUT_FILE -> p <> OUTPUT_GZIP_FILE -> files w' p = files w p)
      /\ match r with
         | Return _ =>
             exists n, Py.len d = Return n
               /\ evs = [EvWrite OUTPUT_FILE
                           (Text (Some 2%nat) (output_data_of d n (datetime_now w)));
                         EvWrite OUTPUT_GZIP_FILE
                           (Gzip 9 (Text None (output_data_of d n (datetime_now w))))]
         | Raise e =>
             evs = []
             \/ exists n, Py.len d = Return n
                  /\ evs = [EvWrite OUTPUT_FILE
                              (Text (Some 2%nat) (output_data_of d n (datetime_now w)))]
         end) w.
Proof.
  unfold save_final_result.
  repeat first [wp_step | apply wp_datetime_now; cbn beta iota].
  all: try (apply wp_fun; unfold getsize;
            cbn [files log set_files set_write_faults set_interrupt_in];
            rewrite update_same; cbn [fst snd]).
  all: eexists; split; [trace_eq|].
  all: split;
    [ intros p Hp1 Hp2; cbn [files log set_files set_write_faults set_interrupt_in];
      rewrite ?update_other by assumption; reflexivity | ].
  all: first [ left; reflexivity
             | right; eexists; split; reflexivity
             | eexists; split; reflexivity ].
Qed.



(* ================================================================== *)
(** * More of the controller *)

Lemma wp_conj {S A} (m : M S A) (Q1 Q2 : outcome A -> S -> Prop) s :
  wp m Q1 s -> wp m Q2 s -> wp m (fun r s' => Q1 r s' /\ Q2 r s') s.
Proof. unfold wp. auto. Qed.

Lemma grows_refl a : grows a a.
Proof. now left. Qed.

Lemma grows_trans a b c : grows a b -> grows b c -> grows a c.
Proof.
  intros [->|(old & new & -> & ->)] H; [exact H|].
  destruct H as [->|(old2 & new2 & Ho & ->)].
  - right. eauto.
  - inversion Ho; subst. right. exists old, (new ++ new2). now rewrite app_assoc.
Qed.

Lemma extends_from_mono a b doc : grows a b -> extends_from b doc -> extends_from a doc.
Proof. intros H (d & Hd & Hg). exists d. eauto using grows_trans. Qed.

Lemma loop_event_mono (P P' : json -> Prop) ev :
  (forall doc, P doc -> P' doc) -> loop_event P ev -> loop_event P' ev.
Proof.
  intros H. destruct ev; simpl; auto.
  intros (-> & doc & -> & Hd). eauto.
Qed.

Lemma request_loop_event q au P ev : request_event q au ev -> loop_event P ev.
Proof. destruct ev; simpl; tauto. Qed.

Lemma checkpoint_of_extends f ck base :
  checkpoint_of f = Return ck -> grows base (all_discussions f) -> extends_from base ck.
Proof.
  unfold checkpoint_of. destruct (Py.len (all_discussions f)); simpl;
    intros H Hg; inversion H; subst.
  exists (all_discussions f). split; [reflexivity|exact Hg].
Qed.

Lemma execute_requests q tok m d w :
  wp (execute_graphql_with_retry q tok m d) (fun r w' =>
    exists evs, trace w' = trace w ++ evs
      /\ Forall (request_event q (bearer tok)) evs
      /\ files w' = files w
      /\ (forall data, r = Return data -> Py.truthy data = true ->
            exists pre resp, posts evs = pre ++ [Responds resp] /\ data = body resp)) w.
Proof.
  unfold execute_graphql_with_retry.
  eapply wp_mono;
    [apply wp_conj;
       [apply attempts_loop_footprint
       |rewrite range_seq;
        apply (attempts_loop_cases q tok m d (Z.to_nat m) 0 w); lia]|].
  intros r w' [(evs & Htr & Hev & _ & Hf & _) (evs' & Htr' & _ & _ & _ & Hr)].
  rewrite Htr in Htr'. apply app_inv_head in Htr'. subst evs'.
  exists evs. repeat split; auto.
  intros data -> Ht.
  destruct Hr as [(pre & resp & Hp & Hd & _)|(-> & _)]; [eauto|discriminate].
Qed.

Ltac extends_write Hgrow :=
  simpl; split; [reflexivity|]; eexists; split; [reflexivity|];
  match goal with
  | H : checkpoint_of _ = Return _ |- _ =>
      apply (checkpoint_of_extends _ _ _ H); simpl; exact Hgrow
  end.

(** Whichever way one pass through the loop body ends: its events are
    requests, pauses, a progress line and a write of the checkpoint file
    whose discussions extend those at the start of the pass. *)
Lemma loop_body_events f w :
  wp loop_body (fun r s' =>
    exists evs, trace (snd s') = trace w ++ evs
      /\ Forall (loop_event (extends_from (all_discussions f))) evs
      /\ grows (all_discussions f) (all_discussions (fst s'))
      /\ (forall p, p <> CHECKPOINT_FILE -> files (snd s') p = files w p)) (f, w).
Proof.
  unfold loop_body, save_checkpoint.
  do 8 wp_step.
  apply wp_bind, wp_io. cbn [fst snd].
  eapply wp_mono; [apply execute_requests|].
  intros r w1 (evs1 & Htr1 & Hev1 & Hf1 & _).
  assert (Hev1' : Forall (loop_event (extends_from (all_discussions f))) evs1).
  { eapply Forall_impl; [|exact Hev1]. intros ev. apply request_loop_event. }
  destruct r as [data|e]; cbn [fst snd].
  2:{ exists evs1. repeat split; auto using grows_refl. intros; now rewrite Hf1. }
  repeat wp_step.
  all: try lia.
  all: try match goal with
       | H : Py.extend _ ?l = Return _ |- _ =>
           let old := fresh "old" in
           let Hold := fresh "Hold" in
           destruct (extend_inv _ _ _ H) as (old & Hold & ->);
           simpl in Hold;
           assert (Hgrow : grows (all_discussions f) (JArr (old ++ l)))
             by (right; eauto)
       end.
  all: eexists; split; [trace_from Htr1|].
  all: split;
    [ simpl app; repeat (apply Forall_app; split); try exact Hev1';
      repeat (apply Forall_cons; [first [exact I | extends_write Hgrow]|]);
      try apply Forall_nil
    | ].
  all: split; [simpl; first [apply grows_refl | exact Hgrow]|].
  all: intros p Hp;
       cbn [files log set_files set_clock set_interrupt_in set_write_faults];
       rewrite ?update_other by exact Hp;
       cbn [files log set_files set_clock set_interrupt_in set_write_faults];
       now rewrite Hf1.
Qed.

Lemma while_events fuel : forall f w,
  wp (while_has_more fuel) (fun r s' =>
    exists evs, trace (snd s') = trace w ++ evs
      /\ Forall (loop_event (extends_from (all_discussions f))) evs
      /\ grows (all_discussions f) (all_discussions (fst s'))
      /\ (forall p, p <> CHECKPOINT_FILE -> files (snd s') p = files w p)) (f, w).
Proof.
  induction fuel as [|fuel IH]; intros f w; cbn [while_has_more].
  - wp_step. exists []. rewrite app_nil_r. repeat split; auto using grows_refl.
  - do 2 wp_step. destruct (Py.truthy (has_more f)).
    2:{ wp_step. exists []. rewrite app_nil_r. repeat split; auto using grows_refl. }
    apply wp_bind. eapply wp_mono; [apply loop_body_events|].
    intros r [f1 w1] (evs1 & Htr1 & Hev1 & Hg1 & Hf1). cbn [fst snd] in *.
    assert (Hstop : exists evs, trace w1 = trace w ++ evs
      /\ Forall (loop_event (extends_from (all_discussions f))) evs
      /\ grows (all_discussions f) (all_discussions f1)
      /\ (forall p, p <> CHECKPOINT_FILE -> files w1 p = files w p)) by eauto.
    assert (Hgo : wp (while_has_more fuel) (fun r s' =>
      exists evs, trace (snd s') = trace w ++ evs
        /\ Forall (loop_event (extends_from (all_discussions f))) evs
        /\ grows (all_discussions f) (all_discussions (fst s'))
        /\ (forall p, p <> CHECKPOINT_FILE -> files (snd s') p = files w p)) (f1, w1)).
    { eapply wp_mono; [apply IH|].
      intros r2 [f2 w2] (evs2 & Htr2 & Hev2 & Hg2 & Hf2). cbn [fst snd] in *.
      exists (evs1 ++ evs2). split; [now rewrite Htr2, Htr1, app_assoc|].
      split; [apply Forall_app; split; [exact Hev1|]|].
      - eapply Forall_impl; [|exact Hev2]. intros ev. apply loop_event_mono.
        intros doc. now apply extends_from_mono.
      - split; [eauto using grows_trans|]. intros p Hp. rewrite Hf2, Hf1; auto. }
    destruct r as [[| |x]|e]; first [exact Hgo | exact Hstop].
Qed.

Lemma wp_self {S A} (g : S -> M S A) (Q : outcome A -> S -> Prop) s :
  wp (g s) Q s -> wp (fun s0 => g s0 s0) Q s.
Proof. auto. Qed.

Lemma removals_app a b : removals (a ++ b) = removals a ++ removals b.
Proof. unfold removals. now rewrite flat_map_app. Qed.

Lemma removals_loop P evs : Forall (loop_event P) evs -> removals evs = [].
Proof.
  induction 1 as [|ev evs Hev _ IH]; [reflexivity|].
  destruct ev; simpl in *; try contradiction; exact IH.
Qed.

Lemma final_artifacts_loop P evs : Forall (loop_event P) evs -> final_artifacts evs = [].
Proof.
  induction 1 as [|ev evs Hev _ IH]; [reflexivity|].
  change (ev :: evs) with ([ev] ++ evs). rewrite final_artifacts_app, IH, app_nil_r.
  destruct ev as [| |p c| |]; try reflexivity.
  destruct Hev as (-> & doc & -> & _). reflexivity.
Qed.

Lemma posts_finalizer evs doc :
  evs = [] \/ evs = [EvWrite OUTPUT_FILE (Text (Some 2%nat) doc)]
  \/ evs = artifact_writes doc
  \/ evs = artifact_writes doc ++ [EvRemove CHECKPOINT_FILE] ->
  posts evs = [] /\ sleeps evs = [] /\ page_sizes evs = [] /\ saved_checkpoints evs = [].
Proof. intros [-> | [-> | [-> | ->]]]; repeat split; reflexivity. Qed.

(** The [try] block, step by step: the events of the loop, then those of
    the finalizer and of the clean-up, which come in one order only. *)
Lemma try_body_order f w :
  wp try_body (fun r s' =>
    exists evs_loop evs_end doc,
      trace (snd s') = trace w ++ evs_loop ++ evs_end
      /\ Forall (loop_event (extends_from (all_discussions f))) evs_loop
      /\ grows (all_discussions f) (all_discussions (fst s'))
      /\ match r with
         | Return v =>
             v = all_discussions (fst s')
             /\ (evs_end = artifact_writes doc
                 \/ evs_end = artifact_writes doc ++ [EvRemove CHECKPOINT_FILE])
             /\ files (snd s') CHECKPOINT_FILE = None
         | Raise _ =>
             evs_end = []
             \/ evs_end = [EvWrite OUTPUT_FILE (Text (Some 2%nat) doc)]
             \/ evs_end = artifact_writes doc
         end) (f, w).
Proof.
  unfold try_body. apply wp_bind.
  apply (wp_self (fun s => while_has_more (S (List.length (script (snd s)))))).
  eapply wp_mono; [apply while_events|].
  intros r [f1 w1] (evs1 & Htr1 & Hev1 & Hg1 & Hf1). cbn [fst snd] in *.
  destruct r as [[]|e].
  2:{ exists evs1, [], JNull. rewrite app_nil_r. auto. }
  do 2 wp_step. apply wp_bind, wp_io. cbn [fst snd].
  eapply wp_mono; [apply save_final_result_order|].
  intros r w2 (evs2 & Htr2 & Hf2 & Hr2).
  assert (Hck : files w2 CHECKPOINT_FILE = files w1 CHECKPOINT_FILE)
    by (apply Hf2; discriminate).
  destruct r as [[]|e].
  2:{ destruct Hr2 as [->|(n & _ & ->)].
      - exists evs1, [], JNull.
        split; [rewrite Htr2, Htr1, <- app_assoc; reflexivity|]. auto.
      - eexists evs1, _, _.
        split; [rewrite Htr2, Htr1, <- app_assoc; reflexivity|].
        split; [exact Hev1|]. split; [exact Hg1|]. right; left. reflexivity. }
  destruct Hr2 as (n & Hn & ->).
  do 3 wp_step.
  destruct (files w2 CHECKPOINT_FILE) eqn:Hc2.
  - repeat wp_step.
    all: eexists evs1, _, _;
         (split; [cbn [fst snd]; simpl trace; rewrite Htr2, Htr1, <- !app_assoc;
                  reflexivity|]);
         (split; [exact Hev1|]); (split; [exact Hg1|]).
    + split; [reflexivity|]. split; [right; reflexivity|].
      cbn [files log set_files set_interrupt_in]. apply update_same.
    + right; right. reflexivity.
    + right; right. reflexivity.
  - repeat wp_step.
    eexists evs1, _, _.
    split; [cbn [fst snd]; rewrite Htr2, Htr1, <- !app_assoc; reflexivity|].
    split; [exact Hev1|]. split; [exact Hg1|].
    split; [reflexivity|]. split; [left; reflexivity|]. exact Hc2.
Qed.

Lemma on_interrupt_events e f1 w1 :
  wp (on_interrupt e) (fun r s' =>
    fst s' = f1 /\
    exists evs, trace (snd s') = trace w1 ++ evs
      /\ (evs = [] \/
          exists ck, checkpoint_of f1 = Return ck
                     /\ evs = [EvWrite CHECKPOINT_FILE (Text (Some 2%nat) ck)])
      /\ (forall v, r = Return v -> v = all_discussions f1)) (f1, w1).
Proof.
  unfold on_interrupt, save_checkpoint. repeat wp_step.
  all: split; [reflexivity|].
  all: eexists; split; [trace_eq|].
  all: split; [first [left; reflexivity | right; eexists; split; reflexivity]|].
  all: intros v Hv; now inversion Hv.
Qed.

Lemma on_exception_events e f1 w1 :
  wp (on_exception e) (fun r s' =>
    fst s' = f1 /\
    exists evs, trace (snd s') = trace w1 ++ evs
      /\ (evs = [] \/
          exists ck, checkpoint_of f1 = Return ck
                     /\ evs = [EvWrite CHECKPOINT_FILE (Text (Some 2%nat) ck)])
      /\ (forall v, r = Return v -> False)) (f1, w1).
Proof.
  unfold on_exception, save_checkpoint. repeat wp_step.
  all: split; [reflexivity|].
  all: eexists; split; [trace_eq|].
  all: split; [first [left; reflexivity | right; eexists; split; reflexivity]|].
  all: intros v Hv; discriminate Hv.
Qed.

Lemma removals_end doc :
  removals (artifact_writes doc) = []
  /\ removals [EvWrite OUTPUT_FILE (Text (Some 2%nat) doc)] = [].
Proof. split; reflexivity. Qed.

Lemma saved_checkpoints_loop P evs :
  Forall (loop_event P) evs -> Forall P (saved_checkpoints evs).
Proof.
  induction 1 as [|ev evs Hev _ IH]; [constructor|].
  change (ev :: evs) with ([ev] ++ evs). rewrite saved_checkpoints_app.
  apply Forall_app; split; [|exact IH].
  destruct ev as [| |p c| |]; try constructor.
  destruct Hev as (-> & doc & -> & H). repeat constructor. exact H.
Qed.

(** The whole [try] statement, in the order of its events. *)
Lemma protected_fetch_order f w :
  wp protected_fetch (fun r s' =>
    exists evs, trace (snd s') = trace w ++ evs
      /\ grows (all_discussions f) (all_discussions (fst s'))
      /\ Forall (extends_from (all_discussions f)) (saved_checkpoints evs)
      /\ (forall v, r = Return v -> v = all_discussions (fst s'))
      /\ (removals evs = []
          \/ exists evs0 doc v,
               evs = evs0 ++ artifact_writes doc ++ [EvRemove CHECKPOINT_FILE]
               /\ removals evs0 = [] /\ final_artifacts evs0 = []
               /\ r = Return v
               /\ files (snd s') CHECKPOINT_FILE = None)) (f, w).
Proof.
  unfold protected_fetch. apply wp_try_except2.
  eapply wp_mono; [apply try_body_order|].
  intros r [f1 w1] (evs1 & evs2 & doc & Htr & Hev1 & Hg & Hr). cbn [fst snd] in *.
  pose proof (removals_loop _ _ Hev1) as Hrm1.
  pose proof (final_artifacts_loop _ _ Hev1) as Hfa1.
  pose proof (saved_checkpoints_loop _ _ Hev1) as Hsc1.
  destruct r as [v|e].
  - destruct Hr as (-> & Hend & Hck).
    exists (evs1 ++ evs2). split; [exact Htr|]. split; [exact Hg|].
    split; [|split; [intros v Hv; now inversion Hv|]].
    + rewrite saved_checkpoints_app. apply Forall_app; split; [exact Hsc1|].
      destruct Hend as [-> | ->]; constructor.
    + destruct Hend as [-> | ->].
      * left. rewrite removals_app, Hrm1. reflexivity.
      * right. exists evs1, doc, (all_discussions f1). repeat split; auto.
  - assert (Hno : removals (evs1 ++ evs2) = []
                  /\ Forall (extends_from (all_discussions f))
                       (saved_checkpoints (evs1 ++ evs2))).
    { rewrite removals_app, Hrm1, saved_checkpoints_app. split.
      - destruct Hr as [-> | [-> | ->]]; reflexivity.
      - apply Forall_app; split; [exact Hsc1|].
        destruct Hr as [-> | [-> | ->]]; constructor. }
    destruct Hno as [Hrm Hsc].
    assert (Hhandler : forall (h : M ctl json) (P : json -> Prop),
      wp h (fun r s' =>
        fst s' = f1 /\
        exists evs, trace (snd s') = trace w1 ++ evs
          /\ (evs = [] \/
              exists ck, checkpoint_of f1 = Return ck
                         /\ evs = [EvWrite CHECKPOINT_FILE (Text (Some 2%nat) ck)])
          /\ (forall v, r = Return v -> P v)) (f1, w1) ->
      (forall v, P v -> v = all_discussions f1) ->
      wp h (fun r s' =>
        exists evs, trace (snd s') = trace w ++ evs
          /\ grows (all_discussions f) (all_discussions (fst s'))
          /\ Forall (extends_from (all_discussions f)) (saved_checkpoints evs)
          /\ (forall v, r = Return v -> v = all_discussions (fst s'))
          /\ (removals evs = []
              \/ exists evs0 doc v,
                   evs = evs0 ++ artifact_writes doc ++ [EvRemove CHECKPOINT_FILE]
                   /\ removals evs0 = [] /\ final_artifacts evs0 = []
                   /\ r = Return v
                   /\ files (snd s') CHECKPOINT_FILE = None)) (f1, w1)).
    { intros h P Hh HP. eapply wp_mono; [exact Hh|].
      intros r [f2 w2] (Hf & evs3 & Htr3 & Hev3 & Hv). cbn [fst snd] in *. subst f2.
      exists ((evs1 ++ evs2) ++ evs3).
      split; [rewrite Htr3, Htr, <- !app_assoc; reflexivity|]. split; [exact Hg|].
      split; [|split; [intros v Hret; apply HP, Hv, Hret|]].
      - rewrite saved_checkpoints_app. apply Forall_app; split; [exact Hsc|].
        destruct Hev3 as [-> | (ck & Hck & ->)]; [constructor|].
        repeat constructor. eapply checkpoint_of_extends; eauto.
      - left. rewrite removals_app, Hrm.
        destruct Hev3 as [-> | (ck & Hck & ->)]; reflexivity. }
    destruct (is_KeyboardInterrupt e).
    { apply (Hhandler _ (fun v => v = all_discussions f1)); [|auto].
      apply on_interrupt_events. }
    destruct (is_Exception e).
    { apply (Hhandler _ (fun _ => False)); [|intros v []].
      apply on_exception_events. }
    exists (evs1 ++ evs2). split; [exact Htr|]. split; [exact Hg|].
    split; [exact Hsc|]. split; [discriminate|]. left. exact Hrm.
Qed.

Lemma fetch_discussions_order w :
  wp fetch_discussions (fun r w' =>
    exists evs, trace w' = trace w ++ evs
      /\ (forall ck acc,
            fst (load_checkpoint w) = Return ck ->
            Py.getitem ck "discussions" = Return acc ->
            Forall (extends_from acc) (saved_checkpoints evs)
            /\ forall v, r = Return v -> grows acc v)
      /\ (removals evs = []
          \/ exists evs0 doc v,
               evs = evs0 ++ artifact_writes doc ++ [EvRemove CHECKPOINT_FILE]
               /\ removals evs0 = [] /\ final_artifacts evs0 = []
               /\ r = Return v
               /\ files w' CHECKPOINT_FILE = None)) w.
Proof.
  unfold fetch_discussions. apply wp_bind, wp_get_github_token. cbn beta iota.
  apply wp_bind. pose proof (load_checkpoint_spec w) as Hload. unfold wp in Hload |- *.
  destruct (load_checkpoint w) as [r w0] eqn:Eload. cbn [fst snd] in *.
  destruct Hload as (Htr0 & _ & _ & _).
  destruct r as [ck|e].
  2:{ exists []. rewrite app_nil_r. split; [auto|]. split; [|now left].
      intros ck acc Hck. discriminate Hck. }
  fold (wp (acc <- lift (Py.getitem ck "discussions") ;;
            cur <- lift (Py.getitem ck "last_cursor") ;;
            hm <- lift (Py.getitem ck "has_more") ;;
            (if Py.truthy acc then lift (Py.len acc) ;; ret tt else ret tt) ;;
            (fun w1 => let (r, s) := protected_fetch
                         (mkFrame (github_token w) acc cur hm 0, w1) in (r, snd s)))
           (fun r w' =>
              exists evs, trace w' = trace w ++ evs
                /\ (forall ck0 acc,
                      Return ck = Return ck0 ->
                      Py.getitem ck0 "discussions" = Return acc ->
                      Forall (extends_from acc) (saved_checkpoints evs)
                      /\ forall v, r = Return v -> grows acc v)
                /\ (removals evs = []
                    \/ exists evs0 doc v,
                         evs = evs0 ++ artifact_writes doc ++ [EvRemove CHECKPOINT_FILE]
                         /\ removals evs0 = [] /\ final_artifacts evs0 = []
                         /\ r = Return v
                         /\ files w' CHECKPOINT_FILE = None)) w0).
  assert (Hgo : forall acc cur hm,
    Py.getitem ck "discussions" = Return acc ->
    wp (fun w1 => let (r, s) := protected_fetch
                    (mkFrame (github_token w) acc cur hm 0, w1) in (r, snd s))
       (fun r w' =>
              exists evs, trace w' = trace w ++ evs
                /\ (forall ck0 acc,
                      Return ck = Return ck0 ->
                      Py.getitem ck0 "discussions" = Return acc ->
                      Forall (extends_from acc) (saved_checkpoints evs)
                      /\ forall v, r = Return v -> grows acc v)
                /\ (removals evs = []
                    \/ exists evs0 doc v,
                         evs = evs0 ++ artifact_writes doc ++ [EvRemove CHECKPOINT_FILE]
                         /\ removals evs0 = [] /\ final_artifacts evs0 = []
                         /\ r = Return v
                         /\ files w' CHECKPOINT_FILE = None)) w0).
  { intros a a0 a1 Hop.
    apply wp_with_frame. eapply wp_mono; [apply protected_fetch_order|].
    intros r [f1 w1] (evs & Htr & Hg & Hsc & Hv & Hrm). cbn [fst snd all_discussions] in *.
    exists evs. split; [now rewrite Htr, Htr0|]. split; [|exact Hrm].
    intros ck0 acc Hck Hacc. inversion Hck; subst ck0.
    rewrite Hop in Hacc. inversion Hacc; subst acc.
    split; [exact Hsc|]. intros v Hret. now rewrite (Hv v Hret). }
  assert (Hstop : forall e : exn, (fun r w' =>
              exists evs, trace w' = trace w ++ evs
                /\ (forall ck0 acc,
                      Return ck = Return ck0 ->
                      Py.getitem ck0 "discussions" = Return acc ->
                      Forall (extends_from acc) (saved_checkpoints evs)
                      /\ forall v, r = Return v -> grows acc v)
                /\ (removals evs = []
                    \/ exists evs0 doc v,
                         evs = evs0 ++ artifact_writes doc ++ [EvRemove CHECKPOINT_FILE]
                         /\ removals evs0 = [] /\ final_artifacts evs0 = []
                         /\ r = Return v
                         /\ files w' CHECKPOINT_FILE = None)) (Raise e) w0).
  { intros e. exists []. rewrite app_nil_r. split; [auto|]. split; [|now left].
    intros ck0 acc Hck Hacc. split; [constructor|discriminate]. }
  do 3 (wp_step; wp_step; [|apply Hstop]).
  apply wp_bind.
  destruct (Py.truthy a).
  - apply wp_bind. wp_step.
    + apply wp_ret. apply Hgo; first [assumption | reflexivity].
    + apply Hstop.
  - apply wp_ret. apply Hgo; first [assumption | reflexivity].
Qed.

(** Resuming never loses or reorders what was fetched before: every
    checkpoint a run writes, and the list it returns, is the list of the
    checkpoint it loaded with items appended at the end (or unchanged). *)
Theorem accumulator_only_grows w :
  wp fetch_discussions (fun r w' =>
    exists evs, trace w' = trace w ++ evs
      /\ forall ck acc,
           fst (load_checkpoint w) = Return ck ->
           Py.getitem ck "discussions" = Return acc ->
           Forall (extends_from acc) (saved_checkpoints evs)
           /\ forall v, r = Return v -> grows acc v) w.
Proof.
  eapply wp_mono; [apply fetch_discussions_order|].
  intros r w' (evs & Htr & Hacc & _). eauto.
Qed.





(* ================================================================== *)
(** * A complete listing *)

Lemma execute_success q tok w resp rest :
  interrupt_in w = None ->
  script w = Responds resp :: rest ->
  no_errors resp ->
  execute_graphql_with_retry q tok 3 5 w =
    (Return (body resp), log (EvPost q (bearer tok) (Responds resp)) (set_script rest w)).
Proof.
  intros Hi Hs Hc. unfold execute_graphql_with_retry.
  change (range 3) with [0; 1; 2]. cbn [attempts_loop]. unfold bind at 1.
  rewrite (attempt_body_success q tok 3 5 0 w resp rest Hi Hs Hc). reflexivity.
Qed.

Lemma parse_page_body data items page_info :
  parse_page data = Return (items, page_info) ->
  Py.truthy data = true /\ Py.contains "data" data = Return true.
Proof.
  unfold parse_page. destruct data as [| | | | |fields]; try discriminate.
  cbn [Py.getitem Py.contains Py.truthy].
  destruct fields as [|kv fields]; [discriminate|].
  destruct (Py.lookup "data" (kv :: fields)); [auto|discriminate].
Qed.

Lemma save_checkpoint_quiet ck w :
  interrupt_in w = None ->
  write_faults w = [] ->
  save_checkpoint ck w =
    (Return tt,
     log (EvWrite CHECKPOINT_FILE (Text (Some 2%nat) ck))
         (set_files (update CHECKPOINT_FILE (Some (Text (Some 2%nat) ck)) (files w)) w)).
Proof.
  intros Hi Hw. unfold save_checkpoint, try_except.
  rewrite (write_file_quiet _ _ w Hi Hw). reflexivity.
Qed.

Lemma loop_body_quiet f w p rest items page_info hm cur old :
  interrupt_in w = None ->
  write_faults w = [] ->
  script w = Responds p :: rest ->
  no_errors p ->
  parse_page (body p) = Return (items, page_info) ->
  next_position page_info = Return (hm, cur) ->
  all_discussions f = JArr old ->
  exists w',
    loop_body (f, w) =
      (Return Continue,
       (mkFrame (token f) (JArr (old ++ items)) cur hm (page_count f + 1), w'))
    /\ interrupt_in w' = None
    /\ write_faults w' = []
    /\ script w' = rest
    /\ datetime_now w' = datetime_now w
    /\ files w' CHECKPOINT_FILE <> None
    /\ posts (trace w') = posts (trace w) ++ [Responds p]
    /\ sleeps (trace w') = sleeps (trace w) ++ (if Py.truthy hm then [25] else [])
    /\ page_sizes (trace w') = page_sizes (trace w) ++ [Z.of_nat (List.length items)]
    /\ final_artifacts (trace w') = final_artifacts (trace w)
    /\ removals (trace w') = removals (trace w)
    /\ exists evs,
         trace w' = trace w ++ EvPost (get_discussions_query (cursor f))
                                      (bearer (token f)) (Responds p) :: evs.
Proof.
  intros Hi Hwf Hs Hc Hp Hn Hold.
  destruct (parse_page_body _ _ _ Hp) as [Ht Hd].
  unfold parse_page, obind in Hp.
  destruct (Py.getitem (body p) "data") as [d|] eqn:E1; [|discriminate].
  destruct (Py.getitem d "repository") as [r|] eqn:E2; [|discriminate].
  destruct (Py.getitem r "discussions") as [dd|] eqn:E3; [|discriminate].
  destruct (Py.getitem dd "edges") as [edges|] eqn:E4; [|discriminate].
  destruct (Py.getitem dd "pageInfo") as [pi|] eqn:E5; [|discriminate].
  destruct (Py.iter edges) as [its|] eqn:E6; [|discriminate].
  destruct (map_outcome discussion_of_edge its) as [nd|] eqn:E7; [|discriminate].
  injection Hp as -> ->.
  unfold next_position, obind in Hn.
  destruct (Py.getitem page_info "hasNextPage") as [hm0|] eqn:E8; [|discriminate].
  destruct (if Py.truthy hm0 then Py.getitem page_info "endCursor" else Return JNull)
    as [cur0|] eqn:E9; [|discriminate].
  injection Hn as -> ->.
  unfold loop_body, bind, local, assign, io, lift, ret. cbn [fst snd].
  rewrite (execute_success _ _ w p rest Hi Hs Hc).
  cbn [fst snd]. rewrite Ht. cbn [negb]. rewrite Hd. cbn [negb].
  rewrite E1, E2, E3, E4, E5, E6, E7.
  cbn [fst snd all_discussions set_page_count set_has_more set_all_discussions
       set_cursor token cursor has_more page_count].
  rewrite Hold. cbn [Py.extend]. rewrite E8.
  unfold checkpoint_of, obind, emit, id.
  destruct (Py.truthy hm) eqn:Eh; [rewrite E9|injection E9 as <-];
    cbn [fst snd all_discussions set_page_count set_has_more set_all_discussions
         set_cursor token cursor has_more page_count Py.len];
    rewrite save_checkpoint_quiet by (cbn; assumption);
    cbn [fst snd]; rewrite ?Eh.
  1: rewrite sleep_quiet by (first [lia | cbn; assumption]).
  all: eexists; split; [reflexivity|].
  all: cbn [interrupt_in write_faults script datetime_now files trace
            log set_files set_script set_clock].
  all: rewrite ?posts_app, ?sleeps_app, ?page_sizes_app, ?final_artifacts_app,
         ?removals_app.
  all: unfold update at 1; rewrite ?String.eqb_refl.
  all: cbn [posts sleeps page_sizes final_artifacts removals flat_map app].
  all: rewrite ?app_nil_r.
  all: do 10 (split; [first [assumption | reflexivity | discriminate]|]).
  all: eexists; rewrite <- !app_assoc; reflexivity.
Qed.

Lemma collect_cons p ps ds :
  collect (p :: ps) = Some ds ->
  exists items page_info hm cur,
    parse_page (body p) = Return (items, page_info)
    /\ next_position page_info = Return (hm, cur)
    /\ (if Py.truthy hm
        then exists more, collect ps = Some more /\ ds = items ++ more
        else ps = [] /\ ds = items).
Proof.
  cbn [collect].
  destruct (parse_page (body p)) as [[items page_info]|]; [|discriminate].
  destruct (next_position page_info) as [[hm cur]|] eqn:En; [|discriminate].
  intros H. exists items, page_info, hm, cur.
  split; [reflexivity|]. split; [exact En|].
  destruct (Py.truthy hm).
  - destruct (collect ps) as [more|]; [|discriminate].
    injection H as <-. eauto.
  - destruct ps; [|discriminate]. injection H as <-. auto.
Qed.

Lemma while_quiet : forall pages ds fuel f w rest old,
  collect pages = Some ds ->
  Forall no_errors pages ->
  (List.length pages < fuel)%nat ->
  interrupt_in w = None ->
  write_faults w = [] ->
  script w = map Responds pages ++ rest ->
  all_discussions f = JArr old ->
  Py.truthy (has_more f) = true ->
  exists f' w',
    while_has_more fuel (f, w) = (Return tt, (f', w'))
    /\ all_discussions f' = JArr (old ++ ds)
    /\ interrupt_in w' = None
    /\ write_faults w' = []
    /\ script w' = rest
    /\ datetime_now w' = datetime_now w
    /\ files w' CHECKPOINT_FILE <> None
    /\ posts (trace w') = posts (trace w) ++ map Responds pages
    /\ sleeps (trace w') = sleeps (trace w) ++ repeat 25 (List.length pages - 1)
    /\ final_artifacts (trace w') = final_artifacts (trace w)
    /\ removals (trace w') = removals (trace w)
    /\ exists p ps evs,
         pages = p :: ps
         /\ trace w' = trace w ++ EvPost (get_discussions_query (cursor f))
                                         (bearer (token f)) (Responds p) :: evs.
Proof.
  induction pages as [|p ps IH]; intros ds fuel f w rest old Hc Hall Hfuel Hi Hwf Hs Hold Hhm;
    [discriminate|].
  destruct (collect_cons _ _ _ Hc) as (items & page_info & hm & cur & Hp & Hn & Hrest).
  inversion Hall as [|? ? Hne Hall']; subst.
  destruct fuel as [|fuel]; [simpl in Hfuel; lia|].
  cbn [map app] in Hs.
  destruct (loop_body_quiet f w p _ items page_info hm cur old Hi Hwf Hs Hne Hp Hn Hold)
    as (w1 & Hrun & Hi1 & Hwf1 & Hs1 & Hdt1 & Hck1 & Hpo1 & Hsl1 & _ & Hfa1 & Hrm1
        & evs1 & Htr1).
  cbn [while_has_more]. unfold bind at 1. unfold local at 1. cbn [fst snd].
  rewrite Hhm. unfold bind at 1. rewrite Hrun.
  destruct (Py.truthy hm) eqn:Eh.
  - destruct Hrest as (more & Hmore & ->).
    destruct (IH more fuel
                (mkFrame (token f) (JArr (old ++ items)) cur hm (page_count f + 1))
                w1 rest (old ++ items) Hmore Hall'
                ltac:(simpl in Hfuel; lia) Hi1 Hwf1 Hs1 eq_refl Eh)
      as (f' & w' & Hrun' & Hacc & Hi' & Hwf' & Hs' & Hdt' & Hck' & Hpo' & Hsl' & Hfa' & Hrm'
          & p' & ps' & evs' & _ & Htr').
    exists f', w'. split; [exact Hrun'|].
    rewrite Hacc, Hpo', Hsl', Hfa', Hrm', Hpo1, Hsl1, Hfa1, Hrm1, Hdt', Hdt1, <- !app_assoc.
    repeat match goal with |- _ /\ _ => split end;
      try assumption; try reflexivity.
    + destruct ps as [|p0 ps]; [discriminate|].
      cbn [List.length Nat.sub repeat app]. rewrite Nat.sub_0_r. reflexivity.
    + eexists p, ps, _. split; [reflexivity|].
      rewrite Htr', Htr1, <- app_assoc. reflexivity.
  - destruct Hrest as [-> ->].
    destruct fuel as [|fuel]; [simpl in Hfuel; lia|].
    cbn [while_has_more]. unfold bind at 1. unfold local at 1. cbn [fst snd has_more].
    rewrite Eh. unfold ret.
    eexists _, w1. split; [reflexivity|].
    cbn [all_discussions map List.length Nat.sub repeat].
    rewrite Hpo1, Hsl1, Hfa1, Hrm1. cbn [app] in Hs1.
    repeat match goal with |- _ /\ _ => split end;
      try assumption; try reflexivity.
    eexists p, [], _. split; [reflexivity|exact Htr1].
Qed.

Lemma remove_quiet p w :
  interrupt_in w = None ->
  files w p <> None ->
  remove p w = (Return tt, log (EvRemove p) (set_files (update p None (files w)) w)).
Proof.
  intros Hi Hf. unfold remove, bind. rewrite (tick_quiet w Hi).
  destruct (files w p); [reflexivity|congruence].
Qed.

Lemma protected_fetch_quiet f w pages rest ds old :
  interrupt_in w = None ->
  write_faults w = [] ->
  script w = map Responds pages ++ rest ->
  Forall no_errors pages ->
  collect pages = Some ds ->
  all_discussions f = JArr old ->
  Py.truthy (has_more f) = true ->
  exists s',
    protected_fetch (f, w) = (Return (JArr (old ++ ds)), s')
    /\ script (snd s') = rest
    /\ posts (trace (snd s')) = posts (trace w) ++ map Responds pages
    /\ sleeps (trace (snd s')) = sleeps (trace w) ++ repeat 25 (List.length pages - 1)
    /\ (let doc := output_data_of (JArr (old ++ ds))
                     (Z.of_nat (List.length (old ++ ds))) (datetime_now w) in
        files (snd s') OUTPUT_FILE = Some (Text (Some 2%nat) doc)
        /\ files (snd s') OUTPUT_GZIP_FILE = Some (Gzip 9 (Text None doc))
        /\ final_artifacts (trace (snd s')) = final_artifacts (trace w) ++ [doc; doc])
    /\ files (snd s') CHECKPOINT_FILE = None
    /\ removals (trace (snd s')) = removals (trace w) ++ [CHECKPOINT_FILE]
    /\ exists p ps evs,
         pages = p :: ps
         /\ trace (snd s') = trace w ++ EvPost (get_discussions_query (cursor f))
                                               (bearer (token f)) (Responds p) :: evs.
Proof.
  intros Hi Hwf Hs Hall Hc Hold Hhm.
  destruct (while_quiet pages ds (S (List.length (script w))) f w rest old Hc Hall)
    as (f' & w1 & Hrun & Hacc & Hi1 & Hwf1 & Hs1 & Hdt1 & Hck1
        & Hpo1 & Hsl1 & Hfa1 & Hrm1 & p & ps & evs & Hpages & Htr1);
    try assumption.
  { rewrite Hs, length_app, length_map. lia. }
  unfold protected_fetch, try_except2, try_body. unfold bind at 1. cbn [snd].
  rewrite Hrun. unfold bind at 1, local at 1. cbn [fst snd]. rewrite Hacc.
  unfold bind at 1, io at 1. cbn [fst snd].
  unfold save_final_result, bind at 1, lift at 1. cbn [Py.len].
  unfold bind at 1. unfold bind at 1.
  rewrite (write_file_quiet _ _ w1 Hi1 Hwf1).
  unfold bind at 1.
  rewrite write_file_quiet by (cbn; assumption).
  unfold getsize. cbn [files log set_files]. unfold update at 1.
  rewrite String.eqb_refl.
  cbn [fst snd]. unfold bind at 1, io at 1, path_exists. cbn [fst snd files log set_files].
  unfold update at 1. cbn [String.eqb Ascii.eqb Bool.eqb CHECKPOINT_FILE OUTPUT_GZIP_FILE].
  unfold update at 1. cbn [String.eqb Ascii.eqb Bool.eqb CHECKPOINT_FILE OUTPUT_FILE].
  fold CHECKPOINT_FILE.
  destruct (files w1 CHECKPOINT_FILE) as [c|] eqn:Ec; [|congruence].
  unfold bind at 1, io at 1. cbn [fst snd].
  rewrite remove_quiet.
  2:{ cbn. exact Hi1. }
  2:{ cbn [files log set_files]. unfold update. cbn. fold CHECKPOINT_FILE. rewrite Ec. discriminate. }
  unfold local. cbn [fst snd]. rewrite Hacc.
  eexists. split; [reflexivity|].
  cbn [fst snd script files trace log set_files].
  rewrite Hdt1.
  rewrite !posts_app, !sleeps_app, !final_artifacts_app, !removals_app.
  rewrite Hpo1, Hsl1, Hfa1, Hrm1.
  cbn [posts sleeps final_artifacts removals flat_map app].
  rewrite !app_nil_r, <- !app_assoc.
  repeat match goal with |- _ /\ _ => split end; try assumption; try reflexivity.
  eexists p, ps, _. split; [exact Hpages|].
  rewrite Htr1, <- !app_assoc. reflexivity.
Qed.

(** A run that starts without a checkpoint, is not interrupted, meets no
    write fault and is answered by pages without [errors], each but the
    last announcing a next page, sends one request per page, pauses 25
    between two pages, returns the discussions of all pages in order, leaves
    them in both artifacts with their count, and leaves no checkpoint. *)
Theorem complete_listing w pages rest ds :
  files w CHECKPOINT_FILE = None ->
  interrupt_in w = None ->
  write_faults w = [] ->
  script w = map Responds pages ++ rest ->
  Forall no_errors pages ->
  collect pages = Some ds ->
  exists w',
    fetch_discussions w = (Return (JArr ds), w')
    /\ script w' = rest
    /\ posts (trace w') = posts (trace w) ++ map Responds pages
    /\ sleeps (trace w') = sleeps (trace w) ++ repeat 25 (List.length pages - 1)
    /\ (let doc := output_data_of (JArr ds) (Z.of_nat (List.length ds)) (datetime_now w) in
        files w' OUTPUT_FILE = Some (Text (Some 2%nat) doc)
        /\ files w' OUTPUT_GZIP_FILE = Some (Gzip 9 (Text None doc))
        /\ final_artifacts (trace w') = final_artifacts (trace w) ++ [doc; doc])
    /\ files w' CHECKPOINT_FILE = None
    /\ removals (trace w') = removals (trace w) ++ [CHECKPOINT_FILE].
Proof.
  intros Hck Hi Hwf Hs Hall Hc.
  destruct (protected_fetch_quiet
              (mkFrame (github_token w) (JArr []) JNull (JBool true) 0) w pages rest ds []
              Hi Hwf Hs Hall Hc eq_refl eq_refl)
    as ([f' w'] & Hrun & Hsc & Hpo & Hsl & Hart & Hck' & Hrm & _).
  cbn [fst snd app] in *.
  unfold fetch_discussions, bind at 1, get_github_token.
  unfold bind at 1, load_checkpoint, bind at 1, path_exists. rewrite Hck.
  unfold ret at 1, default_checkpoint, bind, lift.
  cbn [Py.getitem Py.lookup String.eqb Ascii.eqb Bool.eqb Py.truthy].
  unfold ret at 1. rewrite Hrun. cbn [snd].
  exists w'. repeat match goal with |- _ /\ _ => split end; try assumption; try reflexivity.
  all: apply Hart.
Qed.
Lemma complete_listing_witness :
  exists w',
    fetch_discussions Sample.two_pages =
      (Return (JArr [Sample.discussion 1 "first"; Sample.discussion 2 "second";
                     Sample.discussion 3 "third"]), w')
    /\ posts (trace w') = [Responds EntrySamples.first_page; Responds EntrySamples.last_page]
    /\ sleeps (trace w') = [25]
    /\ files w' CHECKPOINT_FILE = None.
Proof.
  destruct (complete_listing Sample.two_pages
              [EntrySamples.first_page; EntrySamples.last_page] []
              [Sample.discussion 1 "first"; Sample.discussion 2 "second";
               Sample.discussion 3 "third"])
    as (w' & Hrun & _ & Hpo & Hsl & _ & Hck & _);
    [reflexivity|reflexivity|reflexivity|reflexivity
    |repeat constructor|reflexivity|].
  exists w'. split; [exact Hrun|]. split; [exact Hpo|]. split; [exact Hsl|exact Hck].
Defined.

Lemma load_checkpoint_quiet w indent doc :
  files w CHECKPOINT_FILE = Some (Text indent doc) ->
  interrupt_in w = None ->
  load_checkpoint w = (Return doc, w).
Proof.
  intros Hf Hi. unfold load_checkpoint, bind at 1, path_exists. rewrite Hf.
  unfold try_except, read_json, bind. rewrite (tick_quiet w Hi), Hf. reflexivity.
Qed.

(** A run that finds a checkpoint with a list, a cursor and a truthy
    [has_more] takes up the listing there: its first request carries the
    stored cursor, and under the conditions of a complete listing it returns
    the stored discussions followed by those of the pages it fetched, writes
    them to both artifacts and removes the checkpoint. *)
Theorem resumed_listing w indent doc old cur hm pages rest ds :
  files w CHECKPOINT_FILE = Some (Text indent doc) ->
  Py.getitem doc "discussions" = Return (JArr old) ->
  Py.getitem doc "last_cursor" = Return cur ->
  Py.getitem doc "has_more" = Return hm ->
  Py.truthy hm = true ->
  interrupt_in w = None ->
  write_faults w = [] ->
  script w = map Responds pages ++ rest ->
  Forall no_errors pages ->
  collect pages = Some ds ->
  exists w' p ps evs,
    fetch_discussions w = (Return (JArr (old ++ ds)), w')
    /\ pages = p :: ps
    /\ trace w' = trace w ++ EvPost (get_discussions_query cur)
                                    (bearer (github_token w)) (Responds p) :: evs
    /\ posts (trace w') = posts (trace w) ++ map Responds pages
    /\ (let out := output_data_of (JArr (old ++ ds))
                     (Z.of_nat (List.length (old ++ ds))) (datetime_now w) in
        files w' OUTPUT_FILE = Some (Text (Some 2%nat) out)
        /\ files w' OUTPUT_GZIP_FILE = Some (Gzip 9 (Text None out)))
    /\ files w' CHECKPOINT_FILE = None.
Proof.
  intros Hf Hacc Hcur Hhm Ht Hi Hwf Hs Hall Hc.
  destruct (protected_fetch_quiet
              (mkFrame (github_token w) (JArr old) cur hm 0) w pages rest ds old
              Hi Hwf Hs Hall Hc eq_refl Ht)
    as ([f' w'] & Hrun & Hsc & Hpo & Hsl & Hart & Hck' & Hrm & p & ps & evs & Hpages & Htr).
  cbn [fst snd token cursor] in *.
  unfold fetch_discussions, bind at 1, get_github_token.
  unfold bind at 1. rewrite (load_checkpoint_quiet w indent doc Hf Hi).
  unfold bind, lift. rewrite Hacc, Hcur, Hhm. cbn [Py.len].
  destruct (Py.truthy (JArr old)); unfold ret; rewrite Hrun; cbn [snd].
  all: exists w', p, ps, evs.
  all: repeat match goal with |- _ /\ _ => split end; try assumption; try reflexivity.
  all: apply Hart.
Qed.

Lemma resumed_listing_witness :
  exists w' evs,
    fetch_discussions EntrySamples.interrupted_run =
      (Return (JArr [Sample.discussion 1 "first"; Sample.discussion 2 "second";
                     Sample.discussion 3 "third"]), w')
    /\ trace w' = EvPost (DiscussionsQuery (Some (JStr "C1"))) "Bearer s3cret"
                         (Responds EntrySamples.last_page) :: evs
    /\ files w' CHECKPOINT_FILE = None.
Proof.
  destruct (resumed_listing EntrySamples.interrupted_run (Some 2%nat)
              EntrySamples.interrupted_document
              [Sample.discussion 1 "first"; Sample.discussion 2 "second"]
              (JStr "C1") (JBool true) [EntrySamples.last_page] []
              [Sample.discussion 3 "third"])
    as (w' & p & ps & evs & Hrun & Hpages & Htr & _ & _ & Hck);
    [reflexivity|reflexivity|reflexivity|reflexivity|reflexivity|reflexivity
    |reflexivity|reflexivity|repeat constructor|reflexivity|].
  injection Hpages as <- <-.
  exists w', evs. split; [exact Hrun|]. split; [exact Htr|exact Hck].
Defined.

(* ================================================================== *)
(** * Resuming from a finished checkpoint *)

Lemma try_body_finished f w :
  Py.truthy (has_more f) = false ->
  wp try_body (fun r s' =>
    fst s' = f /\
    exists evs, trace (snd s') = trace w ++ evs
      /\ posts evs = [] /\ sleeps evs = [] /\ page_sizes evs = []
      /\ saved_checkpoints evs = []
      /\ (forall v, r = Return v ->
            v = all_discussions f
            /\ exists doc, final_artifacts evs = [doc; doc]
                 /\ Py.getitem doc "discussions" = Return (all_discussions f))) (f, w).
Proof.
  intros Hhm. unfold try_body. apply wp_bind.
  apply (wp_self (fun s => while_has_more (S (List.length (script (snd s)))))).
  cbn [while_has_more snd]. do 2 wp_step. cbn [fst]. rewrite Hhm.
  do 3 wp_step. apply wp_bind, wp_io. cbn [fst snd].
  eapply wp_mono; [apply save_final_result_order|].
  intros r w2 (evs2 & Htr2 & Hf2 & Hr2).
  destruct r as [[]|e].
  2:{ split; [reflexivity|]. exists evs2. split; [exact Htr2|].
      destruct Hr2 as [->|(n & _ & ->)]; do 4 (split; [reflexivity|]); discriminate. }
  destruct Hr2 as (n & Hn & ->).
  do 3 wp_step.
  destruct (files w2 CHECKPOINT_FILE) eqn:Hc2; repeat wp_step.
  all: split; [reflexivity|].
  all: eexists; (split; [cbn [fst snd]; simpl trace; rewrite Htr2, <- ?app_assoc;
                         reflexivity|]).
  all: do 4 (split; [reflexivity|]).
  all: intros v Hv; try discriminate Hv.
  all: split; [now inversion Hv|].
  all: eexists; split; reflexivity.
Qed.

Lemma protected_fetch_finished f w :
  Py.truthy (has_more f) = false ->
  wp protected_fetch (fun r s' =>
    exists evs, trace (snd s') = trace w ++ evs
      /\ posts evs = [] /\ sleeps evs = [] /\ page_sizes evs = []
      /\ (forall v, r = Return v -> v = all_discussions f)) (f, w).
Proof.
  intros Hhm. unfold protected_fetch. apply wp_try_except2.
  eapply wp_mono; [apply (try_body_finished f w Hhm)|].
  intros r [f1 w1] (Hf & evs1 & Htr1 & Hpo & Hsl & Hpg & _ & Hv). cbn [fst snd] in *.
  subst f1.
  destruct r as [v|e].
  { exists evs1. repeat split; try assumption. intros v' Hv'. apply (Hv v' Hv'). }
  assert (Hhandler : forall (h : M ctl json) (P : json -> Prop),
    wp h (fun r s' =>
      fst s' = f /\
      exists evs, trace (snd s') = trace w1 ++ evs
        /\ (evs = [] \/
            exists ck, checkpoint_of f = Return ck
                       /\ evs = [EvWrite CHECKPOINT_FILE (Text (Some 2%nat) ck)])
        /\ (forall v, r = Return v -> P v)) (f, w1) ->
    (forall v, P v -> v = all_discussions f) ->
    wp h (fun r s' =>
      exists evs, trace (snd s') = trace w ++ evs
        /\ posts evs = [] /\ sleeps evs = [] /\ page_sizes evs = []
        /\ (forall v, r = Return v -> v = all_discussions f)) (f, w1)).
  { intros h P Hh HP. eapply wp_mono; [exact Hh|].
    intros r [f2 w2] (_ & evs3 & Htr3 & Hev3 & Hv3). cbn [fst snd] in *.
    exists (evs1 ++ evs3).
    split; [rewrite Htr3, Htr1, <- !app_assoc; reflexivity|].
    rewrite posts_app, sleeps_app, page_sizes_app, Hpo, Hsl, Hpg.
    destruct Hev3 as [-> | (ck & _ & ->)];
      (repeat split; [reflexivity..|]); intros v Hret; apply HP, Hv3, Hret. }
  destruct (is_KeyboardInterrupt e).
  { apply (Hhandler _ (fun v => v = all_discussions f)); [|auto].
    apply on_interrupt_events. }
  destruct (is_Exception e).
  { apply (Hhandler _ (fun _ => False)); [|intros v []].
    apply on_exception_events. }
  exists evs1. repeat split; try assumption. discriminate.
Qed.

(** A checkpoint whose [has_more] is falsy ends the listing before it
    starts: the run sends no request, takes no pause and merges no page, and
    what it returns is the list the checkpoint held. *)
Theorem finished_checkpoint_sends_nothing w indent doc acc cur hm :
  files w CHECKPOINT_FILE = Some (Text indent doc) ->
  interrupt_in w <> Some 0%nat ->
  Py.getitem doc "discussions" = Return acc ->
  Py.getitem doc "last_cursor" = Return cur ->
  Py.getitem doc "has_more" = Return hm ->
  Py.truthy hm = false ->
  wp fetch_discussions (fun r w' =>
    exists evs, trace w' = trace w ++ evs
      /\ posts evs = [] /\ sleeps evs = [] /\ page_sizes evs = []
      /\ (forall v, r = Return v -> v = acc)) w.
Proof.
  intros Hf Hi Hacc Hcur Hhm Ht.
  destruct (load_checkpoint_parsed w indent doc Hf Hi) as (i & Hload).
  unfold fetch_discussions.
  apply wp_bind, wp_get_github_token.
  apply wp_bind. unfold wp at 1. rewrite Hload. cbn [fst snd].
  apply wp_bind, wp_lift. rewrite Hacc.
  apply wp_bind, wp_lift. rewrite Hcur.
  apply wp_bind, wp_lift. rewrite Hhm.
  assert (Hgo : wp (fun w1 => let (r, s) := protected_fetch
                      (mkFrame (github_token w) acc cur hm 0, w1) in (r, snd s))
                  (fun r w' =>
                     exists evs, trace w' = trace w ++ evs
                       /\ posts evs = [] /\ sleeps evs = [] /\ page_sizes evs = []
                       /\ (forall v, r = Return v -> v = acc))
                  (set_interrupt_in i w)).
  { apply wp_with_frame.
    eapply wp_mono; [apply protected_fetch_finished; exact Ht|].
    intros r s' (evs & Htr & H). exists evs. split; [exact Htr|exact H]. }
  apply wp_bind.
  destruct (Py.truthy acc).
  - apply wp_bind, wp_lift. destruct (Py.len acc).
    + apply wp_ret. exact Hgo.
    + exists []. rewrite app_nil_r. repeat split. discriminate.
  - apply wp_ret. exact Hgo.
Qed.

Lemma finished_checkpoint_sends_nothing_witness :
  wp fetch_discussions (fun r w' =>
    exists evs, trace w' = trace EntrySamples.finished_run ++ evs
      /\ posts evs = [] /\ sleeps evs = [] /\ page_sizes evs = []
      /\ (forall v, r = Return v -> v = JArr [Sample.discussion 1 "first"]))
    EntrySamples.finished_run.
Proof.
  apply (finished_checkpoint_sends_nothing EntrySamples.finished_run (Some 2%nat)
           EntrySamples.finished_document (JArr [Sample.discussion 1 "first"])
           JNull (JBool false));
    [reflexivity|discriminate|reflexivity|reflexivity|reflexivity|reflexivity].
Defined.

(* ================================================================== *)
(** * The items of a page *)

Lemma map_outcome_Forall2 {A B} (g : A -> outcome B) (l : list A) : forall l',
  map_outcome g l = Return l' -> Forall2 (fun a b => g a = Return b) l l'.
Proof.
  induction l as [|x l IH]; intros l'; cbn [map_outcome]; unfold obind.
  - intros H. injection H as <-. constructor.
  - destruct (g x) as [y|] eqn:Ex; [|discriminate].
    destruct (map_outcome g l) as [ys|]; [|discriminate].
    intros H. injection H as <-. constructor; [exact Ex|apply IH; reflexivity].
Qed.

(** A page that is merged yields one discussion per edge, in the order of
    the edges; each carries the five fields of the edge's node under the
    keys [number], [title], [created_at], [url] and [bodyHTML], and nothing
    else. *)
Theorem discussions_follow_edges data items page_info :
  parse_page data = Return (items, page_info) ->
  exists d r discussions_data edges edge_list,
    Py.getitem data "data" = Return d
    /\ Py.getitem d "repository" = Return r
    /\ Py.getitem r "discussions" = Return discussions_data
    /\ Py.getitem discussions_data "edges" = Return edges
    /\ Py.getitem discussions_data "pageInfo" = Return page_info
    /\ Py.iter edges = Return edge_list
    /\ Forall2 (fun edge discussion =>
         exists node,
           Py.getitem edge "node" = Return node
           /\ Py.getitem discussion "number" = Py.getitem node "number"
           /\ Py.getitem discussion "title" = Py.getitem node "title"
           /\ Py.getitem discussion "created_at" = Py.getitem node "createdAt"
           /\ Py.getitem discussion "url" = Py.getitem node "url"
           /\ Py.getitem discussion "bodyHTML" = Py.getitem node "bodyHTML"
           /\ Py.len discussion = Return 5) edge_list items.
Proof.
  unfold parse_page, obind. intros Hp.
  destruct (Py.getitem data "data") as [d|] eqn:E1; [|discriminate].
  destruct (Py.getitem d "repository") as [r|] eqn:E2; [|discriminate].
  destruct (Py.getitem r "discussions") as [dd|] eqn:E3; [|discriminate].
  destruct (Py.getitem dd "edges") as [edges|] eqn:E4; [|discriminate].
  destruct (Py.getitem dd "pageInfo") as [pi|] eqn:E5; [|discriminate].
  destruct (Py.iter edges) as [its|] eqn:E6; [|discriminate].
  destruct (map_outcome discussion_of_edge its) as [nd|] eqn:E7; [|discriminate].
  injection Hp as -> ->.
  exists d, r, dd, edges, its. do 6 (split; [first [assumption | reflexivity]|]).
  apply map_outcome_Forall2 in E7.
  eapply Forall2_impl; [|exact E7].
  intros edge discussion He. unfold discussion_of_edge, obind in He.
  destruct (Py.getitem edge "node") as [node|]; [|discriminate].
  destruct (Py.getitem node "number") as [number|] eqn:N1; [|discriminate].
  destruct (Py.getitem node "title") as [title|] eqn:N2; [|discriminate].
  destruct (Py.getitem node "createdAt") as [created_at|] eqn:N3; [|discriminate].
  destruct (Py.getitem node "url") as [url|] eqn:N4; [|discriminate].
  destruct (Py.getitem node "bodyHTML") as [body_html|] eqn:N5; [|discriminate].
  injection He as <-. exists node. rewrite N1, N2, N3, N4, N5.
  repeat split; reflexivity.
Qed.

Lemma discussions_follow_edges_witness :
  exists d r discussions_data edges edge_list,
    Py.getitem (body EntrySamples.last_page) "data" = Return d
    /\ Py.getitem d "repository" = Return r
    /\ Py.getitem r "discussions" = Return discussions_data
    /\ Py.getitem discussions_data "edges" = Return edges
    /\ Py.getitem discussions_data "pageInfo" =
         Return (JObj [("hasNextPage", JBool false); ("endCursor", JNull)])
    /\ Py.iter edges = Return edge_list
    /\ Forall2 (fun edge discussion =>
         exists node,
           Py.getitem edge "node" = Return node
           /\ Py.getitem discussion "number" = Py.getitem node "number"
           /\ Py.getitem discussion "title" = Py.getitem node "title"
           /\ Py.getitem discussion "created_at" = Py.getitem node "createdAt"
           /\ Py.getitem discussion "url" = Py.getitem node "url"
           /\ Py.getitem discussion "bodyHTML" = Py.getitem node "bodyHTML"
           /\ Py.len discussion = Return 5)
         edge_list [Sample.discussion 3 "third"].
Proof.
  apply (discussions_follow_edges (body EntrySamples.last_page)
           [Sample.discussion 3 "third"]
           (JObj [("hasNextPage", JBool false); ("endCursor", JNull)])).
  reflexivity.
Defined.

(* ================================================================== *)
(** * The entry point *)

Lemma take_points_split : forall s n,
  exists rest,
    s = String.append (Py.take_points n s) rest
    /\ Py.begins_with_continuation rest = false.
Proof.
  induction s as [|c s IH]; intros n; cbn [Py.take_points].
  - exists EmptyString. split; reflexivity.
  - destruct (Py.is_continuation c) eqn:Ec.
    + destruct (IH n) as (rest & Hs & Hr). exists rest.
      split; [cbn [String.append]; congruence|exact Hr].
    + destruct n as [|n].
      * exists (String c s). split; [reflexivity|exact Ec].
      * destruct (IH n) as (rest & Hs & Hr). exists rest.
        split; [cbn [String.append]; congruence|exact Hr].
Qed.

Lemma take_points_count : forall s n,
  Py.code_points (Py.take_points n s) = Nat.min n (Py.code_points s).
Proof.
  induction s as [|c s IH]; intros n; cbn [Py.take_points Py.code_points].
  - now rewrite Nat.min_0_r.
  - destruct (Py.is_continuation c) eqn:Ec.
    + cbn [Py.code_points]. rewrite Ec. apply IH.
    + destruct n as [|n]; [reflexivity|].
      cbn [Py.code_points]. rewrite Ec, IH. reflexivity.
Qed.

Lemma take_points_all : forall s n,
  (Py.code_points s <= n)%nat -> Py.take_points n s = s.
Proof.
  induction s as [|c s IH]; intros n; cbn [Py.take_points Py.code_points];
    [reflexivity|].
  destruct (Py.is_continuation c); intros Hl.
  - now rewrite IH.
  - destruct n as [|n]; [lia|]. rewrite IH by lia. reflexivity.
Qed.

(** The title of a preview line is the first 50 characters (code points,
    however many bytes each takes) of the discussion's title, cut between two
    characters, and the ellipsis follows it exactly when that cut something
    off. *)
Theorem preview_title_is_cut i d l t :
  preview_line_of i d = Return l ->
  Py.getitem d "title" = Return (JStr t) ->
  exists shown rest,
    line_title l = JStr shown
    /\ t = String.append shown rest
    /\ Py.begins_with_continuation rest = false
    /\ Py.code_points shown = Nat.min 50 (Py.code_points t)
    /\ (line_ellipsis l = true <-> shown <> t).
Proof.
  unfold preview_line_of, obind. intros Hl Ht.
  destruct (Py.getitem d "number") as [number|]; [|discriminate].
  rewrite Ht in Hl. cbn [slice_to Py.len] in Hl. injection Hl as <-.
  cbn [line_title line_ellipsis].
  destruct (take_points_split t 50) as (rest & Hsplit & Hrest).
  exists (Py.take_points 50 t), rest.
  split; [reflexivity|]. split; [exact Hsplit|]. split; [exact Hrest|].
  split; [apply take_points_count|].
  rewrite Z.ltb_lt. split.
  - intros Hlt Heq. apply (f_equal Py.code_points) in Heq.
    rewrite take_points_count in Heq. lia.
  - intros Hne. destruct (Z.lt_ge_cases 50 (Z.of_nat (Py.code_points t))) as [H|H];
      [exact H|].
    exfalso. apply Hne, take_points_all. lia.
Qed.

Lemma preview_title_is_cut_witness :
  exists shown rest,
    line_title (mkLine 3 (JNum 3) (JStr EntrySamples.wide_title) false) = JStr shown
    /\ EntrySamples.wide_title = String.append shown rest
    /\ Py.begins_with_continuation rest = false
    /\ Py.code_points shown = Nat.min 50 (Py.code_points EntrySamples.wide_title)
    /\ (line_ellipsis (mkLine 3 (JNum 3) (JStr EntrySamples.wide_title) false) = true
        <-> shown <> EntrySamples.wide_title).
Proof.
  apply (preview_title_is_cut 3 (Sample.discussion 3 EntrySamples.wide_title)
           (mkLine 3 (JNum 3) (JStr EntrySamples.wide_title) false)
           EntrySamples.wide_title);
    reflexivity.
Defined.

Lemma slice_to_raises n v e : slice_to n v = Raise e -> py_error e.
Proof. destruct v; simpl; intros H; inversion H; exact I. Qed.

Lemma preview_line_of_raises i d e : preview_line_of i d = Raise e -> py_error e.
Proof.
  unfold preview_line_of. intros H.
  eapply obind_raises in H; [exact H | apply getitem_raises |]; clear H; intros ? ? H.
  eapply obind_raises in H; [exact H | apply getitem_raises |]; clear H; intros ? ? H.
  eapply obind_raises in H; [exact H | apply slice_to_raises |]; clear H; intros ? ? H.
  eapply obind_raises in H; [exact H | apply getitem_raises |]; clear H; intros ? ? H.
  eapply obind_raises in H; [exact H | apply len_raises |]; clear H; intros ? ? H.
  discriminate H.
Qed.

Lemma preview_line_of_index i d l : preview_line_of i d = Return l -> line_index l = i.
Proof.
  unfold preview_line_of, obind.
  destruct (Py.getitem d "number"); [|discriminate].
  destruct (Py.getitem d "title") as [title|]; [|discriminate].
  destruct (slice_to 50 title); [|discriminate].
  destruct (Py.len title); [|discriminate].
  intros H. injection H as <-. reflexivity.
Qed.

Lemma print_preview_raises : forall ds i ls e,
  print_preview i ds = (ls, Some e) -> py_error e.
Proof.
  induction ds as [|d ds IH]; intros i ls e; cbn [print_preview]; [discriminate|].
  destruct (preview_line_of i d) as [l|e'] eqn:El.
  - destruct (print_preview (i + 1) ds) as [ls' o] eqn:Ep.
    intros H. injection H as _ ->. exact (IH _ _ _ Ep).
  - intros H. injection H as _ <-. exact (preview_line_of_raises _ _ _ El).
Qed.

Lemma print_preview_lines : forall ds i ls,
  print_preview i ds = (ls, None) ->
  Forall2 (fun d l => preview_line_of (line_index l) d = Return l) ds ls
  /\ map line_index ls = map (fun k => i + Z.of_nat k) (seq 0 (List.length ls)).
Proof.
  induction ds as [|d ds IH]; intros i ls; cbn [print_preview].
  - intros H. injection H as <-. split; [constructor|reflexivity].
  - destruct (preview_line_of i d) as [l|e'] eqn:El; [|discriminate].
    destruct (print_preview (i + 1) ds) as [ls' o] eqn:Ep.
    intros H. injection H as <- ->.
    destruct (IH _ _ Ep) as [Hall Hidx].
    pose proof (preview_line_of_index _ _ _ El) as Hi.
    split.
    + constructor; [rewrite Hi; exact El|exact Hall].
    + cbn [map List.length seq]. rewrite Hi, Hidx, <- seq_shift, map_map.
      f_equal; [lia|]. apply map_ext. intros k. lia.
Qed.

Lemma report_raises v printed e : report v = (printed, Some e) -> py_error e.
Proof.
  unfold report.
  destruct (Py.len v) as [n|e'] eqn:El.
  2:{ intros H. injection H as _ <-. exact (len_raises _ _ El). }
  destruct (Py.truthy v); [|discriminate].
  destruct (obind (slice_to 5 v) Py.iter) as [first|e'] eqn:Es.
  - destruct (print_preview 1 first) as [ls o] eqn:Ep.
    intros H. injection H as _ ->. exact (print_preview_raises _ _ _ _ Ep).
  - intros H. injection H as _ <-.
    eapply obind_raises; [exact Es| |].
    + intros e0. apply slice_to_raises.
    + intros a e0. apply iter_raises.
Qed.

(** After a run that returned a list, the script prints the count, then,
    when the list is not empty, the header and one preview line for each of
    the first five discussions, numbered from 1 in the list's order. *)
Theorem preview_shows_first_five ds printed :
  report (JArr ds) = (printed, None) ->
  exists ls,
    printed = OutDone (Z.of_nat (List.length ds))
                :: match ds with
                   | [] => []
                   | _ :: _ => OutPreviewHeader :: map OutPreview ls
                   end
    /\ List.length ls = Nat.min 5 (List.length ds)
    /\ map line_index ls = map Z.of_nat (seq 1 (List.length ls))
    /\ Forall2 (fun d l => preview_line_of (line_index l) d = Return l)
               (firstn 5 ds) ls.
Proof.
  unfold report. cbn [Py.len Py.truthy slice_to obind Py.iter].
  destruct ds as [|d ds].
  - intros H. injection H as <-. exists []. repeat split. constructor.
  - destruct (print_preview 1 (firstn 5 (d :: ds))) as [ls o] eqn:Ep.
    intros H. injection H as <- ->.
    destruct (print_preview_lines _ _ _ Ep) as [Hall Hidx].
    exists ls. split; [reflexivity|].
    split; [rewrite <- (Forall2_length Hall); apply length_firstn|].
    split; [|exact Hall].
    rewrite Hidx, <- seq_shift, map_map. apply map_ext. intros k. lia.
Qed.

Lemma preview_shows_first_five_witness :
  exists ls,
    fst (report (JArr EntrySamples.six_discussions)) =
      OutDone 6 :: OutPreviewHeader :: map OutPreview ls
    /\ List.length ls = 5%nat
    /\ map line_index ls = [1; 2; 3; 4; 5]
    /\ Forall2 (fun d l => preview_line_of (line_index l) d = Return l)
               (firstn 5 EntrySamples.six_discussions) ls.
Proof.
  destruct (preview_shows_first_five EntrySamples.six_discussions
              (fst (report (JArr EntrySamples.six_discussions))))
    as (ls & Hpr & Hlen & Hidx & Hall); [reflexivity|].
  exists ls. split; [exact Hpr|]. split; [exact Hlen|].
  split; [rewrite Hidx, Hlen; reflexivity|exact Hall].
Defined.

(** The script ends in one of three ways.  It runs to its end after the
    fetch returned and the report was printed in full; or it exits with
    status 1, its last line naming an [Exception] the fetch raised or the
    report ran into; or it dies of the [KeyboardInterrupt] the fetch let
    through, having printed nothing.  Whatever the fetch left behind stays
    as it is. *)
Theorem main_terminations w :
  match main w with
  | (Finished, printed, w') =>
      exists discussions,
        fetch_discussions w = (Return discussions, w')
        /\ report discussions = (printed, None)
  | (Exited status, printed, w') =>
      status = 1
      /\ exists e,
           is_Exception e = true
           /\ ((fetch_discussions w = (Raise e, w') /\ printed = [OutFailure e])
               \/ exists discussions before,
                    fetch_discussions w = (Return discussions, w')
                    /\ report discussions = (before, Some e)
                    /\ printed = before ++ [OutFailure e])
  | (Uncaught e, printed, w') =>
      e = KeyboardInterrupt
      /\ printed = []
      /\ fetch_discussions w = (Raise KeyboardInterrupt, w')
  end.
Proof.
  pose proof (fetch_discussions_total w) as Htotal.
  unfold main. destruct (fetch_discussions w) as [r w'] eqn:Ef. cbn [fst] in Htotal.
  destruct r as [discussions|e].
  - destruct (report discussions) as [printed [e|]] eqn:Er.
    + pose proof (report_raises _ _ _ Er) as Hpy.
      unfold on_failure. rewrite (py_error_is_Exception e Hpy).
      split; [reflexivity|]. exists e. split; [exact (py_error_is_Exception e Hpy)|].
      right. exists discussions, printed. auto.
    + exists discussions. auto.
  - unfold on_failure. destruct (is_Exception e) eqn:Ee.
    + split; [reflexivity|]. exists e. split; [exact Ee|]. left. auto.
    + destruct e; try discriminate Ee.
      * auto.
      * exfalso. apply Htotal. reflexivity.
Qed.
